(** * Cantina ordering backend: cart service and order service

    A shallow embedding of [cartService.js] and [orderService.js] over a
    relational store.  Every Prisma call of the two services is one store
    primitive below; a service method is a computation in a state-and-error
    monad over the store.

    Conventions of the model:
    - monetary amounts ([price], [totalAmount], [total]) are JS numbers as the
      [Float] columns of the schema hold them: IEEE 754 binary64 values, added
      and multiplied with the roundings of the machine ([float]); quantities
      (an [Int] column) are integers ([Z]) and become numbers where the code
      multiplies a price by them ([js_number]);
    - row identifiers (uuid strings in the application) are numbers handed out
      by the store from a supply, [nextId];
    - [new Date()] and the store's [now()] defaults read the [now] argument of
      the operation;
    - JS [null]/[undefined] optional values are [option]. *)

From Stdlib Require Import ZArith NArith List String Ascii Lia Permutation.
From Stdlib Require Import PrimFloat SpecFloat FloatOps.
From stdpp Require Import base option list gmap strings sorting.

Set Warnings "-inexact-float".

Open Scope string_scope.
Open Scope list_scope.
Open Scope Z_scope.

(** ** Numbers *)

(** The JS number of an integer: the nearest binary64 value (the integer
    itself up to 2^53). *)
Definition js_number (z : Z) : float :=
  SF2Prim (binary_normalize prec emax z 0 false).

(** ** Data model *)

Definition Id := N.

Inductive OrderStatus :=
  | PENDENTE
  | EM_PREPARO
  | PRONTO
  | ENTREGUE
  | CANCELADO.

#[global] Instance OrderStatus_eq_dec : EqDecision OrderStatus.
Proof. solve_decision. Defined.

(** The string each status has in the store and in messages. *)
Definition status_name (s : OrderStatus) : string :=
  match s with
  | PENDENTE => "PENDENTE"
  | EM_PREPARO => "EM_PREPARO"
  | PRONTO => "PRONTO"
  | ENTREGUE => "ENTREGUE"
  | CANCELADO => "CANCELADO"
  end.

(** Modelled from the spec: [VALID_STATUS_TRANSITIONS] of utils/constants.js,
    which is not among the sources.  The table is the one of section 4.3 of
    the specification; the header comment of [OrderService.updateStatus]
    lists the same rows. *)
Definition VALID_STATUS_TRANSITIONS (s : OrderStatus) : list OrderStatus :=
  match s with
  | PENDENTE => [EM_PREPARO; CANCELADO]
  | EM_PREPARO => [PRONTO; CANCELADO]
  | PRONTO => [ENTREGUE; CANCELADO]
  | ENTREGUE => []
  | CANCELADO => []
  end.

(** [Array.prototype.includes] on a list of statuses. *)
Definition includes (l : list OrderStatus) (s : OrderStatus) : bool :=
  existsb (fun x => bool_decide (x = s)) l.

Record User := mkUser {
  user_id : Id;
  user_name : string;
  user_email : string;
  user_phone : option string
}.

Record Product := mkProduct {
  prod_id : Id;
  prod_name : string;
  prod_price : float;
  prod_isAvailable : bool
}.

Record Cart := mkCart {
  cart_id : Id;
  cart_userId : Id
}.

Record CartItem := mkCartItem {
  ci_id : Id;
  ci_cartId : Id;
  ci_productId : Id;
  ci_quantity : Z;
  ci_notes : option string;
  ci_createdAt : Z
}.

Record Order := mkOrder {
  o_id : Id;
  o_orderNumber : Z;
  o_userId : Id;
  o_totalAmount : float;
  o_notes : option string;
  o_status : OrderStatus;
  o_preparedAt : option Z;
  o_readyAt : option Z;
  o_deliveredAt : option Z;
  o_cancelledAt : option Z;
  o_createdAt : Z
}.

Record OrderItem := mkOrderItem {
  oi_id : Id;
  oi_orderId : Id;
  oi_productId : Id;
  oi_productName : string;
  oi_quantity : Z;
  oi_unitPrice : float;
  oi_totalPrice : float;
  oi_notes : option string
}.

Record OrderStatusHistory := mkHistory {
  h_id : Id;
  h_orderId : Id;
  h_status : OrderStatus;
  h_changedBy : option Id;
  h_notes : option string;
  h_changedAt : Z
}.

(** The store.  [carts] is keyed by the owning user ([userId] is a unique
    column: the services read it with [findUnique]); [orders], [products] and
    [users] are keyed by primary key; the other tables are row lists in
    insertion order. *)
Record DB := mkDB {
  users : gmap Id User;
  products : gmap Id Product;
  carts : gmap Id Cart;
  cartItems : list CartItem;
  orders : gmap Id Order;
  orderItems : list OrderItem;
  statusHistory : list OrderStatusHistory;
  counters : gmap string Z;
  nextId : Id
}.

Definition with_carts (f : gmap Id Cart -> gmap Id Cart) (db : DB) : DB :=
  mkDB (users db) (products db) (f (carts db)) (cartItems db) (orders db)
       (orderItems db) (statusHistory db) (counters db) (nextId db).

Definition with_cartItems (f : list CartItem -> list CartItem) (db : DB) : DB :=
  mkDB (users db) (products db) (carts db) (f (cartItems db)) (orders db)
       (orderItems db) (statusHistory db) (counters db) (nextId db).

Definition with_orders (f : gmap Id Order -> gmap Id Order) (db : DB) : DB :=
  mkDB (users db) (products db) (carts db) (cartItems db) (f (orders db))
       (orderItems db) (statusHistory db) (counters db) (nextId db).

Definition with_orderItems (f : list OrderItem -> list OrderItem) (db : DB) : DB :=
  mkDB (users db) (products db) (carts db) (cartItems db) (orders db)
       (f (orderItems db)) (statusHistory db) (counters db) (nextId db).

Definition with_statusHistory
    (f : list OrderStatusHistory -> list OrderStatusHistory) (db : DB) : DB :=
  mkDB (users db) (products db) (carts db) (cartItems db) (orders db)
       (orderItems db) (f (statusHistory db)) (counters db) (nextId db).

Definition with_counters (f : gmap string Z -> gmap string Z) (db : DB) : DB :=
  mkDB (users db) (products db) (carts db) (cartItems db) (orders db)
       (orderItems db) (statusHistory db) (f (counters db)) (nextId db).

Definition with_nextId (f : Id -> Id) (db : DB) : DB :=
  mkDB (users db) (products db) (carts db) (cartItems db) (orders db)
       (orderItems db) (statusHistory db) (counters db) (f (nextId db)).

(** ** Errors and the service monad *)

(** The statements of the order-creation transaction; a statement of the
    store may fail (constraint violation, lost connection, crash). *)
Inductive TxStep :=
  | CounterUpsert
  | OrderInsert
  | OrderItemInsert (k : nat)
  | HistoryInsert
  | CartPurge.

Inductive Error :=
  | HttpError (statusCode : Z) (message : string)
      (* [new Error(message)] with [error.statusCode] set *)
  | StoreFault (step : TxStep)
      (* a statement of the store threw *)
  | MissingRelation
      (* a required relation of an [include] has no row *)
  | RecordNotFound
      (* [update] of a row that does not exist *).

Inductive Result (A : Type) :=
  | Ok (a : A)
  | Err (e : Error).
Arguments Ok {A} a.
Arguments Err {A} e.

Definition is_ok {A} (r : Result A) : bool :=
  match r with Ok _ => true | Err _ => false end.

(** A computation reads and writes the store and returns or throws.  A throw
    keeps the writes made so far: only [transaction] undoes them. *)
Definition M (A : Type) : Type := DB -> DB * Result A.

Definition ret {A} (a : A) : M A := fun db => (db, Ok a).

Definition throw {A} (e : Error) : M A := fun db => (db, Err e).

Definition bind {A B} (m : M A) (k : A -> M B) : M B :=
  fun db =>
    match m db with
    | (db', Ok a) => k a db'
    | (db', Err e) => (db', Err e)
    end.

Notation "'let*' x ':=' c1 'in' c2" := (bind c1 (fun x => c2))
  (at level 10, x pattern, c1 at level 100, c2 at level 200).
Notation "c1 '>>' c2" := (bind c1 (fun _ => c2))
  (at level 100, c2 at level 200, right associativity).

Definition gets {A} (f : DB -> A) : M A := fun db => (db, Ok (f db)).

Definition modify (f : DB -> DB) : M unit := fun db => (f db, Ok tt).

(** [prisma.$transaction(async (tx) => body)]: the writes of [body] are
    committed when it returns and discarded when it throws. *)
Definition transaction {A} (body : M A) : M A :=
  fun db =>
    match body db with
    | (db', Ok a) => (db', Ok a)
    | (_, Err e) => (db, Err e)
    end.

(** The statement [s] of a transaction throws when the environment says so. *)
Definition tx_step {A} (fault : TxStep -> bool) (s : TxStep) (m : M A) : M A :=
  if fault s then throw (StoreFault s) else m.

Definition no_fault : TxStep -> bool := fun _ => false.

(** A new row identifier ([@default(uuid())]). *)
Definition fresh_id : M Id :=
  fun db => (with_nextId N.succ db, Ok (nextId db)).

Definition dquote : string := String (ascii_of_nat 34) EmptyString.

(** ** Store primitives (the Prisma calls of the two services) *)

Definition ORDER_COUNTER : string := "order_counter".

(** [prisma.product.findUnique({ where: { id } })] *)
Definition product_findUnique (productId : Id) : M (option Product) :=
  gets (fun db => products db !! productId).

(** [prisma.cart.findUnique({ where: { userId } })] *)
Definition cart_findUnique (userId : Id) : M (option Cart) :=
  gets (fun db => carts db !! userId).

(** [prisma.cart.create({ data: { userId } })] *)
Definition cart_create (userId : Id) : M Cart :=
  let* cid := fresh_id in
  let c := mkCart cid userId in
  modify (with_carts (insert userId c)) >>
  ret c.

(** The rows of [cartItem] of one cart, in table order. *)
Definition items_of_cart (cartId : Id) (rows : list CartItem) : list CartItem :=
  List.filter (fun it => N.eqb (ci_cartId it) cartId) rows.

(** [include: { product: true }] on cart items: [product] is a required
    relation, a row without its product makes the read throw. *)
Fixpoint include_product (prods : gmap Id Product) (items : list CartItem)
    : option (list (CartItem * Product)) :=
  match items with
  | [] => Some []
  | it :: rest =>
      match prods !! ci_productId it, include_product prods rest with
      | Some p, Some rest' => Some ((it, p) :: rest')
      | _, _ => None
      end
  end.

Definition cart_items_with_product (order_by : list CartItem -> list CartItem)
    (cartId : Id) : M (list (CartItem * Product)) :=
  fun db =>
    match include_product (products db)
            (order_by (items_of_cart cartId (cartItems db))) with
    | Some l => (db, Ok l)
    | None => (db, Err MissingRelation)
    end.

(** [findUnique({ where: { cartId_productId: { cartId, productId } } })] *)
Definition cartItem_findUnique (cartId productId : Id) : M (option CartItem) :=
  gets (fun db =>
    List.find (fun it => N.eqb (ci_cartId it) cartId && N.eqb (ci_productId it) productId)
              (cartItems db)).

(** [prisma.cartItem.findFirst({ where: { id: itemId, cartId } })] *)
Definition cartItem_findFirst (itemId cartId : Id) : M (option CartItem) :=
  gets (fun db =>
    List.find (fun it => N.eqb (ci_id it) itemId && N.eqb (ci_cartId it) cartId)
              (cartItems db)).

(** [prisma.cartItem.update({ where: { id }, data })]: [data] is the change
    applied to the row. *)
Definition cartItem_update (itemId : Id) (data : CartItem -> CartItem) : M unit :=
  modify (with_cartItems
    (List.map (fun it => if N.eqb (ci_id it) itemId then data it else it))).

(** [prisma.cartItem.create({ data: { cartId, productId, quantity, notes } })] *)
Definition cartItem_create (cartId productId : Id) (quantity : Z)
    (notes : option string) (now : Z) : M CartItem :=
  let* iid := fresh_id in
  let it := mkCartItem iid cartId productId quantity notes now in
  modify (with_cartItems (fun rows => rows ++ [it])) >>
  ret it.

(** [prisma.cartItem.delete({ where: { id } })] *)
Definition cartItem_delete (itemId : Id) : M unit :=
  modify (with_cartItems (List.filter (fun it => negb (N.eqb (ci_id it) itemId)))).

(** [cartItem.deleteMany({ where: { cartId } })] *)
Definition cartItem_deleteMany (cartId : Id) : M unit :=
  modify (with_cartItems (List.filter (fun it => negb (N.eqb (ci_cartId it) cartId)))).

(** [tx.counter.upsert({ where: { id }, update: { value: { increment: 1 } },
    create: { id, value: 1 } })]: returns the row value after the write. *)
Definition counter_upsert (id : string) : M Z :=
  fun db =>
    let v := match counters db !! id with
             | Some v => v + 1
             | None => 1
             end in
    (with_counters (insert id v) db, Ok v).

(** [orderBy: { createdAt: 'desc' }] on cart items and
    [orderBy: { changedAt: 'desc' }] on history entries. *)
Definition cart_item_newer : relation CartItem :=
  fun a b => ci_createdAt b <= ci_createdAt a.

Definition history_newer : relation OrderStatusHistory :=
  fun a b => h_changedAt b <= h_changedAt a.

#[global] Instance cart_item_newer_dec : RelDecision cart_item_newer.
Proof. intros a b. unfold cart_item_newer. apply _. Defined.

#[global] Instance history_newer_dec : RelDecision history_newer.
Proof. intros a b. unfold history_newer. apply _. Defined.

Definition by_createdAt_desc : list CartItem -> list CartItem :=
  merge_sort cart_item_newer.

Definition by_changedAt_desc : list OrderStatusHistory -> list OrderStatusHistory :=
  merge_sort history_newer.

Definition items_of_order (orderId : Id) (rows : list OrderItem) : list OrderItem :=
  List.filter (fun it => N.eqb (oi_orderId it) orderId) rows.

Definition history_of_order (orderId : Id) (rows : list OrderStatusHistory)
    : list OrderStatusHistory :=
  List.filter (fun h => N.eqb (h_orderId h) orderId) rows.

(** ** cartService.js *)

Module CartService.

(** The object [getCart] returns: [{ ...cart, total, itemCount }]. *)
Record CartView := mkCartView {
  cv_cart : Cart;
  cv_items : list (CartItem * Product);
  cv_total : float;
  cv_itemCount : Z
}.

Definition getCart (userId : Id) : M CartView :=
  let* found := cart_findUnique userId in
  let* loaded :=
    match found with
    | Some cart =>
        let* items := cart_items_with_product by_createdAt_desc (cart_id cart) in
        ret (cart, items)
    | None =>
        let* cart := cart_create userId in
        let* items := cart_items_with_product (fun l => l) (cart_id cart) in
        ret (cart, items)
    end in
  let cart := fst loaded in
  let items := snd loaded in
  let total :=
    fold_left (fun sum item =>
                 (sum + prod_price (snd item) * js_number (ci_quantity (fst item)))%float)
              items 0%float in
  ret (mkCartView cart items total
         (fold_left (fun sum item => sum + ci_quantity (fst item)) items 0)).

(** JS truthiness of an optional string: [null], [undefined] and the empty
    string are falsy. *)
Definition truthy (s : option string) : bool :=
  match s with
  | Some (String _ _) => true
  | _ => false
  end.

Definition addItem (userId productId : Id) (quantity : option Z)
    (notes : option string) (now : Z) : M CartView :=
  let quantity := default 1 quantity in
  let* product := product_findUnique productId in
  match product with
  | None => throw (HttpError 404 "Produto nao encontrado")
  | Some product =>
      if negb (prod_isAvailable product)
      then throw (HttpError 400 "Produto nao disponivel")
      else
        let* found := cart_findUnique userId in
        let* cart := match found with
                     | Some cart => ret cart
                     | None => cart_create userId
                     end in
        let* existingItem := cartItem_findUnique (cart_id cart) productId in
        match existingItem with
        | Some existingItem =>
            cartItem_update (ci_id existingItem) (fun row =>
              mkCartItem (ci_id row) (ci_cartId row) (ci_productId row)
                (ci_quantity existingItem + quantity)
                (if truthy notes then notes else ci_notes existingItem)
                (ci_createdAt row))
        | None =>
            let* _ := cartItem_create (cart_id cart) productId quantity notes now in
            ret tt
        end >>
        getCart userId
  end.

(** [quantity <= 0]; the comparison is false when [quantity] is
    [undefined]. *)
Definition nonpositive (quantity : option Z) : bool :=
  match quantity with
  | Some q => q <=? 0
  | None => false
  end.

(** [notes] is [None] for [undefined], [Some None] for [null]; a field that
    is [undefined] in [data] is left as it is by the store. *)
Definition updateItem (userId itemId : Id) (quantity : option Z)
    (notes : option (option string)) : M CartView :=
  let* cart := cart_findUnique userId in
  match cart with
  | None => throw (HttpError 404 "Carrinho nao encontrado")
  | Some cart =>
      let* item := cartItem_findFirst itemId (cart_id cart) in
      match item with
      | None => throw (HttpError 404 "Item nao encontrado no carrinho")
      | Some _ =>
          (if nonpositive quantity
           then cartItem_delete itemId
           else cartItem_update itemId (fun row =>
                  mkCartItem (ci_id row) (ci_cartId row) (ci_productId row)
                    (default (ci_quantity row) quantity)
                    (default (ci_notes row) notes)
                    (ci_createdAt row))) >>
          getCart userId
      end
  end.

Definition removeItem (userId itemId : Id) : M CartView :=
  let* cart := cart_findUnique userId in
  match cart with
  | None => throw (HttpError 404 "Carrinho nao encontrado")
  | Some cart =>
      let* item := cartItem_findFirst itemId (cart_id cart) in
      match item with
      | None => throw (HttpError 404 "Item nao encontrado no carrinho")
      | Some _ => cartItem_delete itemId >> getCart userId
      end
  end.

Definition clearCart (userId : Id) : M CartView :=
  let* cart := cart_findUnique userId in
  match cart with
  | None => throw (HttpError 404 "Carrinho nao encontrado")
  | Some cart => cartItem_deleteMany (cart_id cart) >> getCart userId
  end.

End CartService.

(** ** orderService.js *)

Module OrderService.

(** One element of [orderItems], the data of a nested [items: { create }]. *)
Record OrderItemData := mkOrderItemData {
  d_productId : Id;
  d_productName : string;
  d_quantity : Z;
  d_unitPrice : float;
  d_totalPrice : float;
  d_notes : option string
}.

(** An order with [include: { items }]. *)
Record OrderWithItems := mkOrderWithItems {
  ow_order : Order;
  ow_items : list OrderItem
}.

(** An order with [include: { items, user, statusHistory }]. *)
Record OrderDetail := mkOrderDetail {
  od_order : Order;
  od_items : list (OrderItem * option Product);
  od_user : option User;
  od_statusHistory : list OrderStatusHistory
}.

(** [prisma.order.findFirst({ where })]: [where] always has [id] and has
    [userId] when [owner] is given. *)
Definition order_findFirst (orderId : Id) (owner : option Id) : M (option Order) :=
  gets (fun db =>
    match orders db !! orderId with
    | Some o =>
        match owner with
        | Some userId => if N.eqb (o_userId o) userId then Some o else None
        | None => Some o
        end
    | None => None
    end).

(** [prisma.order.findUnique({ where: { id } })] *)
Definition order_findUnique (orderId : Id) : M (option Order) :=
  gets (fun db => orders db !! orderId).

(** The nested [items: { create: orderItems }]: one insert per element. *)
Fixpoint order_items_create (fault : TxStep -> bool) (orderId : Id) (k : nat)
    (items : list OrderItemData) : M (list OrderItem) :=
  match items with
  | [] => ret []
  | d :: rest =>
      let* row :=
        tx_step fault (OrderItemInsert k)
          (let* iid := fresh_id in
           let row := mkOrderItem iid orderId (d_productId d) (d_productName d)
                        (d_quantity d) (d_unitPrice d) (d_totalPrice d) (d_notes d) in
           modify (with_orderItems (fun rows => rows ++ [row])) >>
           ret row) in
      let* rows := order_items_create fault orderId (S k) rest in
      ret (row :: rows)
  end.

(** [tx.order.create({ data: { orderNumber, userId, totalAmount, notes,
    status, items: { create }, statusHistory: { create } }, include })] *)
Definition order_create (fault : TxStep -> bool) (orderNumber : Z) (userId : Id)
    (totalAmount : float) (notes : option string) (status : OrderStatus)
    (items : list OrderItemData)
    (historyStatus : OrderStatus) (historyNotes : option string)
    (now : Z) : M OrderWithItems :=
  tx_step fault OrderInsert
    (let* oid := fresh_id in
     let o := mkOrder oid orderNumber userId totalAmount notes status
                None None None None now in
     modify (with_orders (insert oid o)) >>
     let* rows := order_items_create fault oid 0 items in
     tx_step fault HistoryInsert
       (let* hid := fresh_id in
        modify (with_statusHistory (fun l =>
          l ++ [mkHistory hid oid historyStatus None historyNotes now])) >>
        ret (mkOrderWithItems o rows))).

(** [prisma.order.update({ where: { id }, data: { ...fields,
    statusHistory: { create: { status, changedBy, notes } } } })] *)
Definition order_update (orderId : Id) (data : Order -> Order)
    (historyStatus : OrderStatus) (changedBy : option Id)
    (historyNotes : option string) (now : Z) : M Order :=
  let* found := gets (fun db => orders db !! orderId) in
  match found with
  | None => throw RecordNotFound
  | Some o =>
      let o' := data o in
      modify (with_orders (insert orderId o')) >>
      let* hid := fresh_id in
      modify (with_statusHistory (fun l =>
        l ++ [mkHistory hid orderId historyStatus changedBy historyNotes now])) >>
      ret o'
  end.

(** The body of the [map] callback of [createFromCart]. *)
Definition order_item_data (item : CartItem * Product) (itemTotal : float)
    : OrderItemData :=
  mkOrderItemData (ci_productId (fst item)) (prod_name (snd item))
    (ci_quantity (fst item)) (prod_price (snd item)) itemTotal
    (ci_notes (fst item)).

(** [let totalAmount = 0; const orderItems = cart.items.map(...)]: the
    callback also adds to [totalAmount]. *)
Definition prepare_order_items (items : list (CartItem * Product))
    : float * list OrderItemData :=
  fold_left
    (fun (acc : float * list OrderItemData) item =>
       let itemTotal :=
         (prod_price (snd item) * js_number (ci_quantity (fst item)))%float in
       ((fst acc + itemTotal)%float, snd acc ++ [order_item_data item itemTotal]))
    items (0%float, []).

(** The callback [async (tx) => { ... }] handed to [prisma.$transaction]. *)
Definition create_order_tx (fault : TxStep -> bool) (cartId userId : Id)
    (totalAmount : float) (orderItems : list OrderItemData)
    (notes : option string) (now : Z) : M OrderWithItems :=
  let* counter := tx_step fault CounterUpsert (counter_upsert ORDER_COUNTER) in
  let* newOrder :=
    order_create fault counter userId totalAmount notes PENDENTE
      orderItems PENDENTE (Some "Pedido criado") now in
  tx_step fault CartPurge (cartItem_deleteMany cartId) >>
  ret newOrder.

Definition createFromCart (fault : TxStep -> bool) (userId : Id)
    (notes : option string) (now : Z) : M OrderWithItems :=
  let* cart := cart_findUnique userId in
  match cart with
  | None => throw (HttpError 400 "Carrinho vazio")
  | Some cart =>
      let* items := cart_items_with_product (fun l => l) (cart_id cart) in
      if Nat.eqb (List.length items) 0
      then throw (HttpError 400 "Carrinho vazio")
      else
        match List.find (fun item => negb (prod_isAvailable (snd item))) items with
        | Some item =>
            throw (HttpError 400
              ("Produto " +:+ dquote +:+ prod_name (snd item) +:+ dquote
               +:+ " nao esta mais disponivel"))
        | None =>
            let prepared := prepare_order_items items in
            let totalAmount := fst prepared in
            let orderItems := snd prepared in
            transaction
              (create_order_tx fault (cart_id cart) userId totalAmount
                 orderItems notes now)
        end
  end.

(** The [include] of [getById] and of [updateStatus]: items (with their
    product in [getById] only), customer, history by recency. *)
Definition order_detail (withProduct : bool) (o : Order) : M OrderDetail :=
  gets (fun db =>
    mkOrderDetail o
      (List.map (fun it =>
         (it, if withProduct then products db !! oi_productId it else None))
                (items_of_order (o_id o) (orderItems db)))
      (users db !! o_userId o)
      (by_changedAt_desc (history_of_order (o_id o) (statusHistory db)))).

Definition getById (id userId : Id) (isAdmin : bool) : M OrderDetail :=
  let* order := order_findFirst id (if isAdmin then None else Some userId) in
  match order with
  | None => throw (HttpError 404 "Pedido nao encontrado")
  | Some order => order_detail true order
  end.

Definition cancel (id userId : Id) (now : Z) : M OrderWithItems :=
  let* order := order_findFirst id (Some userId) in
  match order with
  | None => throw (HttpError 404 "Pedido nao encontrado")
  | Some order =>
      if negb (bool_decide (o_status order = PENDENTE))
      then throw (HttpError 400 "Apenas pedidos pendentes podem ser cancelados")
      else
        let* updatedOrder :=
          order_update id
            (fun o => mkOrder (o_id o) (o_orderNumber o) (o_userId o)
                        (o_totalAmount o) (o_notes o) CANCELADO
                        (o_preparedAt o) (o_readyAt o) (o_deliveredAt o)
                        (Some now) (o_createdAt o))
            CANCELADO None (Some "Cancelado pelo cliente") now in
        let* items := gets (fun db => items_of_order id (orderItems db)) in
        ret (mkOrderWithItems updatedOrder items)
  end.

(** [updateData] without its nested history entry: the new status and the
    timestamp that goes with it. *)
Definition updateData (newStatus : OrderStatus) (now : Z) (o : Order) : Order :=
  mkOrder (o_id o) (o_orderNumber o) (o_userId o) (o_totalAmount o) (o_notes o)
    newStatus
    (if bool_decide (newStatus = EM_PREPARO) then Some now else o_preparedAt o)
    (if bool_decide (newStatus = PRONTO) then Some now else o_readyAt o)
    (if bool_decide (newStatus = ENTREGUE) then Some now else o_deliveredAt o)
    (if bool_decide (newStatus = CANCELADO) then Some now else o_cancelledAt o)
    (o_createdAt o).

Definition updateStatus (id : Id) (newStatus : OrderStatus) (adminId : Id)
    (notes : option string) (now : Z) : M OrderDetail :=
  let* order := order_findUnique id in
  match order with
  | None => throw (HttpError 404 "Pedido nao encontrado")
  | Some order =>
      let validTransitions := VALID_STATUS_TRANSITIONS (o_status order) in
      if negb (includes validTransitions newStatus)
      then throw (HttpError 400
             ("Nao e possivel mudar de " +:+ status_name (o_status order)
              +:+ " para " +:+ status_name newStatus))
      else
        let* updatedOrder :=
          order_update id (updateData newStatus now) newStatus (Some adminId)
            notes now in
        order_detail false updatedOrder
  end.

(** *** The list methods *)

(** [filters] as [validateQuery(orderQuerySchema)] hands it to the two list
    methods: [page] and [limit] are integers from 1 up, or missing. *)
Record OrderFilters := mkOrderFilters {
  f_status : option OrderStatus;
  f_date : option Z;
  f_page : option positive;
  f_limit : option positive
}.

Record Pagination := mkPagination {
  pg_page : nat;
  pg_limit : nat;
  pg_total : nat;
  pg_totalPages : nat
}.

(** An order of a list answer, with [include: { items }] and, in the
    administrator's list, [include: { user }]. *)
Record ListedOrder := mkListedOrder {
  lo_order : Order;
  lo_items : list OrderItem;
  lo_user : option User
}.

Record OrderPage := mkOrderPage {
  op_orders : list ListedOrder;
  op_pagination : Pagination
}.

(** [orderBy: { createdAt: 'desc' }] on orders. *)
Definition order_newer : relation Order :=
  fun a b => o_createdAt b <= o_createdAt a.

#[global] Instance order_newer_dec : RelDecision order_newer.
Proof. intros a b. unfold order_newer. apply _. Defined.

(** The orders that satisfy [where], most recent first. *)
Definition orders_where (where_ : Order -> bool) (db : DB) : list Order :=
  merge_sort order_newer
    (List.filter where_ (List.map snd (map_to_list (orders db)))).

(** [prisma.order.findMany({ where, orderBy: { createdAt: 'desc' }, skip,
    take })] *)
Definition order_findMany (where_ : Order -> bool) (skip take : nat)
    : M (list Order) :=
  gets (fun db => firstn take (skipn skip (orders_where where_ db))).

(** [prisma.order.count({ where })] *)
Definition order_count (where_ : Order -> bool) : M nat :=
  gets (fun db =>
    List.length (List.filter where_ (List.map snd (map_to_list (orders db))))).

(** [Math.ceil(total / limit)] on a count and a limit of 1 or more. *)
Definition ceil_div (total limit : nat) : nat :=
  if Nat.eqb (total mod limit) 0 then (total / limit)%nat
  else S (total / limit).

(** [where.status = status], set when [status] is given. *)
Definition status_matches (status : option OrderStatus) (o : Order) : bool :=
  match status with
  | Some s => bool_decide (o_status o = s)
  | None => true
  end.

Definition getUserOrders (userId : Id) (filters : OrderFilters) : M OrderPage :=
  let status := f_status filters in
  let page := default 1%positive (f_page filters) in
  let limit := default 20%positive (f_limit filters) in
  let skip := ((Pos.to_nat page - 1) * Pos.to_nat limit)%nat in
  let where_ := fun o => N.eqb (o_userId o) userId && status_matches status o in
  let* found := order_findMany where_ skip (Pos.to_nat limit) in
  let* listed := gets (fun db =>
    List.map (fun o => mkListedOrder o (items_of_order (o_id o) (orderItems db)) None)
             found) in
  let* total := order_count where_ in
  ret (mkOrderPage listed
         (mkPagination (Pos.to_nat page) (Pos.to_nat limit) total
            (ceil_div total (Pos.to_nat limit)))).

(** [where.createdAt = { gte: startOfDay, lte: endOfDay }], set when [date]
    is given.  [startOfDay] and [endOfDay] are what [new Date(date)] gives
    after [setHours(0, 0, 0, 0)] and [setHours(23, 59, 59, 999)] in the time
    zone of the server. *)
Definition date_matches (startOfDay endOfDay : Z -> Z) (date : option Z)
    (o : Order) : bool :=
  match date with
  | Some d => (startOfDay d <=? o_createdAt o) && (o_createdAt o <=? endOfDay d)
  | None => true
  end.

(** Instants are milliseconds since the epoch, UTC.
    [Date.prototype.setHours(h, m, s, ms)] on the instant [t], in a zone
    whose local time is [tz] milliseconds ahead of UTC around that day: the
    local calendar day of [t] is kept and the local time of day is set. *)
Definition msPerDay : Z := 86400000.

Definition setHours (tz t h m s ms : Z) : Z :=
  msPerDay * ((t + tz) / msPerDay) + (((h * 60 + m) * 60 + s) * 1000 + ms) - tz.

(** [const startOfDay = new Date(date); startOfDay.setHours(0, 0, 0, 0)] and
    [const endOfDay = new Date(date); endOfDay.setHours(23, 59, 59, 999)];
    [date] is the instant [Joi.date()] read from the query, midnight UTC for
    a value like 2024-01-15. *)
Definition local_startOfDay (tz date : Z) : Z := setHours tz date 0 0 0 0.

Definition local_endOfDay (tz date : Z) : Z := setHours tz date 23 59 59 999.

Definition getAll (startOfDay endOfDay : Z -> Z) (filters : OrderFilters)
    : M OrderPage :=
  let status := f_status filters in
  let date := f_date filters in
  let page := default 1%positive (f_page filters) in
  let limit := default 20%positive (f_limit filters) in
  let skip := ((Pos.to_nat page - 1) * Pos.to_nat limit)%nat in
  let where_ := fun o =>
    status_matches status o && date_matches startOfDay endOfDay date o in
  let* found := order_findMany where_ skip (Pos.to_nat limit) in
  let* listed := gets (fun db =>
    List.map (fun o => mkListedOrder o (items_of_order (o_id o) (orderItems db))
                         (users db !! o_userId o))
             found) in
  let* total := order_count where_ in
  ret (mkOrderPage listed
         (mkPagination (Pos.to_nat page) (Pos.to_nat limit) total
            (ceil_div total (Pos.to_nat limit)))).

End OrderService.

(** ** The request layer

    One constructor per route of [cartRoutes] and [orderRoutes] that reaches
    the two services; [handle] is what the controller does with it. *)

Inductive Request :=
  | GetCart (userId : Id)
  | AddItem (userId productId : Id) (quantity : option Z)
      (notes : option string) (now : Z)
  | UpdateItem (userId itemId : Id) (quantity : option Z)
      (notes : option (option string))
  | RemoveItem (userId itemId : Id)
  | ClearCart (userId : Id)
  | CreateOrder (fault : TxStep -> bool) (userId : Id) (notes : option string)
      (now : Z)
  | GetOrderById (id userId : Id) (isAdmin : bool)
  | CancelOrder (id userId : Id) (now : Z)
  | UpdateOrderStatus (id : Id) (newStatus : OrderStatus) (adminId : Id)
      (notes : option string) (now : Z).

Inductive Response :=
  | CartResponse (r : Result CartService.CartView)
  | OrderResponse (r : Result OrderService.OrderWithItems)
  | DetailResponse (r : Result OrderService.OrderDetail).

Definition handle (req : Request) (db : DB) : DB * Response :=
  match req with
  | GetCart u =>
      let r := CartService.getCart u db in (fst r, CartResponse (snd r))
  | AddItem u p q n now =>
      let r := CartService.addItem u p q n now db in (fst r, CartResponse (snd r))
  | UpdateItem u i q n =>
      let r := CartService.updateItem u i q n db in (fst r, CartResponse (snd r))
  | RemoveItem u i =>
      let r := CartService.removeItem u i db in (fst r, CartResponse (snd r))
  | ClearCart u =>
      let r := CartService.clearCart u db in (fst r, CartResponse (snd r))
  | CreateOrder fault u n now =>
      let r := OrderService.createFromCart fault u n now db in
      (fst r, OrderResponse (snd r))
  | GetOrderById i u a =>
      let r := OrderService.getById i u a db in (fst r, DetailResponse (snd r))
  | CancelOrder i u now =>
      let r := OrderService.cancel i u now db in (fst r, OrderResponse (snd r))
  | UpdateOrderStatus i s a n now =>
      let r := OrderService.updateStatus i s a n now db in
      (fst r, DetailResponse (snd r))
  end.

(** The order number a request minted, if it created an order. *)
Definition minted (req : Request) (resp : Response) : list Z :=
  match req, resp with
  | CreateOrder _ _ _ _, OrderResponse (Ok res) =>
      [o_orderNumber (OrderService.ow_order res)]
  | _, _ => []
  end.

(** Serves the requests one after the other; returns the final store and the
    order numbers minted, oldest first. *)
Fixpoint run (reqs : list Request) (db : DB) : DB * list Z :=
  match reqs with
  | [] => (db, [])
  | req :: rest =>
      let r := handle req db in
      let r' := run rest (fst r) in
      (fst r', minted req (snd r) ++ snd r')
  end.

(** ** errorMiddleware.js

    The controllers hand whatever a service throws to [next], and the
    application's last middleware turns it into the answer. *)

(** The fields of a thrown object that [errorMiddleware] reads.
    [err_target] is [err.meta?.target?.[0]]. *)
Record JsError := mkJsError {
  err_code : option string;
  err_name : string;
  err_target : option string;
  err_statusCode : option Z;
  err_message : string;
  err_stack : option string
}.

(** [res.status(status).json({ success: false, message, stack })]; a field
    that is absent or [undefined] is not in the JSON sent. *)
Record ErrorResponse := mkErrorResponse {
  res_status : Z;
  res_message : string;
  res_stack : option string
}.

Definition code_is (err : JsError) (code : string) : bool :=
  match err_code err with
  | Some c => String.eqb c code
  | None => false
  end.

(** [a || b] on strings: the empty string is falsy. *)
Definition or_string (a : option string) (b : string) : string :=
  match a with
  | Some (String c s) => String c s
  | _ => b
  end.

(** [production] is [process.env.NODE_ENV === 'production']. *)
Definition errorMiddleware (production : bool) (err : JsError) : ErrorResponse :=
  if code_is err "P2025" then
    mkErrorResponse 404 "Registro nao encontrado" None
  else if code_is err "P2002" then
    let field := or_string (err_target err) "campo" in
    mkErrorResponse 409 ("Este " +:+ field +:+ " ja esta em uso") None
  else if code_is err "P2003" then
    mkErrorResponse 400 "Referencia invalida para registro relacionado" None
  else if String.eqb (err_name err) "ValidationError" then
    mkErrorResponse 400 (err_message err) None
  else if String.eqb (err_name err) "JsonWebTokenError" then
    mkErrorResponse 401 "Token invalido" None
  else if String.eqb (err_name err) "TokenExpiredError" then
    mkErrorResponse 401 "Token expirado" None
  else
    let statusCode := match err_statusCode err with
                      | Some 0 | None => 500
                      | Some c => c
                      end in
    let message := or_string (Some (err_message err)) "Erro interno do servidor" in
    mkErrorResponse statusCode
      (if production then "Erro interno do servidor" else message)
      (if negb production then err_stack err else None).

(** The object the services throw: [new Error(message)] with
    [error.statusCode] set; [stack] is the trace the runtime attached. *)
Definition thrown (statusCode : Z) (message : string) (stack : option string)
    : JsError :=
  mkJsError None "Error" None (Some statusCode) message stack.

(** The error a controller hands to [next], if the service threw. *)
Definition response_error (resp : Response) : option Error :=
  match resp with
  | CartResponse (Err e) | OrderResponse (Err e) | DetailResponse (Err e) => Some e
  | _ => None
  end.

(** ** Vocabulary of the properties *)

Definition sum_Z (l : list Z) : Z := foldr Z.add 0 l.

(** The sum of numbers as the code takes it: from 0, one addition per
    element, left to right, each addition rounded to a binary64 value.  The
    result depends on the order of the elements. *)
Definition sum_numbers (l : list float) : float :=
  fold_left PrimFloat.add l 0%float.

(** Current price of the product of a cart row, times its quantity, as a
    number. *)
Definition line_total (db : DB) (it : CartItem) : float :=
  match products db !! ci_productId it with
  | Some p => (prod_price p * js_number (ci_quantity it))%float
  | None => 0%float
  end.

(** The total of cart rows taken in the order given. *)
Definition rows_total (db : DB) (rows : list CartItem) : float :=
  sum_numbers (List.map (line_total db) rows).

(** The total of a cart as [getCart] adds it up: rows by recency. *)
Definition cart_total (db : DB) (cartId : Id) : float :=
  rows_total db (by_createdAt_desc (items_of_cart cartId (cartItems db))).

(** The value of a finite number, exactly, in units of 2^-1074. *)
Definition exact_units (x : float) : option Z :=
  match Prim2SF x with
  | S754_zero _ => Some 0
  | S754_finite s m e => Some ((if s then -1 else 1) * Z.pos m * 2 ^ (e + 1074))
  | _ => None
  end.

(** The sum over cart rows of price times quantity in exact arithmetic, in
    units of 2^-1074: what the rows add up to when nothing is rounded. *)
Definition exact_total (db : DB) (rows : list CartItem) : option Z :=
  foldr (fun it acc =>
           match products db !! ci_productId it, acc with
           | Some p, Some a =>
               match exact_units (prod_price p) with
               | Some u => Some (u * ci_quantity it + a)
               | None => None
               end
           | _, _ => None
           end)
        (Some 0) rows.

Definition cart_count (db : DB) (cartId : Id) : Z :=
  sum_Z (List.map ci_quantity (items_of_cart cartId (cartItems db))).

(** The product of a cart row exists and is marked available. *)
Definition is_available (db : DB) (it : CartItem) : bool :=
  match products db !! ci_productId it with
  | Some p => prod_isAvailable p
  | None => false
  end.

(** The rows of the cart [cartId] for the product [productId]. *)
Definition rows_of_product (cartId productId : Id) (rows : list CartItem)
    : list CartItem :=
  List.filter (fun it => N.eqb (ci_cartId it) cartId && N.eqb (ci_productId it) productId)
              rows.

(** At most one cart row per (cart, product) pair. *)
Definition cart_key (it : CartItem) : Id * Id := (ci_cartId it, ci_productId it).

Definition unique_cart_items (db : DB) : Prop :=
  NoDup (List.map cart_key (cartItems db)).

(** Value of the order counter; a store without the row counts as 0, the
    value the seed script gives it. *)
Definition counter_value (db : DB) : Z :=
  default 0 (counters db !! ORDER_COUNTER).

(** The transition table as the specification lists it. *)
Definition legal_transitions : list (OrderStatus * OrderStatus) :=
  [ (PENDENTE, EM_PREPARO); (PENDENTE, CANCELADO);
    (EM_PREPARO, PRONTO); (EM_PREPARO, CANCELADO);
    (PRONTO, ENTREGUE); (PRONTO, CANCELADO) ].

(** Store integrity: identifiers in use were handed out by the supply, an
    order is filed under its own identifier, and a cart row references an
    existing product (the foreign key of the schema; the product service only
    ever marks a product unavailable, it removes none). *)
Record wf (db : DB) : Prop := mkWf {
  wf_carts : map_Forall (fun _ c => (cart_id c < nextId db)%N) (carts db);
  wf_cartItems : Forall (fun it => (ci_cartId it < nextId db)%N) (cartItems db);
  wf_orders :
    map_Forall (fun k o => (k < nextId db)%N /\ o_id o = k) (orders db);
  wf_orderItems : Forall (fun r => (oi_orderId r < nextId db)%N) (orderItems db);
  wf_history : Forall (fun h => (h_orderId h < nextId db)%N) (statusHistory db);
  wf_products :
    Forall (fun it => is_Some (products db !! ci_productId it)) (cartItems db)
}.

(** A row written from a cart row holds the product name and price the
    product table has at that moment. *)
Definition snapshot_of (db : DB) (it : CartItem) (row : OrderItem) : Prop :=
  oi_productId row = ci_productId it /\
  oi_quantity row = ci_quantity it /\
  oi_notes row = ci_notes it /\
  exists p, products db !! ci_productId it = Some p /\
            oi_productName row = prod_name p /\
            oi_unitPrice row = prod_price p /\
            oi_totalPrice row
              = (prod_price p * js_number (ci_quantity it))%float.

(** The rows the nested [items: { create }] writes for the order [orderId],
    the first of them under identifier [first]. *)
Fixpoint order_rows (orderId first : Id) (items : list OrderService.OrderItemData)
    : list OrderItem :=
  match items with
  | [] => []
  | d :: rest =>
      mkOrderItem first orderId (OrderService.d_productId d)
        (OrderService.d_productName d) (OrderService.d_quantity d)
        (OrderService.d_unitPrice d) (OrderService.d_totalPrice d)
        (OrderService.d_notes d)
      :: order_rows orderId (N.succ first) rest
  end.

(** The store a successful [createFromCart] leaves: counter row written,
    order, order rows and first history entry added, cart rows of [cartId]
    removed, identifiers consumed. *)
Definition created_store (db : DB) (cartId : Id) (o : Order)
    (rows : list OrderItem) (now : Z) : DB :=
  mkDB (users db) (products db) (carts db)
    (List.filter (fun it => negb (N.eqb (ci_cartId it) cartId)) (cartItems db))
    (<[o_id o := o]> (orders db))
    (orderItems db ++ rows)
    (statusHistory db ++
       [mkHistory (N.succ (nextId db) + N.of_nat (List.length rows))%N (o_id o)
          PENDENTE None (Some "Pedido criado") now])
    (<[ORDER_COUNTER := o_orderNumber o]> (counters db))
    (N.succ (N.succ (nextId db) + N.of_nat (List.length rows)))%N.

(** No statement of a creation transaction with [n] order rows fails. *)
Definition faultless (fault : TxStep -> bool) (n : nat) : Prop :=
  fault CounterUpsert = false /\
  fault OrderInsert = false /\
  (forall j, (j < n)%nat -> fault (OrderItemInsert j) = false) /\
  fault HistoryInsert = false /\
  fault CartPurge = false.

(** The store fails at the statement [s] and nowhere else. *)
Definition fault_at (s : TxStep) : TxStep -> bool :=
  fun s' =>
    match s, s' with
    | CounterUpsert, CounterUpsert => true
    | OrderInsert, OrderInsert => true
    | OrderItemInsert j, OrderItemInsert k => Nat.eqb j k
    | HistoryInsert, HistoryInsert => true
    | CartPurge, CartPurge => true
    | _, _ => false
    end.

(** ** Stores of the examples *)

(** Nothing written yet. *)
Definition empty_db : DB :=
  mkDB ∅ ∅ ∅ [] ∅ [] [] ∅ 1%N.

(** Three products, the third one off the menu. *)
Definition demo_products : gmap Id Product :=
  <[1%N := mkProduct 1%N "Coxinha" 5.5 true]>
    (<[2%N := mkProduct 2%N "Agua Mineral" 3.25 true]>
       (<[3%N := mkProduct 3%N "Pudim" 6 false]> ∅)).

Definition demo_db : DB :=
  mkDB ∅ demo_products ∅ [] ∅ [] [] ∅ 10%N.

(** Customer 7 has put two of product 1 and one of product 2 in the cart. *)
Definition demo_cart_db : DB :=
  fst (CartService.addItem 7%N 2%N None None 101
         (fst (CartService.addItem 7%N 1%N (Some 2) None 100 demo_db))).

(** The cart of [demo_cart_db] after the second product was taken off the
    menu. *)
Definition demo_unavailable_db : DB :=
  mkDB (users demo_cart_db)
    (<[2%N := mkProduct 2%N "Agua Mineral" 3.25 false]> (products demo_cart_db))
    (carts demo_cart_db) (cartItems demo_cart_db) (orders demo_cart_db)
    (orderItems demo_cart_db) (statusHistory demo_cart_db)
    (counters demo_cart_db) (nextId demo_cart_db).

(** Customer 7 has ordered the cart of [demo_cart_db]. *)
Definition demo_order_db : DB :=
  fst (OrderService.createFromCart no_fault 7%N (Some "Bloco B") 200 demo_cart_db).

(** The order [demo_order_db] holds. *)
Definition demo_order : Order :=
  mkOrder 13%N 1 7%N 14.25 (Some "Bloco B") PENDENTE None None None None 200.

(** Three sweets priced 0.10, 0.20 and 0.30. *)
Definition demo_decimal_products : gmap Id Product :=
  <[1%N := mkProduct 1%N "Bala" 0.1 true]>
    (<[2%N := mkProduct 2%N "Chiclete" 0.2 true]>
       (<[3%N := mkProduct 3%N "Pirulito" 0.3 true]> ∅)).

Definition demo_decimal_db : DB :=
  mkDB ∅ demo_decimal_products ∅ [] ∅ [] [] ∅ 10%N.

(** Customer 7 has put one of each sweet in the cart, the cheapest first. *)
Definition demo_decimal_cart_db : DB :=
  fst (CartService.addItem 7%N 3%N None None 102
         (fst (CartService.addItem 7%N 2%N None None 101
                 (fst (CartService.addItem 7%N 1%N None None 100 demo_decimal_db))))).

(** The same three sweets, put in the cart the dearest first. *)
Definition demo_decimal_rev_cart_db : DB :=
  fst (CartService.addItem 7%N 1%N None None 102
         (fst (CartService.addItem 7%N 2%N None None 101
                 (fst (CartService.addItem 7%N 3%N None None 100 demo_decimal_db))))).

(** The rows of [demo_order]. *)
Definition demo_order_rows : list OrderItem :=
  [ mkOrderItem 14%N 13%N 1%N "Coxinha" 2 5.5 11 None;
    mkOrderItem 15%N 13%N 2%N "Agua Mineral" 1 3.25 3.25 None ].

(** [demo_cart_db] after customer 8 has put three of product 2 in a cart. *)
Definition demo_two_carts_db : DB :=
  fst (CartService.addItem 8%N 2%N (Some 3) None 102 demo_cart_db).

(** Two orders of customer 7, created at noon of 14 and of 15 January 2024
    on a server three hours behind UTC. *)
Definition demo_order_14 : Order :=
  mkOrder 1%N 1 7%N 5.5 None PENDENTE None None None None 1705244400000.

Definition demo_order_15 : Order :=
  mkOrder 2%N 2 7%N 3.25 None PENDENTE None None None None 1705330800000.

Definition demo_days_db : DB :=
  mkDB ∅ demo_products ∅ []
    (<[1%N := demo_order_14]> (<[2%N := demo_order_15]> ∅)) [] [] ∅ 10%N.

(** The order customer 7 gets for the cart of [demo_decimal_cart_db]. *)
Definition demo_decimal_order : Order :=
  mkOrder 14%N 1 7%N 0.6000000000000001 None PENDENTE None None None None 200.

(** Request sequences of the examples. *)
Definition demo_decimal_to_order : list Request :=
  [ AddItem 7%N 1%N None None 100;
    AddItem 7%N 2%N None None 101;
    AddItem 7%N 3%N None None 102;
    CreateOrder no_fault 7%N None 200 ].

Definition demo_lifecycle : list Request :=
  [ AddItem 7%N 1%N (Some 2) None 100;
    CreateOrder no_fault 7%N None 110;
    UpdateOrderStatus 12%N EM_PREPARO 1%N None 120;
    UpdateOrderStatus 12%N CANCELADO 1%N None 130 ].

Definition demo_two_orders : list Request :=
  [ AddItem 7%N 1%N (Some 2) None 100;
    CreateOrder no_fault 7%N None 110;
    AddItem 8%N 2%N None None 120;
    CreateOrder no_fault 8%N None 130 ].

Definition demo_to_order : list Request :=
  [ AddItem 7%N 1%N (Some 2) None 100;
    AddItem 7%N 2%N None None 101;
    CreateOrder no_fault 7%N (Some "Bloco B") 200 ].

Definition demo_after_order : list Request :=
  [ UpdateOrderStatus 13%N EM_PREPARO 1%N None 300;
    AddItem 7%N 3%N None None 310;
    CancelOrder 13%N 7%N 320 ].

Definition demo_back_to_pending : list Request :=
  [ UpdateOrderStatus 13%N EM_PREPARO 1%N None 300;
    UpdateOrderStatus 13%N PENDENTE 1%N None 310 ].

(** What customer 7 and an administrator do while customer 8 does nothing. *)
Definition demo_other_customer : list Request :=
  [ AddItem 7%N 2%N (Some 4) None 300;
    UpdateItem 7%N 11%N (Some 1) None;
    GetCart 9%N;
    CreateOrder no_fault 7%N None 310;
    UpdateOrderStatus 16%N EM_PREPARO 1%N None 320;
    AddItem 7%N 1%N None None 330;
    ClearCart 7%N ].

(** ** Store integrity is decidable *)

#[global] Instance wf_dec (db : DB) : Decision (wf db).
Proof.
  refine (cast_if (decide (
    map_Forall (fun _ c => (cart_id c < nextId db)%N) (carts db) /\
    Forall (fun it => (ci_cartId it < nextId db)%N) (cartItems db) /\
    map_Forall (fun k o => (k < nextId db)%N /\ o_id o = k) (orders db) /\
    Forall (fun r => (oi_orderId r < nextId db)%N) (orderItems db) /\
    Forall (fun h => (h_orderId h < nextId db)%N) (statusHistory db) /\
    Forall (fun it => is_Some (products db !! ci_productId it)) (cartItems db)))).
  - destruct a as (?&?&?&?&?&?). by constructor.
  - intros [H1 H2 H3 H4 H5 H6].
    exact (n (conj H1 (conj H2 (conj H3 (conj H4 (conj H5 H6)))))).
Defined.

#[global] Instance unique_cart_items_dec (db : DB) : Decision (unique_cart_items db).
Proof. unfold unique_cart_items. apply _. Defined.

(** Two history entries always compare: the sort by recency is total. *)
#[global] Instance history_newer_total : Total history_newer.
Proof. intros a b. unfold history_newer. lia. Qed.

#[global] Instance order_newer_total : Total OrderService.order_newer.
Proof. intros a b. unfold OrderService.order_newer. lia. Qed.

(** ** Vocabulary of the further properties *)

(** How far along its life an order is. *)
Definition status_rank (s : OrderStatus) : nat :=
  match s with
  | PENDENTE => 0
  | EM_PREPARO => 1
  | PRONTO => 2
  | ENTREGUE => 3
  | CANCELADO => 3
  end.

(** The columns of an order that no method writes after the creation. *)
Definition same_order_core (o o' : Order) : Prop :=
  o_id o' = o_id o /\
  o_orderNumber o' = o_orderNumber o /\
  o_userId o' = o_userId o /\
  o_totalAmount o' = o_totalAmount o /\
  o_notes o' = o_notes o /\
  o_createdAt o' = o_createdAt o.

(** What serving one request does to the order tables: nothing, one order
    created with its rows and first history entry, or one order moved along a
    row of the transition table with one history entry. *)
Inductive OrderEffect (db db' : DB) : Prop :=
  | effect_none :
      orders db' = orders db ->
      orderItems db' = orderItems db ->
      statusHistory db' = statusHistory db ->
      counters db' = counters db ->
      OrderEffect db db'
  | effect_created (o : Order) (rows : list OrderItem) (h : OrderStatusHistory) :
      o_id o = nextId db ->
      o_status o = PENDENTE ->
      o_orderNumber o = counter_value db + 1 ->
      o_totalAmount o = sum_numbers (List.map oi_totalPrice rows) ->
      Forall (fun r => oi_orderId r = o_id o /\
                       oi_totalPrice r
                         = (oi_unitPrice r * js_number (oi_quantity r))%float) rows ->
      h_orderId h = o_id o ->
      h_status h = PENDENTE ->
      orders db' = <[o_id o := o]> (orders db) ->
      orderItems db' = orderItems db ++ rows ->
      statusHistory db' = statusHistory db ++ [h] ->
      counters db' = <[ORDER_COUNTER := o_orderNumber o]> (counters db) ->
      OrderEffect db db'
  | effect_moved (id : Id) (o o' : Order) (h : OrderStatusHistory) :
      orders db !! id = Some o ->
      same_order_core o o' ->
      In (o_status o, o_status o') legal_transitions ->
      h_orderId h = id ->
      h_status h = o_status o' ->
      orders db' = <[id := o']> (orders db) ->
      orderItems db' = orderItems db ->
      statusHistory db' = statusHistory db ++ [h] ->
      counters db' = counters db ->
      OrderEffect db db'.

(** The history of every order ends with the entry of its current status
    and has no more entries before it than the status is steps away from
    PENDENTE. *)
Definition history_tracks_status (db : DB) : Prop :=
  forall id o, orders db !! id = Some o ->
    exists pre h,
      history_of_order id (statusHistory db) = pre ++ [h] /\
      h_status h = o_status o /\
      (List.length pre <= status_rank (o_status o))%nat.

(** The counter is not negative, order numbers lie between 1 and the
    counter, and no two orders share one. *)
Definition order_numbers_ok (db : DB) : Prop :=
  0 <= counter_value db /\
  (forall id o, orders db !! id = Some o ->
                1 <= o_orderNumber o <= counter_value db) /\
  (forall id1 id2 o1 o2,
     orders db !! id1 = Some o1 -> orders db !! id2 = Some o2 ->
     o_orderNumber o1 = o_orderNumber o2 -> id1 = id2).

(** The total of every order is what adding the totals of its rows gives,
    from 0 and in the order of the rows, each addition rounded; the total of
    a row is its unit price times its quantity, rounded. *)
Definition order_totals_ok (db : DB) : Prop :=
  forall id o, orders db !! id = Some o ->
    o_totalAmount o
      = sum_numbers (List.map oi_totalPrice (items_of_order id (orderItems db))) /\
    Forall (fun r => oi_totalPrice r
                     = (oi_unitPrice r * js_number (oi_quantity r))%float)
           (items_of_order id (orderItems db)).

(** Cart rows have identifiers of their own, handed out by the supply, and
    no two carts share an identifier. *)
Record cart_tables_ok (db : DB) : Prop := mkCartTablesOk {
  cto_row_ids : NoDup (List.map ci_id (cartItems db));
  cto_row_ids_below : Forall (fun it => (ci_id it < nextId db)%N) (cartItems db);
  cto_cart_ids :
    NoDup (List.map (fun kc => cart_id (snd kc)) (map_to_list (carts db)))
}.

#[global] Instance cart_tables_ok_dec (db : DB) : Decision (cart_tables_ok db).
Proof.
  refine (cast_if (decide (
    NoDup (List.map ci_id (cartItems db)) /\
    Forall (fun it => (ci_id it < nextId db)%N) (cartItems db) /\
    NoDup (List.map (fun kc => cart_id (snd kc)) (map_to_list (carts db)))))).
  - destruct a as (?&?&?). by constructor.
  - intros [H1 H2 H3]. exact (n (conj H1 (conj H2 H3))).
Defined.

(** The customer a request acts for on the cart tables. *)
Definition cart_actor (req : Request) : option Id :=
  match req with
  | GetCart u | AddItem u _ _ _ _ | UpdateItem u _ _ _ | RemoveItem u _
  | ClearCart u | CreateOrder _ u _ _ => Some u
  | GetOrderById _ _ _ | CancelOrder _ _ _ | UpdateOrderStatus _ _ _ _ _ => None
  end.

Definition user_cart_count (db : DB) (u : Id) : Z :=
  match carts db !! u with
  | Some c => cart_count db (cart_id c)
  | None => 0
  end.

(** What serving one request does to the rows of the cart table, for the
    cart [c] of the customer it acts for: nothing, rows of [c] deleted, rows
    of [c] rewritten in place, or one row with a new identifier added to
    [c].  [n] and [n'] are the identifier supply before and after. *)
Inductive RowsEffect (c : Cart) (n n' : Id) (rows rows' : list CartItem) : Prop :=
  | rows_same :
      rows' = rows ->
      RowsEffect c n n' rows rows'
  | rows_dropped (f : CartItem -> bool) :
      rows' = List.filter f rows ->
      (forall x, In x rows -> f x = false -> ci_cartId x = cart_id c) ->
      RowsEffect c n n' rows rows'
  | rows_rewritten (g : CartItem -> CartItem) :
      rows' = List.map g rows ->
      (forall x, ci_id (g x) = ci_id x /\ ci_cartId (g x) = ci_cartId x) ->
      (forall x, In x rows -> ci_cartId x <> cart_id c -> g x = x) ->
      RowsEffect c n n' rows rows'
  | rows_added (it : CartItem) :
      rows' = rows ++ [it] ->
      (n <= ci_id it < n')%N ->
      ci_cartId it = cart_id c ->
      RowsEffect c n n' rows rows'.

(** The store after the cart of [u] was created, when [u] had none. *)
Definition with_new_cart (u : Id) (db : DB) : DB :=
  with_carts (insert u (mkCart (nextId db) u)) (with_nextId N.succ db).

(** What serving one request for the customer [u] does to the cart tables:
    the cart of [u] is created or not, then the rows of that cart change as
    [RowsEffect] says; the products are not written. *)
Definition CartEffect (u : Id) (db db' : DB) : Prop :=
  exists db1,
    (db1 = db \/ (carts db !! u = None /\ db1 = with_new_cart u db)) /\
    carts db' = carts db1 /\
    products db' = products db /\
    (nextId db1 <= nextId db')%N /\
    ((cartItems db' = cartItems db1) \/
     (exists c, carts db1 !! u = Some c /\
                RowsEffect c (nextId db1) (nextId db') (cartItems db1) (cartItems db'))).

(** The filter each list method hands to the store. *)
Definition user_where (u : Id) (status : option OrderStatus) (o : Order) : bool :=
  N.eqb (o_userId o) u && OrderService.status_matches status o.

Definition admin_where (startOfDay endOfDay : Z -> Z)
    (status : option OrderStatus) (date : option Z) (o : Order) : bool :=
  OrderService.status_matches status o
  && OrderService.date_matches startOfDay endOfDay date o.

(** The orders of the store that pass a filter, in no particular order. *)
Definition matching_orders (where_ : Order -> bool) (db : DB) : list Order :=
  List.filter where_ (List.map snd (map_to_list (orders db))).

(** The orders on a page a list method answers with, and the number of
    pages it reports. *)
Definition listed_orders (r : DB * Result OrderService.OrderPage) : list Order :=
  match snd r with
  | Ok pg => List.map OrderService.lo_order (OrderService.op_orders pg)
  | Err _ => []
  end.

Definition total_pages (r : DB * Result OrderService.OrderPage) : nat :=
  match snd r with
  | Ok pg => OrderService.pg_totalPages (OrderService.op_pagination pg)
  | Err _ => 0%nat
  end.

Definition total_orders (r : DB * Result OrderService.OrderPage) : nat :=
  match snd r with
  | Ok pg => OrderService.pg_total (OrderService.op_pagination pg)
  | Err _ => 0%nat
  end.

(** What the page and its [pagination] say when [total] orders match: the
    number of pages is the least that holds them all, the page has the
    orders left after the pages before it, up to the limit, and the pages
    that have orders are the pages 1 to [totalPages]. *)
Definition pagination_ok (total : nat) (filters : OrderService.OrderFilters)
    (pg : OrderService.OrderPage) : Prop :=
  let limit := Pos.to_nat (default 20%positive (OrderService.f_limit filters)) in
  let page := Pos.to_nat (default 1%positive (OrderService.f_page filters)) in
  let pagination := OrderService.op_pagination pg in
  let totalPages := OrderService.pg_totalPages pagination in
  OrderService.pg_page pagination = page /\
  OrderService.pg_limit pagination = limit /\
  OrderService.pg_total pagination = total /\
  (total <= totalPages * limit)%nat /\
  (forall k, (total <= k * limit)%nat -> (totalPages <= k)%nat) /\
  List.length (OrderService.op_orders pg)
    = Nat.min limit (total - (page - 1) * limit) /\
  (OrderService.op_orders pg <> [] <-> (page <= totalPages)%nat).

(** The same filters, asking for the page [p]. *)
Definition with_page (filters : OrderService.OrderFilters) (p : nat)
    : OrderService.OrderFilters :=
  OrderService.mkOrderFilters (OrderService.f_status filters)
    (OrderService.f_date filters) (Some (Pos.of_nat p))
    (OrderService.f_limit filters).

(** The errors of the two services: a failed statement of the store, or an
    error object with a message and the status 400 or 404. *)
Definition service_error (e : Error) : Prop :=
  (exists s, e = StoreFault s) \/
  exists st c msg, e = HttpError st (String c msg) /\ (st = 400 \/ st = 404).

(** ** Proof automation *)

(** Unfolds the services and the store primitives down to the monad. *)
Ltac unfold_services :=
  unfold CartService.getCart, CartService.addItem, CartService.updateItem,
    CartService.removeItem, CartService.clearCart,
    OrderService.getById, OrderService.cancel, OrderService.updateStatus,
    OrderService.order_detail, OrderService.order_update,
    OrderService.order_findFirst, OrderService.order_findUnique,
    cart_findUnique, cart_create, cart_items_with_product, cartItem_findUnique,
    cartItem_findFirst, cartItem_update, cartItem_create, cartItem_delete,
    cartItem_deleteMany, product_findUnique, fresh_id,
    bind, ret, throw, gets, modify.

(** Case analysis on the innermost scrutinee first, so that the monadic
    matches above it reduce. *)
Ltac destruct_inner :=
  match goal with
  | |- context [match ?x with _ => _ end] =>
      lazymatch x with
      | context [match _ with _ => _ end] => fail
      | _ => destruct x eqn:?
      end
  end.

Ltac run_services :=
  unfold_services; simpl; repeat (destruct_inner; simpl).

(** Splits a conjunction of case statements and closes the cases that the
    hypotheses contradict. *)
Ltac split_cases :=
  repeat split; intros;
  repeat match goal with
         | H : exists _, _ |- _ => destruct H
         | H : _ /\ _ |- _ => destruct H
         | H : _ \/ _ |- _ => destruct H
         end;
  simplify_eq; try contradiction; try discriminate; try reflexivity; eauto.

(** * Proofs *)

(** ** Lists, sums and the product join *)

Lemma fold_left_sum {A} (f : A -> Z) (l : list A) (a : Z) :
  fold_left (fun s x => s + f x) l a = a + sum_Z (List.map f l).
Proof.
  revert a. induction l as [|x l IH]; intros a; simpl.
  - lia.
  - rewrite IH. lia.
Qed.

Lemma sum_Z_Permutation (l1 l2 : list Z) : l1 ≡ₚ l2 -> sum_Z l1 = sum_Z l2.
Proof. induction 1; simpl; lia. Qed.

(** A running total kept while walking a list is the sum of the mapped
    list, addition by addition. *)
Lemma fold_left_numbers {A} (f : A -> float) (l : list A) (a : float) :
  fold_left (fun s x => (s + f x)%float) l a
  = fold_left PrimFloat.add (List.map f l) a.
Proof.
  revert a. induction l as [|x l IH]; intros a; simpl; [reflexivity|]. apply IH.
Qed.

Lemma include_product_inv prods items l :
  include_product prods items = Some l ->
  List.map fst l = items /\
  Forall (fun ip => prods !! ci_productId (fst ip) = Some (snd ip)) l.
Proof.
  revert l. induction items as [|it items IH]; intros l; simpl.
  - intros [= <-]. split; [reflexivity | constructor].
  - destruct (prods !! ci_productId it) as [p|] eqn:Hp; [|discriminate].
    destruct (include_product prods items) as [rest|]; [|discriminate].
    intros [= <-]. destruct (IH rest eq_refl) as [Hm Hf].
    simpl. split; [by rewrite Hm | by constructor].
Qed.

Lemma include_product_total prods items :
  Forall (fun it => is_Some (prods !! ci_productId it)) items ->
  is_Some (include_product prods items).
Proof.
  induction 1 as [|it items [p Hp] _ [rest IH]]; simpl.
  - by eexists.
  - rewrite Hp, IH. by eexists.
Qed.

Lemma joined_line_total db (l : list (CartItem * Product)) :
  Forall (fun ip => products db !! ci_productId (fst ip) = Some (snd ip)) l ->
  List.map (fun ip => (prod_price (snd ip) * js_number (ci_quantity (fst ip)))%float) l
  = List.map (line_total db) (List.map fst l).
Proof.
  induction 1 as [|ip l Hip _ IH]; simpl; [reflexivity|].
  unfold line_total at 1. rewrite Hip, IH. reflexivity.
Qed.

Lemma Forall_filter_bool {A} (P : A -> Prop) (f : A -> bool) (l : list A) :
  Forall P l -> Forall P (List.filter f l).
Proof.
  induction 1 as [|x l Hx _ IH]; simpl; [constructor|].
  destruct (f x); [by constructor | assumption].
Qed.

Lemma filter_none {A} (f : A -> bool) (l : list A) :
  Forall (fun x => f x = false) l -> List.filter f l = [].
Proof.
  induction 1 as [|x l Hx _ IH]; simpl; [reflexivity|]. by rewrite Hx.
Qed.

Lemma filter_all {A} (f : A -> bool) (l : list A) :
  Forall (fun x => f x = true) l -> List.filter f l = l.
Proof.
  induction 1 as [|x l Hx _ IH]; simpl; [reflexivity|]. by rewrite Hx, IH.
Qed.

Lemma filter_negb_same {A} (f : A -> bool) (l : list A) :
  List.filter f (List.filter (fun x => negb (f x)) l) = [].
Proof.
  induction l as [|x l IH]; simpl; [reflexivity|].
  destruct (f x) eqn:Hx; simpl; [assumption|]. by rewrite Hx.
Qed.

(** ** What [getCart] does *)

Lemma getCart_store u db :
  fst (CartService.getCart u db)
  = match carts db !! u with
    | Some _ => db
    | None => with_carts (insert u (mkCart (nextId db) u)) (with_nextId N.succ db)
    end.
Proof.
  unfold CartService.getCart, bind, cart_findUnique, gets, cart_create,
    cart_items_with_product, fresh_id, modify, ret.
  destruct (carts db !! u) as [c|]; simpl.
  - destruct (include_product _ _); reflexivity.
  - destruct (include_product _ _); reflexivity.
Qed.

Lemma getCart_existing u c db :
  Forall (fun it => is_Some (products db !! ci_productId it)) (cartItems db) ->
  carts db !! u = Some c ->
  exists items,
    CartService.getCart u db
    = (db, Ok (CartService.mkCartView c items (cart_total db (cart_id c))
                 (cart_count db (cart_id c))))
    /\ List.map fst items = by_createdAt_desc (items_of_cart (cart_id c) (cartItems db)).
Proof.
  intros Hfk Hc.
  unfold CartService.getCart, bind, cart_findUnique, gets,
    cart_items_with_product, ret.
  rewrite Hc.
  set (sorted := by_createdAt_desc (items_of_cart (cart_id c) (cartItems db))).
  assert (Hperm : sorted ≡ₚ items_of_cart (cart_id c) (cartItems db))
    by apply merge_sort_Permutation.
  assert (Hsome : is_Some (include_product (products db) sorted)).
  { apply include_product_total. rewrite Hperm.
    by apply Forall_filter_bool. }
  destruct Hsome as [l Hl]. rewrite Hl.
  destruct (include_product_inv _ _ _ Hl) as [Hm Hf].
  exists l. split; [|exact Hm]. simpl. do 3 f_equal.
  - rewrite (fold_left_numbers
               (fun ip => (prod_price (snd ip) * js_number (ci_quantity (fst ip)))%float)).
    by rewrite (joined_line_total db l Hf), Hm.
  - rewrite (fold_left_sum (fun ip => ci_quantity (fst ip))).
    rewrite <- (List.map_map fst ci_quantity), Hm. unfold cart_count.
    rewrite (sum_Z_Permutation _ _ (Permutation_map _ Hperm)). lia.
Qed.

Lemma getCart_new u db :
  Forall (fun it => (ci_cartId it < nextId db)%N) (cartItems db) ->
  carts db !! u = None ->
  CartService.getCart u db
  = (with_carts (insert u (mkCart (nextId db) u)) (with_nextId N.succ db),
     Ok (CartService.mkCartView (mkCart (nextId db) u) [] 0%float 0)).
Proof.
  intros Hids Hc.
  unfold CartService.getCart, bind, cart_findUnique, gets, cart_create,
    cart_items_with_product, fresh_id, modify, ret.
  rewrite Hc. simpl. unfold items_of_cart.
  rewrite filter_none; [reflexivity|].
  eapply Forall_impl; [exact Hids|]. intros it Hit. simpl in Hit.
  apply N.eqb_neq. lia.
Qed.

(** ** Rounded totals *)

(** Two exact values differ when comparing them says so. *)
Lemma exact_values_differ (a b : option Z) :
  match a, b with
  | Some x, Some y => Z.eqb x y
  | None, None => true
  | _, _ => false
  end = false ->
  a <> b.
Proof.
  intros Hcmp ->. destruct b as [y|]; [|discriminate].
  by rewrite Z.eqb_refl in Hcmp.
Qed.

(** ** Cart reads (C10) *)

(** C10, the claim as stated fails: [getCart] does not return the sum of
    price times quantity over the cart rows.  For a cart with one each of
    products priced 0.10, 0.20 and 0.30, put in the dearest first, it returns
    0.6000000000000001, which is not what the three lines add up to; with
    the same three lines put in the cheapest first it returns 0.6. *)
Lemma getCart_total_is_not_the_exact_sum :
  exists v v',
    CartService.getCart 7%N demo_decimal_rev_cart_db
      = (demo_decimal_rev_cart_db, Ok v) /\
    CartService.cv_total v = 0.6000000000000001%float /\
    exact_units (CartService.cv_total v)
      <> exact_total demo_decimal_rev_cart_db
           (items_of_cart 10%N (cartItems demo_decimal_rev_cart_db)) /\
    CartService.getCart 7%N demo_decimal_cart_db = (demo_decimal_cart_db, Ok v') /\
    List.map snd (CartService.cv_items v') ≡ₚ List.map snd (CartService.cv_items v) /\
    CartService.cv_total v' = 0.6%float.
Proof.
  eexists _, _. split; [vm_compute; reflexivity|]. simpl CartService.cv_total.
  split; [reflexivity|].
  split; [apply exact_values_differ; vm_compute; reflexivity|].
  split; [vm_compute; reflexivity|]. simpl.
  split; [|reflexivity].
  apply Permutation_rev.
Qed.

(** C10, as amended: [getCart] never fails on a store that keeps its
    integrity.  For a user without a cart it creates one and returns it
    empty, with total 0 and item count 0; for every user the returned total
    is the number obtained by adding, from 0 and with the rows taken by
    recency, current product price times quantity, each product and each
    addition rounded to a binary64 value, and the item count is the sum of
    the quantities.  [clearCart], [updateItem] and [removeItem] of a user
    without a cart fail with the 404 error 'Carrinho nao encontrado' and
    create nothing. *)
Theorem getCart_totals_and_autocreate :
  (forall db u, wf db -> carts db !! u = None ->
     exists db' v,
       CartService.getCart u db = (db', Ok v) /\
       carts db' !! u = Some (CartService.cv_cart v) /\
       items_of_cart (cart_id (CartService.cv_cart v)) (cartItems db') = [] /\
       CartService.cv_items v = [] /\
       CartService.cv_total v = 0%float /\
       CartService.cv_itemCount v = 0) /\
  (forall db u, wf db ->
     exists db' v,
       CartService.getCart u db = (db', Ok v) /\
       carts db' !! u = Some (CartService.cv_cart v) /\
       List.map fst (CartService.cv_items v)
         ≡ₚ items_of_cart (cart_id (CartService.cv_cart v)) (cartItems db') /\
       CartService.cv_total v = cart_total db' (cart_id (CartService.cv_cart v)) /\
       CartService.cv_itemCount v
         = cart_count db' (cart_id (CartService.cv_cart v))) /\
  (forall db u, carts db !! u = None ->
     CartService.clearCart u db
       = (db, Err (HttpError 404 "Carrinho nao encontrado")) /\
     (forall itemId quantity notes,
        CartService.updateItem u itemId quantity notes db
          = (db, Err (HttpError 404 "Carrinho nao encontrado"))) /\
     (forall itemId,
        CartService.removeItem u itemId db
          = (db, Err (HttpError 404 "Carrinho nao encontrado")))).
Proof.
  assert (Hfresh : forall db, wf db ->
            items_of_cart (nextId db) (cartItems db) = []).
  { intros db [_ Hids _ _ _ _]. unfold items_of_cart. apply filter_none.
    eapply Forall_impl; [exact Hids|]. intros it Hit. simpl in Hit.
    apply N.eqb_neq. lia. }
  split; [|split].
  - intros db u Hwf Hnone.
    rewrite (getCart_new u db (wf_cartItems db Hwf) Hnone).
    do 2 eexists. split; [reflexivity|]. simpl.
    rewrite lookup_insert_eq. repeat split. by apply Hfresh.
  - intros db u Hwf. destruct (carts db !! u) as [c|] eqn:Hc.
    + destruct (getCart_existing u c db (wf_products db Hwf) Hc) as (items & -> & Hm).
      do 2 eexists. split; [reflexivity|]. simpl. repeat split; [assumption|].
      rewrite Hm. apply merge_sort_Permutation.
    + rewrite (getCart_new u db (wf_cartItems db Hwf) Hc).
      do 2 eexists. split; [reflexivity|]. simpl.
      rewrite lookup_insert_eq. unfold cart_total, cart_count. simpl.
      rewrite (Hfresh db Hwf). by repeat split.
  - intros db u Hnone. repeat split; intros;
      unfold CartService.clearCart, CartService.updateItem, CartService.removeItem,
        bind, cart_findUnique, gets, throw; by rewrite Hnone.
Qed.

Lemma getCart_totals_and_autocreate_witness :
  (exists db' v,
     CartService.getCart 7%N demo_db = (db', Ok v) /\
     carts db' !! 7%N = Some (CartService.cv_cart v) /\
     items_of_cart (cart_id (CartService.cv_cart v)) (cartItems db') = [] /\
     CartService.cv_items v = [] /\
     CartService.cv_total v = 0%float /\
     CartService.cv_itemCount v = 0) /\
  CartService.clearCart 7%N demo_db
    = (demo_db, Err (HttpError 404 "Carrinho nao encontrado")).
Proof.
  split.
  - apply (proj1 getCart_totals_and_autocreate demo_db 7%N).
    + compute_done.
    + reflexivity.
  - apply (proj2 (proj2 getCart_totals_and_autocreate) demo_db 7%N).
    reflexivity.
Defined.

(** ** What [createFromCart] does *)

Lemma prepare_order_items_eq (items : list (CartItem * Product)) :
  OrderService.prepare_order_items items
  = (sum_numbers (List.map (fun ip => (prod_price (snd ip) * js_number (ci_quantity (fst ip)))%float) items),
     List.map (fun ip => OrderService.order_item_data ip
                           ((prod_price (snd ip) * js_number (ci_quantity (fst ip)))%float)) items).
Proof.
  unfold OrderService.prepare_order_items.
  assert (H : forall acc,
    fold_left
      (fun (acc : float * list OrderService.OrderItemData) item =>
         let itemTotal :=
           (prod_price (snd item) * js_number (ci_quantity (fst item)))%float in
         ((fst acc + itemTotal)%float,
          snd acc ++ [OrderService.order_item_data item itemTotal]))
      items acc
    = (fold_left PrimFloat.add
         (List.map (fun ip => (prod_price (snd ip) * js_number (ci_quantity (fst ip)))%float) items)
         (fst acc),
       snd acc ++ List.map (fun ip => OrderService.order_item_data ip
                           ((prod_price (snd ip) * js_number (ci_quantity (fst ip)))%float)) items)).
  { induction items as [|ip items IH]; intros [t l]; simpl.
    - by rewrite app_nil_r.
    - rewrite IH. simpl. by rewrite <- app_assoc. }
  rewrite H. reflexivity.
Qed.

Lemma order_rows_length orderId first items :
  List.length (order_rows orderId first items) = List.length items.
Proof.
  revert first. induction items as [|d items IH]; intros first; simpl;
    [reflexivity | by rewrite IH].
Qed.

(** The nested item inserts either all succeed, writing [order_rows], or
    throw the fault of one of them. *)
Lemma order_items_create_run fault orderId k items db :
  match OrderService.order_items_create fault orderId k items db with
  | (db', Ok rows) =>
      rows = order_rows orderId (nextId db) items /\
      db' = with_orderItems (fun l => l ++ rows)
              (with_nextId (fun n => (n + N.of_nat (List.length items))%N) db) /\
      (forall j, (k <= j < k + List.length items)%nat ->
                 fault (OrderItemInsert j) = false)
  | (_, Err e) =>
      exists j, e = StoreFault (OrderItemInsert j) /\
                fault (OrderItemInsert j) = true /\
                (k <= j < k + List.length items)%nat
  end.
Proof.
  revert k db. induction items as [|d items IH]; intros k db; simpl.
  - unfold ret, with_orderItems, with_nextId. simpl.
    rewrite app_nil_r, N.add_0_r. destruct db. repeat split. intros j Hj. lia.
  - unfold bind at 1. unfold tx_step.
    destruct (fault (OrderItemInsert k)) eqn:Hk.
    + exists k. unfold throw. repeat split; try assumption; lia.
    + unfold bind at 2. unfold fresh_id. unfold bind at 2.
      unfold modify, ret. unfold bind.
      match goal with
      | |- context [OrderService.order_items_create fault orderId (S k) items ?d] =>
          specialize (IH (S k) d);
          destruct (OrderService.order_items_create fault orderId (S k) items d)
            as [db' [rows|e]]
      end.
      * destruct IH as (-> & -> & Hnf). simpl. repeat split.
        -- unfold with_orderItems, with_nextId. simpl. f_equal.
           ++ by rewrite <- app_assoc.
           ++ lia.
        -- intros j Hj. destruct (decide (j = k)) as [->|Hne]; [assumption|].
           apply Hnf. lia.
      * destruct IH as (j & -> & Hj & Hrange). exists j.
        repeat split; try assumption; lia.
Qed.

(** Every run of [createFromCart], by the state of the cart and the faults
    of the store. *)
Lemma createFromCart_run fault u notes now db :
  let run := OrderService.createFromCart fault u notes now db in
  match carts db !! u with
  | None => run = (db, Err (HttpError 400 "Carrinho vazio"))
  | Some cart =>
      match include_product (products db)
              (items_of_cart (cart_id cart) (cartItems db)) with
      | None => run = (db, Err MissingRelation)
      | Some [] => run = (db, Err (HttpError 400 "Carrinho vazio"))
      | Some items =>
          match List.find (fun ip => negb (prod_isAvailable (snd ip))) items with
          | Some ip =>
              run = (db, Err (HttpError 400
                      ("Produto " +:+ dquote +:+ prod_name (snd ip) +:+ dquote
                       +:+ " nao esta mais disponivel")))
          | None =>
              let o := mkOrder (nextId db) (counter_value db + 1) u
                         (sum_numbers (List.map (fun ip => (prod_price (snd ip) * js_number (ci_quantity (fst ip)))%float) items))
                         notes PENDENTE None None None None now in
              let rows := order_rows (nextId db) (N.succ (nextId db))
                            (List.map (fun ip => OrderService.order_item_data ip
                               ((prod_price (snd ip) * js_number (ci_quantity (fst ip)))%float)) items) in
              (run = (created_store db (cart_id cart) o rows now,
                      Ok (OrderService.mkOrderWithItems o rows))
               /\ faultless fault (List.length items))
              \/ (exists s, run = (db, Err (StoreFault s)) /\ fault s = true)
          end
      end
  end.
Proof.
  intros run.
  assert (Hr : run = OrderService.createFromCart fault u notes now db) by reflexivity.
  clearbody run. unfold OrderService.createFromCart in Hr.
  unfold bind at 1 in Hr. unfold cart_findUnique, gets in Hr.
  destruct (carts db !! u) as [cart|] eqn:Hcart; [|exact Hr].
  unfold bind at 1 in Hr. unfold cart_items_with_product in Hr.
  destruct (include_product _ _) as [items|] eqn:Hitems; [|exact Hr].
  destruct items as [|ip0 items0]; [exact Hr|].
  replace (Nat.eqb (List.length (ip0 :: items0)) 0) with false in Hr
    by reflexivity.
  remember (ip0 :: items0) as items eqn:Hcons.
  destruct (List.find _ items) as [ip|] eqn:Hfind; [exact Hr|].
  rewrite prepare_order_items_eq in Hr. cbn [fst snd] in Hr.
  remember (List.map (fun ip => OrderService.order_item_data ip
              ((prod_price (snd ip) * js_number (ci_quantity (fst ip)))%float)) items)
    as data eqn:Hdata.
  unfold transaction, OrderService.create_order_tx in Hr.
  unfold bind at 1 in Hr. unfold tx_step at 1 in Hr.
  destruct (fault CounterUpsert) eqn:F1.
  { right. exists CounterUpsert. by unfold throw in Hr. }
  unfold counter_upsert in Hr.
  unfold bind at 1 in Hr. unfold OrderService.order_create in Hr.
  unfold tx_step at 1 in Hr.
  destruct (fault OrderInsert) eqn:F2.
  { right. exists OrderInsert. by unfold throw in Hr. }
  unfold bind at 1 in Hr. unfold fresh_id at 1 in Hr.
  unfold bind at 1 in Hr. unfold modify at 1 in Hr.
  unfold bind at 1 in Hr.
  match type of Hr with
  | context [OrderService.order_items_create fault ?oid 0%nat data ?d] =>
      pose proof (order_items_create_run fault oid 0%nat data d) as Hrows;
      destruct (OrderService.order_items_create fault oid 0%nat data d)
        as [db1 [rows|e]]
  end.
  2:{ destruct Hrows as (j & -> & Hj & _). right. by exists (OrderItemInsert j). }
  destruct Hrows as (-> & -> & Hnf).
  unfold tx_step at 1 in Hr.
  destruct (fault HistoryInsert) eqn:F3.
  { right. exists HistoryInsert. by unfold throw in Hr. }
  unfold bind at 1 in Hr. unfold fresh_id at 1 in Hr.
  unfold bind at 1 in Hr. unfold modify at 1 in Hr.
  unfold ret at 1 in Hr. unfold bind at 1 in Hr. unfold tx_step at 1 in Hr.
  destruct (fault CartPurge) eqn:F4.
  { right. exists CartPurge. by unfold throw in Hr. }
  unfold cartItem_deleteMany, modify, ret in Hr. left. rewrite Hr.
  subst data. split.
  - unfold created_store, counter_value.
    destruct (counters db !! ORDER_COUNTER) as [v|]; simpl;
      rewrite ?order_rows_length, ?List.length_map; reflexivity.
  - repeat split; try assumption.
    intros j Hj. apply Hnf. rewrite List.length_map. lia.
Qed.

Lemma order_rows_orderId orderId first data :
  Forall (fun r => oi_orderId r = orderId) (order_rows orderId first data).
Proof.
  revert first. induction data as [|d data IH]; intros first; simpl;
    constructor; [reflexivity | apply IH].
Qed.

Lemma order_rows_snapshot db orderId first (l : list (CartItem * Product)) :
  Forall (fun ip => products db !! ci_productId (fst ip) = Some (snd ip)) l ->
  Forall2 (snapshot_of db) (List.map fst l)
    (order_rows orderId first
       (List.map (fun ip => OrderService.order_item_data ip
                              ((prod_price (snd ip) * js_number (ci_quantity (fst ip)))%float)) l)).
Proof.
  intros Hl. revert first.
  induction Hl as [|ip l Hip _ IH]; intros first; simpl; constructor.
  - unfold snapshot_of. simpl. repeat split. exists (snd ip). by repeat split.
  - apply IH.
Qed.

Lemma items_of_order_created (old rows : list OrderItem) (oid bound : Id) :
  Forall (fun r => (oi_orderId r < bound)%N) old ->
  (bound <= oid)%N ->
  Forall (fun r => oi_orderId r = oid) rows ->
  items_of_order oid (old ++ rows) = rows.
Proof.
  intros Hold Hle Hrows. unfold items_of_order.
  rewrite List.filter_app, filter_none, filter_all; [reflexivity| |].
  - eapply Forall_impl; [exact Hrows|]. intros r ->. apply N.eqb_refl.
  - eapply Forall_impl; [exact Hold|]. intros r Hr. simpl in Hr.
    apply N.eqb_neq. lia.
Qed.

Lemma history_of_order_created (old : list OrderStatusHistory) h (bound : Id) :
  Forall (fun h => (h_orderId h < bound)%N) old ->
  (bound <= h_orderId h)%N ->
  history_of_order (h_orderId h) (old ++ [h]) = [h].
Proof.
  intros Hold Hle. unfold history_of_order.
  rewrite List.filter_app, filter_none; simpl.
  - by rewrite N.eqb_refl.
  - eapply Forall_impl; [exact Hold|]. intros r Hr. simpl in Hr.
    apply N.eqb_neq. lia.
Qed.

Lemma find_unavailable_none db (l : list (CartItem * Product)) :
  Forall (fun ip => products db !! ci_productId (fst ip) = Some (snd ip)) l ->
  Forall (fun it => is_available db it = true) (List.map fst l) ->
  List.find (fun ip => negb (prod_isAvailable (snd ip))) l = None.
Proof.
  induction 1 as [|ip l Hip _ IH]; simpl; [reflexivity|].
  intros Hav. apply Forall_cons in Hav as [Hhd Htl].
  unfold is_available in Hhd. rewrite Hip in Hhd. rewrite Hhd. simpl.
  by apply IH.
Qed.

(** ** Order creation (C1) *)

(** C1, the claim as stated fails: [totalAmount] is not the sum of price
    times quantity over the cart rows.  The customer's cart holds one each
    of products priced 0.10, 0.20 and 0.30 and meets every condition of the
    claim; the order gets the total 0.6000000000000001, which is not what
    the three lines add up to, and the same three lines stored in the
    opposite order give 0.6. *)
Lemma createFromCart_total_is_not_the_exact_sum :
  wf demo_decimal_cart_db /\
  carts demo_decimal_cart_db !! 7%N = Some (mkCart 10%N 7%N) /\
  Forall (fun it => is_available demo_decimal_cart_db it = true)
         (items_of_cart 10%N (cartItems demo_decimal_cart_db)) /\
  exists db' res db'' res',
    OrderService.createFromCart no_fault 7%N None 200 demo_decimal_cart_db
      = (db', Ok res) /\
    o_totalAmount (OrderService.ow_order res) = 0.6000000000000001%float /\
    exact_units (o_totalAmount (OrderService.ow_order res))
      <> exact_total demo_decimal_cart_db
           (items_of_cart 10%N (cartItems demo_decimal_cart_db)) /\
    OrderService.createFromCart no_fault 7%N None 200 demo_decimal_rev_cart_db
      = (db'', Ok res') /\
    o_totalAmount (OrderService.ow_order res') = 0.6%float.
Proof.
  split; [compute_done|]. split; [reflexivity|].
  split; [vm_compute; repeat constructor|].
  eexists _, _, _, _. split; [vm_compute; reflexivity|].
  simpl o_totalAmount.
  split; [reflexivity|].
  split; [apply exact_values_differ; vm_compute; reflexivity|].
  split; [vm_compute; reflexivity|]. reflexivity.
Qed.

(** C1, as amended: for a user whose cart exists, is not empty and holds
    only available products, [createFromCart] (on a store that keeps its
    integrity and does not fail) creates an order whose [totalAmount] is the
    number obtained by adding, from 0 and in the order the store returns the
    cart rows, the product's current price times the quantity, each product
    and each addition rounded to a binary64 value; each order row holds the
    product's current name and price and that rounded product; the order has
    exactly one history entry, with status PENDENTE, the note 'Pedido
    criado' and no author; afterwards the cart has no rows. *)
Theorem createFromCart_creates_order db u notes now cart :
  wf db ->
  carts db !! u = Some cart ->
  items_of_cart (cart_id cart) (cartItems db) <> [] ->
  Forall (fun it => is_available db it = true)
         (items_of_cart (cart_id cart) (cartItems db)) ->
  exists db' o rows hid,
    OrderService.createFromCart no_fault u notes now db
      = (db', Ok (OrderService.mkOrderWithItems o rows)) /\
    orders db !! o_id o = None /\
    orders db' !! o_id o = Some o /\
    o_userId o = u /\ o_status o = PENDENTE /\ o_notes o = notes /\
    o_totalAmount o = rows_total db (items_of_cart (cart_id cart) (cartItems db)) /\
    items_of_order (o_id o) (orderItems db') = rows /\
    Forall2 (snapshot_of db) (items_of_cart (cart_id cart) (cartItems db)) rows /\
    history_of_order (o_id o) (statusHistory db')
      = [mkHistory hid (o_id o) PENDENTE None (Some "Pedido criado") now] /\
    items_of_cart (cart_id cart) (cartItems db') = [].
Proof.
  intros Hwf Hcart Hne Hav.
  pose proof (createFromCart_run no_fault u notes now db) as Hrun.
  cbv zeta in Hrun. rewrite Hcart in Hrun.
  destruct (include_product_total (products db)
              (items_of_cart (cart_id cart) (cartItems db))) as [l Hl].
  { apply Forall_filter_bool, (wf_products db Hwf). }
  rewrite Hl in Hrun. destruct (include_product_inv _ _ _ Hl) as [Hm Hf].
  destruct l as [|ip0 l0]; [by rewrite <- Hm in Hne|].
  remember (ip0 :: l0) as l eqn:Hcons.
  rewrite (find_unavailable_none db l Hf) in Hrun by (by rewrite Hm).
  destruct Hrun as [[Hrun _] | (s & _ & Hs)]; [|discriminate Hs].
  do 4 eexists. split; [exact Hrun|]. simpl.
  rewrite lookup_insert_eq.
  repeat split.
  - destruct (orders db !! nextId db) as [o|] eqn:Ho; [|reflexivity].
    destruct (wf_orders db Hwf _ _ Ho) as [Hlt _]. lia.
  - unfold rows_total. by rewrite (joined_line_total db l Hf), Hm.
  - apply (items_of_order_created _ _ _ (nextId db)); [|lia|].
    + apply (wf_orderItems db Hwf).
    + apply order_rows_orderId.
  - rewrite <- Hm. by apply order_rows_snapshot.
  - match goal with
    | |- history_of_order _ (_ ++ [?h]) = _ =>
        apply (history_of_order_created _ h (nextId db))
    end; [apply (wf_history db Hwf) | simpl; lia].
  - apply filter_negb_same.
Qed.

Lemma createFromCart_creates_order_witness :
  exists db' o rows hid,
    OrderService.createFromCart no_fault 7%N (Some "Bloco B") 200 demo_cart_db
      = (db', Ok (OrderService.mkOrderWithItems o rows)) /\
    orders demo_cart_db !! o_id o = None /\
    orders db' !! o_id o = Some o /\
    o_userId o = 7%N /\ o_status o = PENDENTE /\ o_notes o = Some "Bloco B" /\
    o_totalAmount o
      = rows_total demo_cart_db (items_of_cart 10%N (cartItems demo_cart_db)) /\
    items_of_order (o_id o) (orderItems db') = rows /\
    Forall2 (snapshot_of demo_cart_db)
      (items_of_cart 10%N (cartItems demo_cart_db)) rows /\
    history_of_order (o_id o) (statusHistory db')
      = [mkHistory hid (o_id o) PENDENTE None (Some "Pedido criado") 200] /\
    items_of_cart 10%N (cartItems db') = [].
Proof.
  apply (createFromCart_creates_order demo_cart_db 7%N (Some "Bloco B") 200
           (mkCart 10%N 7%N)).
  - compute_done.
  - reflexivity.
  - vm_compute. discriminate.
  - vm_compute. repeat constructor.
Defined.

(** A scenario with prices that binary64 holds exactly: two of a product at
    5.50 and one of a product at 3.25 give an order of 14.25 with two rows,
    one history entry, and an emptied cart. *)
Example createFromCart_scenario :
  match OrderService.createFromCart no_fault 7%N (Some "Bloco B") 200 demo_cart_db with
  | (db', Ok res) =>
      o_totalAmount (OrderService.ow_order res) = 14.25%float /\
      o_orderNumber (OrderService.ow_order res) = 1 /\
      List.length (OrderService.ow_items res) = 2%nat /\
      List.map h_status (statusHistory db') = [PENDENTE] /\
      cartItems db' = []
  | (_, Err _) => False
  end.
Proof. vm_compute. repeat split. Qed.

(** ** Rejected creations (C5) *)

Lemma find_first {A} (f : A -> bool) (l : list A) (x : A) :
  List.find f l = Some x ->
  exists pre post, l = pre ++ x :: post /\
                   Forall (fun y => f y = false) pre /\ f x = true.
Proof.
  induction l as [|y l IH]; simpl; [discriminate|].
  destruct (f y) eqn:Hy.
  - intros [= ->]. exists [], l. repeat split; [constructor | assumption].
  - intros Hfind. destruct (IH Hfind) as (pre & post & -> & Hpre & Hx).
    exists (y :: pre), post. repeat split; [by constructor | assumption].
Qed.

(** C5: [createFromCart] rejects before it writes.  Without a cart, or with
    a cart that has no rows, it fails with the 400 error 'Carrinho vazio';
    when a row of the cart references a product that is not marked
    available it fails with the 400 error that names the product of the
    first such row.  In both cases the store is left as it was: no order, no
    order row, no counter step, the cart untouched. *)
Theorem createFromCart_rejects_before_mutation fault db u notes now :
  ((carts db !! u = None \/
    exists cart, carts db !! u = Some cart /\
                 items_of_cart (cart_id cart) (cartItems db) = []) ->
   OrderService.createFromCart fault u notes now db
     = (db, Err (HttpError 400 "Carrinho vazio"))) /\
  (forall cart,
     wf db ->
     carts db !! u = Some cart ->
     Exists (fun it => is_available db it = false)
            (items_of_cart (cart_id cart) (cartItems db)) ->
     exists pre it post p,
       items_of_cart (cart_id cart) (cartItems db) = pre ++ it :: post /\
       Forall (fun it' => is_available db it' = true) pre /\
       products db !! ci_productId it = Some p /\
       prod_isAvailable p = false /\
       OrderService.createFromCart fault u notes now db
         = (db, Err (HttpError 400
                  ("Produto " +:+ dquote +:+ prod_name p +:+ dquote
                   +:+ " nao esta mais disponivel")))).
Proof.
  pose proof (createFromCart_run fault u notes now db) as Hrun.
  cbv zeta in Hrun. split.
  - intros [Hnone | (cart & Hcart & Hempty)].
    + by rewrite Hnone in Hrun.
    + rewrite Hcart, Hempty in Hrun. exact Hrun.
  - intros cart Hwf Hcart Hex. rewrite Hcart in Hrun.
    destruct (include_product_total (products db)
                (items_of_cart (cart_id cart) (cartItems db))) as [l Hl].
    { apply Forall_filter_bool, (wf_products db Hwf). }
    rewrite Hl in Hrun. destruct (include_product_inv _ _ _ Hl) as [Hm Hf].
    destruct (List.find (fun ip => negb (prod_isAvailable (snd ip))) l)
      as [ip|] eqn:Hfind.
    + destruct l as [|ip0 l0]; [discriminate Hfind|].
      destruct (find_first _ _ _ Hfind) as (pre & post & Hsplit & Hpre & Hip).
      rewrite Hsplit in Hf, Hm.
      apply Forall_app in Hf as [Hfpre Hfip].
      apply Forall_cons in Hfip as [Hfip _].
      exists (List.map fst pre), (fst ip), (List.map fst post), (snd ip).
      repeat split.
      * rewrite <- Hm, List.map_app. reflexivity.
      * clear -Hpre Hfpre. induction pre as [|x pre IH]; simpl; constructor.
        -- apply Forall_cons in Hpre as [Hx _].
           apply Forall_cons in Hfpre as [Hfx _].
           unfold is_available. rewrite Hfx. by destruct (prod_isAvailable (snd x)).
        -- apply Forall_cons in Hpre as [_ Hp].
           apply Forall_cons in Hfpre as [_ Hfp]. by apply IH.
      * exact Hfip.
      * by destruct (prod_isAvailable (snd ip)).
      * exact Hrun.
    + exfalso. rewrite <- Hm in Hex. clear -Hex Hfind Hf.
      induction l as [|x l IH]; simpl in *.
      * by apply Exists_nil in Hex.
      * apply Forall_cons in Hf as [Hfx Hf].
        destruct (prod_isAvailable (snd x)) eqn:Hx; simpl in Hfind; [|discriminate].
        apply Exists_cons in Hex as [Hex|Hex].
        -- unfold is_available in Hex. rewrite Hfx, Hx in Hex. discriminate.
        -- by apply IH.
Qed.

Lemma createFromCart_rejects_before_mutation_witness :
  OrderService.createFromCart no_fault 8%N None 200 demo_cart_db
    = (demo_cart_db, Err (HttpError 400 "Carrinho vazio")) /\
  exists pre it post p,
    items_of_cart 10%N (cartItems demo_unavailable_db) = pre ++ it :: post /\
    Forall (fun it' => is_available demo_unavailable_db it' = true) pre /\
    products demo_unavailable_db !! ci_productId it = Some p /\
    prod_isAvailable p = false /\
    OrderService.createFromCart no_fault 7%N None 200 demo_unavailable_db
      = (demo_unavailable_db,
         Err (HttpError 400
                ("Produto " +:+ dquote +:+ prod_name p +:+ dquote
                 +:+ " nao esta mais disponivel"))).
Proof.
  split.
  - apply (proj1 (createFromCart_rejects_before_mutation
                    no_fault demo_cart_db 8%N None 200)).
    left. reflexivity.
  - apply (proj2 (createFromCart_rejects_before_mutation
                    no_fault demo_unavailable_db 7%N None 200) (mkCart 10%N 7%N)).
    + compute_done.
    + reflexivity.
    + vm_compute. apply Exists_cons_tl, Exists_cons_hd. reflexivity.
Defined.

(** ** Atomic creation (C3) *)

(** C3: [createFromCart] is all or nothing.  Whenever it fails the store is
    the one it started from: the counter is not advanced, no order or order
    row exists that did not before, the cart keeps its rows.  Whenever it
    succeeds every effect is there: the order is filed, its number is the
    new counter value, its rows (as many as the cart had) and its first
    history entry are written, and the cart is purged.  A failure of any
    statement of the transaction (order insert, an order-row insert, history
    insert, cart purge, or the counter write itself) makes the call fail, so
    it leaves the store untouched. *)
Theorem createFromCart_all_or_nothing fault db u notes now :
  match OrderService.createFromCart fault u notes now db with
  | (db', Err _) => db' = db
  | (db', Ok res) =>
      let o := OrderService.ow_order res in
      exists cart h,
        carts db !! u = Some cart /\
        orders db' !! o_id o = Some o /\
        counters db' !! ORDER_COUNTER = Some (o_orderNumber o) /\
        o_orderNumber o = counter_value db + 1 /\
        orderItems db' = orderItems db ++ OrderService.ow_items res /\
        OrderService.ow_items res <> [] /\
        List.length (OrderService.ow_items res)
          = List.length (items_of_cart (cart_id cart) (cartItems db)) /\
        Forall (fun r => oi_orderId r = o_id o) (OrderService.ow_items res) /\
        statusHistory db' = statusHistory db ++ [h] /\
        h_orderId h = o_id o /\
        items_of_cart (cart_id cart) (cartItems db') = []
  end /\
  (forall cart,
     wf db ->
     carts db !! u = Some cart ->
     items_of_cart (cart_id cart) (cartItems db) <> [] ->
     Forall (fun it => is_available db it = true)
            (items_of_cart (cart_id cart) (cartItems db)) ->
     ~ faultless fault (List.length (items_of_cart (cart_id cart) (cartItems db))) ->
     exists s, fault s = true /\
               OrderService.createFromCart fault u notes now db
                 = (db, Err (StoreFault s))).
Proof.
  pose proof (createFromCart_run fault u notes now db) as Hrun.
  cbv zeta in Hrun. split.
  - destruct (carts db !! u) as [cart|] eqn:Hcart; [|by rewrite Hrun].
    destruct (include_product _ _) as [l|] eqn:Hl; [|by rewrite Hrun].
    destruct (include_product_inv _ _ _ Hl) as [Hm _].
    destruct l as [|ip0 l0]; [by rewrite Hrun|].
    remember (ip0 :: l0) as l eqn:Hcons.
    destruct (List.find _ l) as [ip|]; [by rewrite Hrun|].
    destruct Hrun as [[-> _] | (s & -> & _)]; [|reflexivity].
    cbv zeta. simpl. eexists cart, _. rewrite !lookup_insert_eq.
    repeat split.
    + rewrite Hcons. simpl. discriminate.
    + by rewrite order_rows_length, List.length_map, <- Hm, List.length_map.
    + apply order_rows_orderId.
    + apply filter_negb_same.
  - intros cart Hwf Hcart Hne Hav Hfault. rewrite Hcart in Hrun.
    destruct (include_product_total (products db)
                (items_of_cart (cart_id cart) (cartItems db))) as [l Hl].
    { apply Forall_filter_bool, (wf_products db Hwf). }
    rewrite Hl in Hrun. destruct (include_product_inv _ _ _ Hl) as [Hm Hf].
    destruct l as [|ip0 l0]; [by rewrite <- Hm in Hne|].
    remember (ip0 :: l0) as l eqn:Hcons.
    rewrite (find_unavailable_none db l Hf) in Hrun by (by rewrite Hm).
    destruct Hrun as [[_ Hfl] | (s & Hrun & Hs)].
    + exfalso. apply Hfault. by rewrite <- Hm, List.length_map.
    + by exists s.
Qed.

Lemma createFromCart_all_or_nothing_witness :
  exists s, fault_at CartPurge s = true /\
            OrderService.createFromCart (fault_at CartPurge) 7%N None 200 demo_cart_db
              = (demo_cart_db, Err (StoreFault s)).
Proof.
  apply (proj2 (createFromCart_all_or_nothing
                  (fault_at CartPurge) demo_cart_db 7%N None 200)
               (mkCart 10%N 7%N)).
  - compute_done.
  - reflexivity.
  - vm_compute. discriminate.
  - vm_compute. repeat constructor.
  - intros (_ & _ & _ & _ & Hpurge). vm_compute in Hpurge. discriminate.
Defined.

(** The rollback is the transaction's: the callback run on its own has
    already advanced the counter and filed the order when the purge fails. *)
Example transaction_undoes_partial_writes :
  let body :=
    OrderService.create_order_tx (fault_at CartPurge) 10%N 7%N 14.25 [] None 200 in
  snd (body demo_cart_db) = Err (StoreFault CartPurge) /\
  counter_value (fst (body demo_cart_db)) = 1 /\
  is_Some (orders (fst (body demo_cart_db)) !! nextId demo_cart_db) /\
  fst (transaction body demo_cart_db) = demo_cart_db.
Proof. vm_compute. repeat split. by eexists. Qed.

(** ** Running the services *)

Lemma handle_counters req db :
  match req with CreateOrder _ _ _ _ => False | _ => True end ->
  counters (fst (handle req db)) = counters db.
Proof.
  destruct req; simpl; intros Hreq; try contradiction; run_services;
    rewrite ?getCart_store; simpl; repeat (destruct_inner; simpl);
    try reflexivity.
Qed.

(** A run of [createFromCart] either fails and leaves the store as it was, or
    succeeds and leaves [created_store]. *)
Lemma createFromCart_outcome fault u notes now db :
  match OrderService.createFromCart fault u notes now db with
  | (db', Err _) => db' = db
  | (db', Ok res) =>
      exists cart l,
        carts db !! u = Some cart /\
        include_product (products db)
          (items_of_cart (cart_id cart) (cartItems db)) = Some l /\
        l <> [] /\
        OrderService.ow_order res
          = mkOrder (nextId db) (counter_value db + 1) u
              (sum_numbers (List.map (fun ip => (prod_price (snd ip) * js_number (ci_quantity (fst ip)))%float) l))
              notes PENDENTE None None None None now /\
        OrderService.ow_items res
          = order_rows (nextId db) (N.succ (nextId db))
              (List.map (fun ip => OrderService.order_item_data ip
                                     ((prod_price (snd ip) * js_number (ci_quantity (fst ip)))%float)) l) /\
        db' = created_store db (cart_id cart) (OrderService.ow_order res)
                (OrderService.ow_items res) now
  end.
Proof.
  pose proof (createFromCart_run fault u notes now db) as Hrun.
  cbv zeta in Hrun.
  destruct (carts db !! u) as [cart|] eqn:Hcart; [|by rewrite Hrun].
  destruct (include_product _ _) as [l|] eqn:Hl; [|by rewrite Hrun].
  destruct l as [|ip0 l0]; [by rewrite Hrun|].
  remember (ip0 :: l0) as l eqn:Hcons.
  destruct (List.find _ l) as [ip|]; [by rewrite Hrun|].
  destruct Hrun as [[-> _] | (s & -> & _)]; [|reflexivity].
  exists cart, l. repeat split; try assumption. by rewrite Hcons.
Qed.

(** ** The order sequencer (C4) *)

Lemma handle_counter_step req db :
  (minted req (snd (handle req db)) = [] /\
   counter_value (fst (handle req db)) = counter_value db) \/
  (minted req (snd (handle req db)) = [counter_value db + 1] /\
   counter_value (fst (handle req db)) = counter_value db + 1).
Proof.
  destruct req;
    try (left; split; [reflexivity|]; unfold counter_value;
         by rewrite handle_counters).
  simpl. pose proof (createFromCart_outcome fault userId notes now db) as Hout.
  destruct (OrderService.createFromCart fault userId notes now db) as [db' [res|e]].
  - right. destruct Hout as (cart & l & _ & _ & _ & Ho & _ & ->). simpl.
    rewrite Ho. simpl. split; [reflexivity|].
    unfold counter_value at 1. simpl. by rewrite lookup_insert_eq.
  - left. simpl. by rewrite Hout.
Qed.

Lemma seq_numbers_shift (c : Z) (n : nat) :
  List.map (fun i => c + 1 + Z.of_nat i) (seq 1 n)
  = List.map (fun i => c + Z.of_nat i) (seq 2 n).
Proof.
  rewrite <- (seq_shift n 1), List.map_map. apply List.map_ext.
  intros i. lia.
Qed.

Lemma seq_numbers_NoDup (c : Z) (n : nat) :
  NoDup (List.map (fun i => c + Z.of_nat i) (seq 1 n)).
Proof.
  apply NoDup_fmap_2.
  - intros i j Hij. lia.
  - apply NoDup_seq.
Qed.

(** C4: a successful [createFromCart] steps the 'order_counter' row by exactly
    one and gives the new value to the order as its [orderNumber]; a store
    without the row gets it with value 1.  Hence, whatever requests are
    served one after the other, the order numbers minted are
    [c + 1, c + 2, ..., c + n] for the counter value [c] before the first
    request: distinct, increasing, without gaps, and the counter ends at
    [c + n]. *)
Theorem order_numbers_sequential :
  (forall fault u notes now db db' res,
     OrderService.createFromCart fault u notes now db = (db', Ok res) ->
     counter_value db' = counter_value db + 1 /\
     o_orderNumber (OrderService.ow_order res) = counter_value db' /\
     counters db' !! ORDER_COUNTER = Some (counter_value db') /\
     (counters db !! ORDER_COUNTER = None ->
      counters db' !! ORDER_COUNTER = Some 1)) /\
  (forall reqs db,
     let nums := snd (run reqs db) in
     nums = List.map (fun i => counter_value db + Z.of_nat i)
                     (seq 1 (List.length nums)) /\
     counter_value (fst (run reqs db))
       = counter_value db + Z.of_nat (List.length nums) /\
     NoDup nums).
Proof.
  split.
  - intros fault u notes now db db' res Hrun.
    pose proof (createFromCart_outcome fault u notes now db) as Hout.
    rewrite Hrun in Hout.
    destruct Hout as (cart & l & _ & _ & _ & Ho & _ & ->).
    unfold counter_value at 1 3 4. simpl. rewrite lookup_insert_eq, Ho. simpl.
    repeat split. intros Hnone. unfold counter_value. by rewrite Hnone.
  - intros reqs db nums.
    assert (Hmain : nums = List.map (fun i => counter_value db + Z.of_nat i)
                                    (seq 1 (List.length nums)) /\
                    counter_value (fst (run reqs db))
                      = counter_value db + Z.of_nat (List.length nums)).
    { subst nums. revert db. induction reqs as [|req reqs IH]; intros db; simpl.
      - split; [reflexivity | lia].
      - destruct (IH (fst (handle req db))) as [IHn IHc].
        destruct (handle_counter_step req db) as [[-> Hc] | [-> Hc]]; simpl.
        + rewrite Hc in IHn, IHc. by split.
        + rewrite Hc in IHn, IHc. split.
          * f_equal; try lia. rewrite <- seq_numbers_shift. exact IHn.
          * rewrite IHc. lia. }
    destruct Hmain as [Hn Hc]. repeat split; try assumption.
    rewrite Hn. apply seq_numbers_NoDup.
Qed.

Lemma order_numbers_sequential_witness :
  exists res,
    OrderService.createFromCart no_fault 7%N (Some "Bloco B") 200 demo_cart_db
      = (demo_order_db, Ok res) /\
    counter_value demo_order_db = counter_value demo_cart_db + 1 /\
    o_orderNumber (OrderService.ow_order res) = counter_value demo_order_db /\
    counters demo_order_db !! ORDER_COUNTER = Some (counter_value demo_order_db) /\
    (counters demo_cart_db !! ORDER_COUNTER = None ->
     counters demo_order_db !! ORDER_COUNTER = Some 1).
Proof.
  eexists. split.
  - vm_compute. reflexivity.
  - eapply (proj1 order_numbers_sequential no_fault 7%N (Some "Bloco B") 200
              demo_cart_db demo_order_db).
    vm_compute. reflexivity.
Defined.

(** Two customers: the first orders, tries again with the emptied cart and
    is refused, a creation of the second is lost to a store failure, then
    succeeds.  The numbers minted are 1 and 2. *)
Example run_two_customers :
  snd (run [ AddItem 7%N 1%N (Some 2) None 100;
             CreateOrder no_fault 7%N None 110;
             CreateOrder no_fault 7%N None 120;
             AddItem 8%N 2%N None None 130;
             CreateOrder (fault_at HistoryInsert) 8%N None 140;
             CreateOrder no_fault 8%N None 150 ] demo_db)
  = [1; 2].
Proof. vm_compute. reflexivity. Qed.

(** ** Cancellation by the customer (C6) *)

(** C6: [cancel] succeeds exactly when the order exists, belongs to the user
    and is PENDENTE.  On success the order becomes CANCELADO, [cancelledAt]
    is stamped, and one history entry with the note 'Cancelado pelo cliente'
    (and no author) is appended.  An owned order in another status gives the
    400 error 'Apenas pedidos pendentes podem ser cancelados' and an order
    that is missing or belongs to somebody else gives the 404 error 'Pedido
    nao encontrado'; in both cases the store is left as it was. *)
Theorem cancel_only_pending_by_owner db id u now :
  let r := OrderService.cancel id u now db in
  (is_ok (snd r) = true <->
   exists o, orders db !! id = Some o /\ o_userId o = u /\ o_status o = PENDENTE) /\
  (forall o,
     orders db !! id = Some o -> o_userId o = u -> o_status o = PENDENTE ->
     let o' := mkOrder (o_id o) (o_orderNumber o) (o_userId o) (o_totalAmount o)
                 (o_notes o) CANCELADO (o_preparedAt o) (o_readyAt o)
                 (o_deliveredAt o) (Some now) (o_createdAt o) in
     snd r = Ok (OrderService.mkOrderWithItems o'
                   (items_of_order id (orderItems db))) /\
     orders (fst r) = <[id := o']> (orders db) /\
     statusHistory (fst r)
       = statusHistory db ++
         [mkHistory (nextId db) id CANCELADO None
            (Some "Cancelado pelo cliente") now]) /\
  (forall o,
     orders db !! id = Some o -> o_userId o = u -> o_status o <> PENDENTE ->
     r = (db, Err (HttpError 400 "Apenas pedidos pendentes podem ser cancelados"))) /\
  ((orders db !! id = None \/
    exists o, orders db !! id = Some o /\ o_userId o <> u) ->
   r = (db, Err (HttpError 404 "Pedido nao encontrado"))).
Proof.
  intros r. subst r. unfold_services. simpl.
  destruct (orders db !! id) as [o|] eqn:Ho; simpl; [|split_cases].
  destruct (N.eqb_spec (o_userId o) u) as [Hu|Hu]; simpl; [|split_cases].
  case_bool_decide as Hst; simpl; rewrite ?Ho; simpl; split_cases.
Qed.

Lemma cancel_only_pending_by_owner_witness :
  exists o,
    orders demo_order_db !! 13%N = Some o /\
    statusHistory (fst (OrderService.cancel 13%N 7%N 300 demo_order_db))
      = statusHistory demo_order_db ++
        [mkHistory (nextId demo_order_db) 13%N CANCELADO None
           (Some "Cancelado pelo cliente") 300] /\
    OrderService.cancel 13%N 8%N 300 demo_order_db
      = (demo_order_db, Err (HttpError 404 "Pedido nao encontrado")).
Proof.
  eexists. split; [vm_compute; reflexivity|]. split.
  - eapply (proj1 (proj2 (cancel_only_pending_by_owner demo_order_db 13%N 7%N 300))).
    + vm_compute. reflexivity.
    + reflexivity.
    + reflexivity.
  - apply (proj2 (proj2 (proj2
             (cancel_only_pending_by_owner demo_order_db 13%N 8%N 300)))).
    right. eexists. split; [vm_compute; reflexivity|]. vm_compute. discriminate.
Defined.

(** ** Status transitions by the administrator (C2, C7) *)

Lemma includes_legal_transitions (cur new : OrderStatus) :
  includes (VALID_STATUS_TRANSITIONS cur) new = true
  <-> In (cur, new) legal_transitions.
Proof.
  split.
  - destruct cur, new; simpl; intros H; try discriminate H; tauto.
  - intros H. simpl in H.
    repeat (destruct H as [[= <- <-] | H]; [reflexivity|]). contradiction.
Qed.

(** C2: for an order that exists, [updateStatus] succeeds exactly when the
    pair (current status, requested status) is in the table PENDENTE to
    EM_PREPARO or CANCELADO, EM_PREPARO to PRONTO or CANCELADO, PRONTO to
    ENTREGUE or CANCELADO.  Otherwise it fails with the 400 error whose
    message names the current and the requested status, and the store is
    left as it was: same status, no history entry.  No row of the table
    leads to the status it starts from, and ENTREGUE and CANCELADO have no
    row. *)
Theorem updateStatus_follows_table db id o newStatus adminId notes now :
  orders db !! id = Some o ->
  let r := OrderService.updateStatus id newStatus adminId notes now db in
  (is_ok (snd r) = true <-> In (o_status o, newStatus) legal_transitions) /\
  (~ In (o_status o, newStatus) legal_transitions ->
   r = (db, Err (HttpError 400
                   ("Nao e possivel mudar de " +:+ status_name (o_status o)
                    +:+ " para " +:+ status_name newStatus)))) /\
  ~ In (o_status o, o_status o) legal_transitions /\
  ~ In (ENTREGUE, newStatus) legal_transitions /\
  ~ In (CANCELADO, newStatus) legal_transitions.
Proof.
  intros Ho r.
  assert (Htable : ~ In (o_status o, o_status o) legal_transitions /\
                   ~ In (ENTREGUE, newStatus) legal_transitions /\
                   ~ In (CANCELADO, newStatus) legal_transitions).
  { simpl. intuition congruence. }
  subst r. unfold_services. simpl. rewrite Ho. simpl.
  pose proof (includes_legal_transitions (o_status o) newStatus) as Hinc.
  destruct (includes (VALID_STATUS_TRANSITIONS (o_status o)) newStatus); simpl;
    rewrite ?Ho; simpl.
  - split; [tauto|]. split; [|exact Htable].
    intros Hnot. exfalso. apply Hnot, Hinc. reflexivity.
  - split; [|split; [reflexivity | exact Htable]].
    split; [discriminate|]. intros Hin. by apply Hinc in Hin.
Qed.

Lemma updateStatus_follows_table_witness :
  orders demo_order_db !! 13%N = Some demo_order /\
  OrderService.updateStatus 13%N ENTREGUE 1%N None 300 demo_order_db
    = (demo_order_db,
       Err (HttpError 400 "Nao e possivel mudar de PENDENTE para ENTREGUE")) /\
  is_ok (snd (OrderService.updateStatus 13%N EM_PREPARO 1%N None 300 demo_order_db))
    = true.
Proof.
  assert (Ho : orders demo_order_db !! 13%N = Some demo_order)
    by (vm_compute; reflexivity).
  split; [exact Ho|]. split.
  - apply (proj1 (proj2 (updateStatus_follows_table
             demo_order_db 13%N demo_order ENTREGUE 1%N None 300 Ho))).
    vm_compute. intuition congruence.
  - apply (proj1 (updateStatus_follows_table
             demo_order_db 13%N demo_order EM_PREPARO 1%N None 300 Ho)).
    vm_compute. tauto.
Defined.

(** No request rewrites or removes a history entry: the table only grows at
    its end. *)
Lemma handle_history_append_only req db :
  exists l, statusHistory (fst (handle req db)) = statusHistory db ++ l.
Proof.
  destruct req; simpl.
  6:{ pose proof (createFromCart_outcome fault userId notes now db) as Hout.
      destruct (OrderService.createFromCart fault userId notes now db)
        as [db' [res|e]]; simpl.
      - destruct Hout as (cart & l & _ & _ & _ & _ & _ & ->). simpl. by eexists.
      - rewrite Hout. exists []. by rewrite app_nil_r. }
  all: run_services; rewrite ?getCart_store; simpl;
    repeat (destruct_inner; simpl);
    first [ by (exists []; rewrite app_nil_r) | by eexists ].
Qed.

(** C7: an accepted [updateStatus] appends exactly one history entry, with
    the new status, the administrator's identifier and the notes, after the
    entries already there, which stay as they were (no request ever changes
    or removes one); the order gets the new status and the timestamp that
    goes with it ([preparedAt] for EM_PREPARO, [readyAt] for PRONTO,
    [deliveredAt] for ENTREGUE, [cancelledAt] for CANCELADO) while the other
    three timestamps keep their value; the history returned with the order,
    by [updateStatus] and by [getById], is the order's entries sorted from
    the most recent to the oldest. *)
Theorem updateStatus_records_transition db id o newStatus adminId notes now :
  wf db ->
  orders db !! id = Some o ->
  In (o_status o, newStatus) legal_transitions ->
  let r := OrderService.updateStatus id newStatus adminId notes now db in
  let db' := fst r in
  let o' := OrderService.updateData newStatus now o in
  statusHistory db'
    = statusHistory db ++
      [mkHistory (nextId db) id newStatus (Some adminId) notes now] /\
  (forall req db0,
     exists l, statusHistory (fst (handle req db0)) = statusHistory db0 ++ l) /\
  orders db' = <[id := o']> (orders db) /\
  o_status o' = newStatus /\
  o_preparedAt o' = (if bool_decide (newStatus = EM_PREPARO)
                     then Some now else o_preparedAt o) /\
  o_readyAt o' = (if bool_decide (newStatus = PRONTO)
                  then Some now else o_readyAt o) /\
  o_deliveredAt o' = (if bool_decide (newStatus = ENTREGUE)
                      then Some now else o_deliveredAt o) /\
  o_cancelledAt o' = (if bool_decide (newStatus = CANCELADO)
                      then Some now else o_cancelledAt o) /\
  (exists d, snd r = Ok d /\
             OrderService.od_order d = o' /\
             Sorted history_newer (OrderService.od_statusHistory d) /\
             OrderService.od_statusHistory d
               ≡ₚ history_of_order id (statusHistory db')) /\
  (forall u isAdmin db'' d,
     OrderService.getById id u isAdmin db' = (db'', Ok d) ->
     Sorted history_newer (OrderService.od_statusHistory d) /\
     OrderService.od_statusHistory d
       ≡ₚ history_of_order id (statusHistory db')).
Proof.
  intros Hwf Ho Hlegal r db' o'.
  destruct (wf_orders db Hwf _ _ Ho) as [_ Hid].
  apply includes_legal_transitions in Hlegal.
  assert (Hr : r = (with_statusHistory (fun l =>
                      l ++ [mkHistory (nextId db) id newStatus (Some adminId) notes now])
                      (with_nextId N.succ (with_orders (insert id o') db)),
                    Ok (OrderService.mkOrderDetail o'
                          (List.map (fun it => (it, None))
                             (items_of_order (o_id o') (orderItems db)))
                          (users db !! o_userId o')
                          (by_changedAt_desc
                             (history_of_order (o_id o')
                                (statusHistory db ++
                                 [mkHistory (nextId db) id newStatus
                                    (Some adminId) notes now])))))).
  { subst r. unfold_services. simpl. rewrite Ho. simpl. rewrite Hlegal. simpl.
    rewrite Ho. reflexivity. }
  subst db'. rewrite Hr. simpl.
  assert (Hid' : o_id o' = id) by exact Hid.
  split; [reflexivity|]. split; [apply handle_history_append_only|].
  split; [reflexivity|]. do 5 (split; [reflexivity|]). split.
  - eexists. split; [reflexivity|]. simpl. rewrite Hid.
    repeat split; [apply Sorted_merge_sort; apply _ | apply merge_sort_Permutation].
  - intros u isAdmin db'' d. unfold_services. simpl.
    rewrite lookup_insert_eq.
    destruct isAdmin; simpl.
    + intros [= _ <-]. simpl. rewrite Hid.
      split; [apply Sorted_merge_sort; apply _ | apply merge_sort_Permutation].
    + destruct (N.eqb (o_userId o) u); simpl; [|discriminate].
      intros [= _ <-]. simpl. rewrite Hid.
      split; [apply Sorted_merge_sort; apply _ | apply merge_sort_Permutation].
Qed.

Lemma updateStatus_records_transition_witness :
  statusHistory
    (fst (OrderService.updateStatus 13%N EM_PREPARO 1%N (Some "cozinha") 300
            demo_order_db))
  = statusHistory demo_order_db ++
    [mkHistory (nextId demo_order_db) 13%N EM_PREPARO (Some 1%N)
       (Some "cozinha") 300].
Proof.
  apply (proj1 (updateStatus_records_transition demo_order_db 13%N demo_order
                  EM_PREPARO 1%N (Some "cozinha") 300
                  ltac:(compute_done)
                  ltac:(vm_compute; reflexivity)
                  ltac:(vm_compute; tauto))).
Defined.

(** The scenario of the specification: moving a PENDENTE order to ENTREGUE
    is refused and nothing is written; moving it to EM_PREPARO is accepted
    and the history, most recent first, reads EM_PREPARO, PENDENTE. *)
Example updateStatus_scenario :
  fst (OrderService.updateStatus 13%N ENTREGUE 1%N None 300 demo_order_db)
    = demo_order_db /\
  match OrderService.updateStatus 13%N EM_PREPARO 1%N None 300 demo_order_db with
  | (_, Ok d) =>
      List.map h_status (OrderService.od_statusHistory d) = [EM_PREPARO; PENDENTE] /\
      o_preparedAt (OrderService.od_order d) = Some 300
  | (_, Err _) => False
  end.
Proof. vm_compute. repeat split. Qed.

(** ** Order detail (C8) *)

(** C8: [getById] returns the order with its rows, customer and history to
    the owner of the order and to an administrator.  To a requester who is
    neither, an order of somebody else answers exactly as an identifier that
    does not exist: the 404 error 'Pedido nao encontrado', with nothing
    written.  More generally the answer to a non-administrator is the same
    in two stores that agree on the orders the requester owns and on the
    rows, history and catalogue: orders of other users do not show. *)
Theorem getById_hides_foreign_orders :
  (forall db id o u isAdmin,
     orders db !! id = Some o ->
     o_userId o = u \/ isAdmin = true ->
     OrderService.getById id u isAdmin db
       = (db, Ok (OrderService.mkOrderDetail o
                    (List.map (fun it => (it, products db !! oi_productId it))
                              (items_of_order (o_id o) (orderItems db)))
                    (users db !! o_userId o)
                    (by_changedAt_desc
                       (history_of_order (o_id o) (statusHistory db)))))) /\
  (forall db1 db2 id1 id2 o u,
     orders db1 !! id1 = Some o ->
     o_userId o <> u ->
     orders db2 !! id2 = None ->
     OrderService.getById id1 u false db1
       = (db1, Err (HttpError 404 "Pedido nao encontrado")) /\
     OrderService.getById id2 u false db2
       = (db2, Err (HttpError 404 "Pedido nao encontrado")) /\
     snd (OrderService.getById id1 u false db1)
       = snd (OrderService.getById id2 u false db2)) /\
  (forall db1 db2 id u,
     (forall o, o_userId o = u ->
                (orders db1 !! id = Some o <-> orders db2 !! id = Some o)) ->
     orderItems db1 = orderItems db2 ->
     statusHistory db1 = statusHistory db2 ->
     products db1 = products db2 ->
     users db1 = users db2 ->
     snd (OrderService.getById id u false db1)
       = snd (OrderService.getById id u false db2)).
Proof.
  split; [|split].
  - intros db id o u isAdmin Ho Hallowed. unfold_services. simpl. rewrite Ho.
    destruct isAdmin; simpl; [reflexivity|].
    destruct Hallowed as [<- | [=]]. by rewrite N.eqb_refl.
  - intros db1 db2 id1 id2 o u Ho Hu Hnone. unfold_services. simpl.
    rewrite Ho, Hnone. simpl.
    destruct (N.eqb_spec (o_userId o) u) as [Heq|_]; [contradiction|].
    by repeat split.
  - intros db1 db2 id u Hagree Hitems Hhist Hprods Husers.
    unfold_services. simpl.
    destruct (orders db1 !! id) as [o1|];
      destruct (orders db2 !! id) as [o2|]; simpl.
    + destruct (N.eqb_spec (o_userId o1) u) as [E1|E1];
        destruct (N.eqb_spec (o_userId o2) u) as [E2|E2]; simpl.
      * destruct (Hagree o1 E1) as [Hto _]. specialize (Hto eq_refl).
        injection Hto as ->. by rewrite Hitems, Hhist, Hprods, Husers.
      * destruct (Hagree o1 E1) as [Hto _]. specialize (Hto eq_refl).
        injection Hto as ->. contradiction.
      * destruct (Hagree o2 E2) as [_ Hfrom]. specialize (Hfrom eq_refl).
        injection Hfrom as ->. contradiction.
      * reflexivity.
    + destruct (N.eqb_spec (o_userId o1) u) as [E1|E1]; simpl; [|reflexivity].
      destruct (Hagree o1 E1) as [Hto _]. specialize (Hto eq_refl). discriminate.
    + destruct (N.eqb_spec (o_userId o2) u) as [E2|E2]; simpl; [|reflexivity].
      destruct (Hagree o2 E2) as [_ Hfrom]. specialize (Hfrom eq_refl).
      discriminate.
    + reflexivity.
Qed.

Lemma getById_hides_foreign_orders_witness :
  OrderService.getById 13%N 8%N false demo_order_db
    = (demo_order_db, Err (HttpError 404 "Pedido nao encontrado")) /\
  OrderService.getById 99%N 8%N false demo_order_db
    = (demo_order_db, Err (HttpError 404 "Pedido nao encontrado")) /\
  snd (OrderService.getById 13%N 8%N false demo_order_db)
    = snd (OrderService.getById 99%N 8%N false demo_order_db).
Proof.
  apply (proj1 (proj2 getById_hides_foreign_orders)
           demo_order_db demo_order_db 13%N 99%N demo_order 8%N).
  - vm_compute. reflexivity.
  - vm_compute. discriminate.
  - vm_compute. reflexivity.
Defined.

(** ** One cart row per product (C9) *)

Lemma cart_keys_filter (f : CartItem -> bool) (l : list CartItem) :
  NoDup (List.map cart_key l) -> NoDup (List.map cart_key (List.filter f l)).
Proof.
  induction l as [|x l IH]; simpl; [done|].
  intros Hnd. apply NoDup_cons in Hnd as [Hx Hl].
  destruct (f x); simpl; [|by apply IH].
  apply NoDup_cons. split; [|by apply IH].
  intros Hin. apply Hx. apply list_elem_of_In in Hin. apply list_elem_of_In.
  apply List.in_map_iff in Hin as (y & Hy & Hiny).
  apply List.in_map_iff. exists y. split; [exact Hy|].
  apply List.filter_In in Hiny. tauto.
Qed.

Lemma cart_keys_update (f : CartItem -> CartItem) (l : list CartItem) :
  (forall x, cart_key (f x) = cart_key x) ->
  List.map cart_key (List.map f l) = List.map cart_key l.
Proof.
  intros Hf. rewrite List.map_map. apply List.map_ext. exact Hf.
Qed.

Lemma cart_key_eqb (cartId productId : Id) (it : CartItem) :
  N.eqb (ci_cartId it) cartId && N.eqb (ci_productId it) productId = true
  <-> cart_key it = (cartId, productId).
Proof.
  unfold cart_key. rewrite andb_true_iff, !N.eqb_eq. split.
  - by intros [-> ->].
  - by intros [= -> ->].
Qed.

Lemma find_key_none (cartId productId : Id) (l : list CartItem) :
  List.find (fun it => N.eqb (ci_cartId it) cartId && N.eqb (ci_productId it) productId) l
    = None ->
  (cartId, productId) ∉ List.map cart_key l.
Proof.
  intros Hfind Hin. apply list_elem_of_In, List.in_map_iff in Hin as (x & Hx & Hin).
  pose proof (List.find_none _ _ Hfind x Hin) as Hfalse. simpl in Hfalse.
  apply cart_key_eqb in Hx. congruence.
Qed.

Lemma cart_keys_snoc (l : list CartItem) (it : CartItem) :
  NoDup (List.map cart_key l) ->
  cart_key it ∉ List.map cart_key l ->
  NoDup (List.map cart_key (l ++ [it])).
Proof.
  intros Hnd Hnotin. rewrite List.map_app. simpl.
  apply NoDup_app. repeat split; [assumption| |apply NoDup_singleton].
  intros k Hk Hk'. apply list_elem_of_singleton in Hk'. by subst.
Qed.

Lemma handle_unique_cart_items req db :
  unique_cart_items db -> unique_cart_items (fst (handle req db)).
Proof.
  unfold unique_cart_items. intros Hnd.
  destruct req; simpl.
  6:{ pose proof (createFromCart_outcome fault userId notes now db) as Hout.
      destruct (OrderService.createFromCart fault userId notes now db)
        as [db' [res|e]]; simpl.
      - destruct Hout as (cart & l & _ & _ & _ & _ & _ & ->). simpl.
        by apply cart_keys_filter.
      - by rewrite Hout. }
  all: run_services; rewrite ?getCart_store; simpl;
    repeat (destruct_inner; simpl);
    try assumption;
    try (by apply cart_keys_filter);
    try (rewrite cart_keys_update;
         [assumption | intros x; by destruct (N.eqb (ci_id x) _)]).
  all: apply cart_keys_snoc; [assumption|];
    match goal with
    | H : List.find _ _ = None |- _ => apply find_key_none in H; exact H
    end.
Qed.

Lemma cart_key_inj (l : list CartItem) (x y : CartItem) :
  NoDup (List.map cart_key l) -> In x l -> In y l ->
  cart_key x = cart_key y -> x = y.
Proof.
  induction l as [|z l IH]; simpl; [contradiction|].
  intros Hnd Hx Hy Hkey. apply NoDup_cons in Hnd as [Hz Hl].
  destruct Hx as [<-|Hx], Hy as [<-|Hy]; [reflexivity| | |by apply IH].
  - exfalso. apply Hz. rewrite Hkey. apply list_elem_of_In. by apply List.in_map.
  - exfalso. apply Hz. rewrite <- Hkey. apply list_elem_of_In. by apply List.in_map.
Qed.

Lemma find_unique_key (l : list CartItem) (ex : CartItem) (cartId productId : Id) :
  NoDup (List.map cart_key l) -> In ex l ->
  cart_key ex = (cartId, productId) ->
  List.find (fun it => N.eqb (ci_cartId it) cartId && N.eqb (ci_productId it) productId) l
    = Some ex.
Proof.
  intros Hnd Hin Hkey.
  destruct (List.find _ l) as [ex'|] eqn:Hfind.
  - apply List.find_some in Hfind as [Hin' Hkey']. apply cart_key_eqb in Hkey'.
    f_equal. apply (cart_key_inj l); congruence.
  - pose proof (List.find_none _ _ Hfind ex Hin) as Hfalse. simpl in Hfalse.
    apply cart_key_eqb in Hkey. congruence.
Qed.

Lemma rows_of_product_unique (l : list CartItem) (ex : CartItem)
    (cartId productId : Id) :
  NoDup (List.map cart_key l) -> In ex l ->
  cart_key ex = (cartId, productId) ->
  rows_of_product cartId productId l = [ex].
Proof.
  intros Hnd Hin Hkey. unfold rows_of_product.
  induction l as [|x l IH]; simpl; [contradiction|].
  apply NoDup_cons in Hnd as [Hx Hl].
  destruct (N.eqb (ci_cartId x) cartId && N.eqb (ci_productId x) productId) eqn:Hm.
  - apply cart_key_eqb in Hm.
    assert (x = ex) as ->.
    { apply (cart_key_inj (x :: l)); simpl; [by apply NoDup_cons|auto|auto|congruence]. }
    f_equal. apply filter_none. apply List.Forall_forall. intros y Hy.
    destruct (N.eqb (ci_cartId y) cartId && N.eqb (ci_productId y) productId) eqn:Hmy;
      [|reflexivity].
    apply cart_key_eqb in Hmy. exfalso. apply Hx. rewrite Hkey, <- Hmy.
    apply list_elem_of_In. by apply List.in_map.
  - destruct Hin as [->|Hin]; [|by apply IH].
    apply cart_key_eqb in Hkey. congruence.
Qed.

Lemma rows_of_product_update (l : list CartItem) (f : CartItem -> CartItem)
    (cartId productId : Id) :
  (forall x, cart_key (f x) = cart_key x) ->
  rows_of_product cartId productId (List.map f l)
  = List.map f (rows_of_product cartId productId l).
Proof.
  intros Hf. unfold rows_of_product. induction l as [|x l IH]; simpl; [reflexivity|].
  assert (Hsame : N.eqb (ci_cartId (f x)) cartId && N.eqb (ci_productId (f x)) productId
                  = N.eqb (ci_cartId x) cartId && N.eqb (ci_productId x) productId).
  { specialize (Hf x). unfold cart_key in Hf. injection Hf as H1 H2.
    by rewrite H1, H2. }
  rewrite Hsame.
  destruct (N.eqb (ci_cartId x) cartId && N.eqb (ci_productId x) productId);
    simpl; by rewrite IH.
Qed.

Lemma find_none_of_filter {A} (f : A -> bool) (l : list A) :
  List.filter f l = [] -> List.find f l = None.
Proof.
  induction l as [|x l IH]; simpl; [reflexivity|].
  destruct (f x); [discriminate | exact IH].
Qed.

(** C9: no request breaks the rule of at most one cart row per (cart,
    product) pair.  [addItem] of a product the user's cart already holds adds
    the given quantity (1 when none is given) to that row and writes no other
    row; [addItem] of a product the cart does not hold appends exactly one
    row with the given quantity. *)
Theorem cart_rows_unique_per_product :
  (forall req db,
     unique_cart_items db -> unique_cart_items (fst (handle req db))) /\
  (forall db u p quantity notes now prod cart ex,
     unique_cart_items db ->
     products db !! p = Some prod -> prod_isAvailable prod = true ->
     carts db !! u = Some cart ->
     In ex (cartItems db) -> ci_cartId ex = cart_id cart -> ci_productId ex = p ->
     let db' := fst (CartService.addItem u p quantity notes now db) in
     List.length (cartItems db') = List.length (cartItems db) /\
     rows_of_product (cart_id cart) p (cartItems db')
       = [mkCartItem (ci_id ex) (cart_id cart) p
            (ci_quantity ex + default 1 quantity)
            (if CartService.truthy notes then notes else ci_notes ex)
            (ci_createdAt ex)]) /\
  (forall db u p quantity notes now prod,
     wf db ->
     products db !! p = Some prod -> prod_isAvailable prod = true ->
     (forall cart, carts db !! u = Some cart ->
                   rows_of_product (cart_id cart) p (cartItems db) = []) ->
     let db' := fst (CartService.addItem u p quantity notes now db) in
     exists cart' iid,
       carts db' !! u = Some cart' /\
       (forall cart, carts db !! u = Some cart -> cart' = cart) /\
       cartItems db'
         = cartItems db ++
           [mkCartItem iid (cart_id cart') p (default 1 quantity) notes now]).
Proof.
  split; [exact handle_unique_cart_items|]. split.
  - intros db u p quantity notes now prod cart ex Hnd Hp Hav Hcart Hin Hcid Hpid db'.
    assert (Hkey : cart_key ex = (cart_id cart, p)) by (unfold cart_key; congruence).
    assert (Hdb' : cartItems db'
              = List.map (fun row =>
                  if N.eqb (ci_id row) (ci_id ex)
                  then mkCartItem (ci_id row) (ci_cartId row) (ci_productId row)
                         (ci_quantity ex + default 1 quantity)
                         (if CartService.truthy notes then notes else ci_notes ex)
                         (ci_createdAt row)
                  else row) (cartItems db)).
    { subst db'. unfold_services. simpl. rewrite Hp, Hav. simpl.
      rewrite Hcart. simpl.
      rewrite (find_unique_key _ ex _ _ Hnd Hin Hkey). simpl.
      rewrite getCart_store. simpl. by rewrite Hcart. }
    rewrite Hdb'. split; [apply List.length_map|].
    rewrite rows_of_product_update
      by (intros x; by destruct (N.eqb (ci_id x) (ci_id ex))).
    rewrite (rows_of_product_unique _ ex _ _ Hnd Hin Hkey). simpl.
    by rewrite N.eqb_refl, Hcid, Hpid.
  - intros db u p quantity notes now prod Hwf Hp Hav Habsent db'.
    subst db'. unfold_services. simpl. rewrite Hp, Hav. simpl.
    destruct (carts db !! u) as [cart|] eqn:Hcart; simpl.
    + rewrite (find_none_of_filter _ _ (Habsent cart eq_refl)). simpl.
      rewrite getCart_store. simpl. rewrite Hcart.
      exists cart, (nextId db). simpl. rewrite Hcart.
      repeat split. by intros cart0 [= ->].
    + rewrite find_none_of_filter.
      2:{ apply filter_none. eapply Forall_impl; [apply (wf_cartItems db Hwf)|].
          intros it Hit. simpl in Hit.
          destruct (N.eqb_spec (ci_cartId it) (nextId db)) as [E|_]; [lia|reflexivity]. }
      simpl. rewrite getCart_store. simpl. rewrite lookup_insert_eq.
      exists (mkCart (nextId db) u), (N.succ (nextId db)). simpl.
      rewrite lookup_insert_eq. repeat split. intros cart0 [=].
Qed.

Lemma cart_rows_unique_per_product_witness :
  List.length (cartItems (fst (CartService.addItem 7%N 1%N (Some 3) None 300 demo_cart_db)))
    = List.length (cartItems demo_cart_db) /\
  rows_of_product 10%N 1%N
    (cartItems (fst (CartService.addItem 7%N 1%N (Some 3) None 300 demo_cart_db)))
    = [mkCartItem 11%N 10%N 1%N 5 None 100].
Proof.
  apply (proj1 (proj2 cart_rows_unique_per_product) demo_cart_db 7%N 1%N (Some 3)
           None 300 (mkProduct 1%N "Coxinha" 5.5 true) (mkCart 10%N 7%N)
           (mkCartItem 11%N 10%N 1%N 2 None 100)).
  - compute_done.
  - reflexivity.
  - reflexivity.
  - reflexivity.
  - vm_compute. left. reflexivity.
  - reflexivity.
  - reflexivity.
Defined.

(** A second [addItem] of the same product leaves one row with the summed
    quantity; a product not yet in the cart gets a row of its own. *)
Example addItem_accumulates :
  List.map (fun it => (ci_productId it, ci_quantity it))
    (cartItems (fst (run [ AddItem 7%N 1%N (Some 2) None 100;
                           AddItem 7%N 2%N None None 101;
                           AddItem 7%N 1%N (Some 3) None 102 ] demo_db)))
  = [(1%N, 5); (2%N, 1)].
Proof. vm_compute. reflexivity. Qed.

(** ** Store integrity is kept by every request *)

Lemma wf_with_nextId_succ db : wf db -> wf (with_nextId N.succ db).
Proof.
  intros [H1 H2 H3 H4 H5 H6]. constructor; simpl; try assumption.
  - eapply map_Forall_impl; [exact H1|]. intros k c Hc. simpl in Hc. lia.
  - eapply Forall_impl; [exact H2|]. intros x Hx. simpl in Hx. lia.
  - eapply map_Forall_impl; [exact H3|]. intros k o [Hk Ho]. split; [lia|done].
  - eapply Forall_impl; [exact H4|]. intros x Hx. simpl in Hx. lia.
  - eapply Forall_impl; [exact H5|]. intros x Hx. simpl in Hx. lia.
Qed.

Lemma wf_insert_cart db u c :
  wf db -> (cart_id c < nextId db)%N -> wf (with_carts (insert u c) db).
Proof.
  intros [H1 H2 H3 H4 H5 H6] Hc. constructor; simpl; try assumption.
  by apply map_Forall_insert_2.
Qed.

Lemma wf_filter_cartItems db f :
  wf db -> wf (with_cartItems (List.filter f) db).
Proof.
  intros [H1 H2 H3 H4 H5 H6]. constructor; simpl; try assumption;
    by apply Forall_filter_bool.
Qed.

Lemma wf_update_cartItems db (g : CartItem -> CartItem) :
  wf db ->
  (forall x, ci_cartId (g x) = ci_cartId x /\ ci_productId (g x) = ci_productId x) ->
  wf (with_cartItems (List.map g) db).
Proof.
  intros [H1 H2 H3 H4 H5 H6] Hg. constructor; simpl; try assumption.
  - apply List.Forall_map. eapply Forall_impl; [exact H2|].
    intros x Hx. simpl in *. by rewrite (proj1 (Hg x)).
  - apply List.Forall_map. eapply Forall_impl; [exact H6|].
    intros x Hx. simpl in *. by rewrite (proj2 (Hg x)).
Qed.

Lemma wf_add_cartItem db it :
  wf db -> (ci_cartId it < nextId db)%N ->
  is_Some (products db !! ci_productId it) ->
  wf (with_cartItems (fun rows => rows ++ [it]) db).
Proof.
  intros [H1 H2 H3 H4 H5 H6] Hc Hp. constructor; simpl; try assumption.
  - apply Forall_app. split; [assumption | by repeat constructor].
  - apply Forall_app. split; [assumption | by repeat constructor].
Qed.

Lemma wf_insert_order db k o :
  wf db -> (k < nextId db)%N -> o_id o = k -> wf (with_orders (insert k o) db).
Proof.
  intros [H1 H2 H3 H4 H5 H6] Hk Ho. constructor; simpl; try assumption.
  by apply map_Forall_insert_2.
Qed.

Lemma wf_add_history db h :
  wf db -> (h_orderId h < nextId db)%N ->
  wf (with_statusHistory (fun l => l ++ [h]) db).
Proof.
  intros [H1 H2 H3 H4 H5 H6] Hh. constructor; simpl; try assumption.
  apply Forall_app. split; [assumption | by repeat constructor].
Qed.

Lemma wf_created_store db cartId o rows now :
  wf db -> o_id o = nextId db ->
  Forall (fun r => oi_orderId r = o_id o) rows ->
  wf (created_store db cartId o rows now).
Proof.
  intros [H1 H2 H3 H4 H5 H6] Ho Hrows. constructor; simpl.
  - eapply map_Forall_impl; [exact H1|]. intros k c Hc. simpl in Hc. lia.
  - apply Forall_filter_bool. eapply Forall_impl; [exact H2|].
    intros x Hx. simpl in Hx. lia.
  - apply map_Forall_insert_2; [split; [lia|reflexivity]|].
    eapply map_Forall_impl; [exact H3|]. intros k o' [Hk Ho']. split; [lia|done].
  - apply Forall_app. split.
    + eapply Forall_impl; [exact H4|]. intros x Hx. simpl in Hx. lia.
    + eapply Forall_impl; [exact Hrows|]. intros x Hx. simpl in *. lia.
  - apply Forall_app. split.
    + eapply Forall_impl; [exact H5|]. intros x Hx. simpl in Hx. lia.
    + repeat constructor. simpl. lia.
  - by apply Forall_filter_bool.
Qed.

(** Every request leaves a store that keeps its integrity. *)
Lemma handle_wf req db : wf db -> wf (fst (handle req db)).
Proof.
  intros Hwf. destruct req; simpl.
  6:{ pose proof (createFromCart_outcome fault userId notes now db) as Hout.
      destruct (OrderService.createFromCart fault userId notes now db)
        as [db' [res|e]]; simpl.
      - destruct Hout as (cart & l & _ & _ & _ & Ho & Hrows & ->).
        apply wf_created_store; [assumption | by rewrite Ho |].
        rewrite Hrows, Ho. apply order_rows_orderId.
      - by rewrite Hout. }
  all: run_services; rewrite ?getCart_store; simpl;
    repeat (destruct_inner; simpl); try assumption.
  all: simplify_eq.
  all: try match goal with
           | Hw : wf ?d, H : carts ?d !! _ = Some _ |- _ =>
               pose proof (wf_carts d Hw _ _ H)
           end;
       try match goal with
           | Hw : wf ?d, H : orders ?d !! _ = Some _ |- _ =>
               destruct (wf_orders d Hw _ _ H)
           end.
  all: repeat first
         [ assumption
         | apply wf_with_nextId_succ
         | apply wf_insert_cart; [|simpl in *; lia]
         | apply wf_filter_cartItems
         | apply wf_update_cartItems;
             [|intros x; destruct (N.eqb (ci_id x) _); split; reflexivity]
         | apply wf_add_cartItem; [|simpl in *; lia|simpl; eauto]
         | apply wf_insert_order; [|simpl in *; lia|simpl in *; congruence]
         | apply wf_add_history; [|simpl in *; lia] ].
Qed.

(** ** Stores reached by serving requests *)

Lemma run_preserves (P : DB -> Prop) :
  (forall req db, P db -> P (fst (handle req db))) ->
  forall reqs db, P db -> P (fst (run reqs db)).
Proof.
  intros Hstep reqs. induction reqs as [|req reqs IH]; intros db Hdb; simpl.
  - exact Hdb.
  - apply IH, Hstep, Hdb.
Qed.

Section Reachable.

Variable db0 : DB.
Hypothesis db0_wf : wf db0.
Hypothesis db0_unique : unique_cart_items db0.

Lemma run_wf (reqs : list Request) : wf (fst (run reqs db0)).
Proof. apply (run_preserves wf); [exact handle_wf | exact db0_wf]. Qed.

Lemma run_unique_cart_items (reqs : list Request) :
  unique_cart_items (fst (run reqs db0)).
Proof.
  apply (run_preserves unique_cart_items);
    [exact handle_unique_cart_items | exact db0_unique].
Qed.

Lemma run_history_append_only (reqs : list Request) :
  exists l, statusHistory (fst (run reqs db0)) = statusHistory db0 ++ l.
Proof.
  clear db0_wf db0_unique. revert db0.
  induction reqs as [|req reqs IH]; intros db; simpl.
  - exists []. by rewrite app_nil_r.
  - destruct (handle_history_append_only req db) as [l1 Hl1].
    destruct (IH (fst (handle req db))) as [l2 Hl2].
    exists (l1 ++ l2). by rewrite Hl2, Hl1, <- app_assoc.
Qed.

End Reachable.

Lemma empty_db_wf : wf empty_db.
Proof. compute_done. Qed.

Lemma empty_db_unique : unique_cart_items empty_db.
Proof. constructor. Qed.

(** The stores of the examples are reached from [demo_db] by requests. *)
Example demo_order_db_reached :
  demo_order_db
  = fst (run [ AddItem 7%N 1%N (Some 2) None 100;
               AddItem 7%N 2%N None None 101;
               CreateOrder no_fault 7%N (Some "Bloco B") 200 ] demo_db).
Proof. vm_compute. reflexivity. Qed.

(** * Further properties of the services *)

(** ** What a request does to the order tables *)

Lemma order_rows_prices orderId first (l : list (CartItem * Product)) :
  let rows := order_rows orderId first
                (List.map (fun ip => OrderService.order_item_data ip
                             ((prod_price (snd ip) * js_number (ci_quantity (fst ip)))%float)) l) in
  sum_numbers (List.map (fun ip => (prod_price (snd ip) * js_number (ci_quantity (fst ip)))%float) l)
    = sum_numbers (List.map oi_totalPrice rows) /\
  Forall (fun r => oi_orderId r = orderId /\
                   oi_totalPrice r
                     = (oi_unitPrice r * js_number (oi_quantity r))%float) rows.
Proof.
  intros rows. subst rows. split.
  - f_equal. revert first. induction l as [|ip l IH]; intros first; simpl;
      [reflexivity|]. by rewrite <- IH.
  - revert first. induction l as [|ip l IH]; intros first; simpl;
      constructor; [by split | apply IH].
Qed.

Lemma handle_order_effect req db : OrderEffect db (fst (handle req db)).
Proof.
  destruct req; simpl.
  6:{ pose proof (createFromCart_outcome fault userId notes now db) as Hout.
      destruct (OrderService.createFromCart fault userId notes now db)
        as [db' [res|e]]; simpl.
      - destruct Hout as (cart & l & _ & _ & _ & Ho & Hrows & ->).
        destruct (order_rows_prices (nextId db) (N.succ (nextId db)) l)
          as [Hsum Hprices].
        eapply (effect_created _ _ (OrderService.ow_order res)
                  (OrderService.ow_items res));
          rewrite ?Ho, ?Hrows; simpl; try reflexivity; try assumption.
        all: reflexivity.
      - rewrite Hout. by apply effect_none. }
  1-5: apply effect_none; run_services; rewrite ?getCart_store; simpl;
    repeat (destruct_inner; simpl); reflexivity.
  - apply effect_none; run_services; reflexivity.
  - (* cancel *)
    unfold_services. simpl.
    destruct (orders db !! id) as [o|] eqn:Ho; simpl; [|by apply effect_none].
    destruct (N.eqb (o_userId o) userId); simpl; [|by apply effect_none].
    case_bool_decide as Hst; simpl; [|by apply effect_none].
    rewrite Ho. simpl.
    eapply (effect_moved _ _ id o);
      [exact Ho | | | | | reflexivity | reflexivity | reflexivity | reflexivity].
    + by repeat split.
    + rewrite Hst. simpl. tauto.
    + reflexivity.
    + reflexivity.
  - (* updateStatus *)
    unfold_services. simpl.
    destruct (orders db !! id) as [o|] eqn:Ho; simpl; [|by apply effect_none].
    destruct (includes (VALID_STATUS_TRANSITIONS (o_status o)) newStatus) eqn:Hinc;
      simpl; [|by apply effect_none].
    rewrite Ho. simpl.
    eapply (effect_moved _ _ id o);
      [exact Ho | | | | | reflexivity | reflexivity | reflexivity | reflexivity].
    + by repeat split.
    + by apply includes_legal_transitions.
    + reflexivity.
    + reflexivity.
Qed.

Lemma legal_transition_rank (a b : OrderStatus) :
  In (a, b) legal_transitions -> (status_rank a < status_rank b)%nat.
Proof.
  simpl. intros H.
  repeat (destruct H as [[= <- <-] | H]; [simpl; lia|]). contradiction.
Qed.

Lemma items_of_order_other (old rows : list OrderItem) (id oid : Id) :
  Forall (fun r => oi_orderId r = oid) rows -> id <> oid ->
  items_of_order id (old ++ rows) = items_of_order id old.
Proof.
  intros Hrows Hne. unfold items_of_order.
  rewrite List.filter_app, (filter_none _ rows), app_nil_r; [reflexivity|].
  eapply Forall_impl; [exact Hrows|]. intros r ->. by apply N.eqb_neq.
Qed.

Lemma history_of_order_other (old : list OrderStatusHistory) h (id : Id) :
  h_orderId h <> id ->
  history_of_order id (old ++ [h]) = history_of_order id old.
Proof.
  intros Hne. unfold history_of_order. rewrite List.filter_app. simpl.
  apply N.eqb_neq in Hne. by rewrite Hne, app_nil_r.
Qed.

Lemma history_of_order_same (old : list OrderStatusHistory) h :
  history_of_order (h_orderId h) (old ++ [h])
  = history_of_order (h_orderId h) old ++ [h].
Proof.
  unfold history_of_order. rewrite List.filter_app. simpl.
  by rewrite N.eqb_refl.
Qed.

(** One request: an order stays in the store with the columns and rows it
    was created with, and its status stays or follows a row of the table. *)
Lemma handle_keeps_order req db id o :
  wf db -> orders db !! id = Some o ->
  exists o',
    orders (fst (handle req db)) !! id = Some o' /\
    same_order_core o o' /\
    (o' = o \/ In (o_status o, o_status o') legal_transitions) /\
    items_of_order id (orderItems (fst (handle req db)))
      = items_of_order id (orderItems db).
Proof.
  intros Hwf Ho. destruct (wf_orders db Hwf _ _ Ho) as [Hlt _].
  destruct (handle_order_effect req db)
    as [Hord Hrows Hhist Hcnt
       | onew rows h Hid _ _ _ Hprices _ _ Hord Hrows _ _
       | id0 o0 o0' h Ho0 Hcore Hlegal _ _ Hord Hrows _ _].
  - exists o. rewrite Hord, Hrows. by repeat split; auto.
  - exists o. rewrite Hord, Hrows. repeat split; auto.
    + rewrite lookup_insert_ne; [exact Ho | lia].
    + apply (items_of_order_other _ _ _ (o_id onew)); [|lia].
      eapply Forall_impl; [exact Hprices|]. by intros r [-> _].
  - rewrite Hord, Hrows. destruct (decide (id0 = id)) as [->|Hne].
    + exists o0'. rewrite lookup_insert_eq. rewrite Ho in Ho0.
      injection Ho0 as <-. repeat split; auto; apply Hcore.
    + exists o. rewrite lookup_insert_ne by done. by repeat split; auto.
Qed.

(** ** Orders over any sequence of requests *)

(** X1: an order is never removed and never rewritten: whatever requests are
    served afterwards, it keeps its identifier, order number, customer,
    total, notes and creation time, and its rows. *)
Theorem orders_keep_columns_and_rows reqs db id o :
  wf db -> orders db !! id = Some o ->
  exists o',
    orders (fst (run reqs db)) !! id = Some o' /\
    same_order_core o o' /\
    items_of_order id (orderItems (fst (run reqs db)))
      = items_of_order id (orderItems db).
Proof.
  revert db o. induction reqs as [|req reqs IH]; intros db o Hwf Ho; simpl.
  - exists o. by repeat split.
  - destruct (handle_keeps_order req db id o Hwf Ho) as (o1 & Ho1 & Hc1 & _ & Hi1).
    destruct (IH _ o1 (handle_wf req db Hwf) Ho1) as (o2 & Ho2 & Hc2 & Hi2).
    exists o2. split; [exact Ho2|]. split; [|by rewrite Hi2].
    unfold same_order_core in *. intuition congruence.
Qed.

(** X2: the status of an order only advances: over any sequence of requests
    it stays where it is or moves further from PENDENTE, and an order that is
    ENTREGUE or CANCELADO stays exactly as it is. *)
Theorem order_status_only_advances reqs db id o :
  wf db -> orders db !! id = Some o ->
  exists o',
    orders (fst (run reqs db)) !! id = Some o' /\
    (o' = o \/ (status_rank (o_status o) < status_rank (o_status o'))%nat) /\
    (o_status o = ENTREGUE \/ o_status o = CANCELADO -> o' = o).
Proof.
  intros Hwf Ho.
  assert (Hmain : exists o',
            orders (fst (run reqs db)) !! id = Some o' /\
            (o' = o \/ (status_rank (o_status o) < status_rank (o_status o'))%nat)).
  { revert db o Hwf Ho. induction reqs as [|req reqs IH]; intros db o Hwf Ho; simpl.
    - exists o. by split; [|left].
    - destruct (handle_keeps_order req db id o Hwf Ho) as (o1 & Ho1 & _ & Hmove & _).
      destruct (IH _ o1 (handle_wf req db Hwf) Ho1) as (o2 & Ho2 & Hadv).
      exists o2. split; [exact Ho2|].
      destruct Hmove as [-> | Hlegal]; [exact Hadv|].
      apply legal_transition_rank in Hlegal. right.
      destruct Hadv as [-> | Hlt]; lia. }
  destruct Hmain as (o' & Ho' & Hadv). exists o'. repeat split; try assumption.
  intros Hterminal. destruct Hadv as [-> | Hlt]; [reflexivity|].
  exfalso. destruct Hterminal as [Hs | Hs]; rewrite Hs in Hlt; simpl in Hlt;
    destruct (o_status o'); simpl in Hlt; lia.
Qed.

Lemma handle_history_tracks_status req db :
  wf db -> history_tracks_status db ->
  history_tracks_status (fst (handle req db)).
Proof.
  intros Hwf Hinv id o'.
  destruct (handle_order_effect req db)
    as [Hord Hrows Hhist Hcnt
       | onew rows h Hid Hst _ _ _ Hhid Hhst Hord _ Hhist _
       | id0 o0 o0' h Ho0 _ Hlegal Hhid Hhst Hord _ Hhist _].
  - rewrite Hord, Hhist. apply Hinv.
  - rewrite Hord, Hhist. destruct (decide (o_id onew = id)) as [<-|Hne].
    + rewrite lookup_insert_eq. intros [= <-]. exists [], h.
      rewrite <- Hhid.
      rewrite (history_of_order_created _ h (nextId db));
        [|apply (wf_history db Hwf) | rewrite Hhid, Hid; lia].
      repeat split; [congruence | simpl; lia].
    + rewrite lookup_insert_ne by done. intros Ho.
      rewrite history_of_order_other by congruence. by apply Hinv.
  - rewrite Hord, Hhist. destruct (decide (id0 = id)) as [->|Hne].
    + rewrite lookup_insert_eq. intros [= <-].
      destruct (Hinv id o0 Ho0) as (pre & h0 & Hpre & _ & Hlen).
      exists (pre ++ [h0]), h. rewrite <- Hhid at 1.
      rewrite history_of_order_same, Hhid, Hpre.
      repeat split; [assumption|].
      apply legal_transition_rank in Hlegal.
      rewrite List.length_app. simpl. lia.
    + rewrite lookup_insert_ne by done. intros Ho.
      rewrite history_of_order_other by congruence. by apply Hinv.
Qed.

Lemma handle_order_numbers_ok req db :
  wf db -> order_numbers_ok db -> order_numbers_ok (fst (handle req db)).
Proof.
  intros Hwf (Hpos & Hrange & Hinj).
  destruct (handle_order_effect req db)
    as [Hord Hrows Hhist Hcnt
       | onew rows h Hid _ Hnum _ _ _ _ Hord _ _ Hcnt
       | id0 o0 o0' h Ho0 Hcore _ _ _ Hord _ _ Hcnt].
  - unfold order_numbers_ok, counter_value. rewrite Hord, Hcnt.
    split; [exact Hpos|]. split; [exact Hrange | exact Hinj].
  - assert (Hcv : counter_value (fst (handle req db)) = counter_value db + 1).
    { unfold counter_value at 1. by rewrite Hcnt, lookup_insert_eq, Hnum. }
    split; [lia|]. split.
    + intros id o. rewrite Hord, Hcv.
      destruct (decide (o_id onew = id)) as [<-|Hne].
      * rewrite lookup_insert_eq. intros [= <-]. lia.
      * rewrite lookup_insert_ne by done. intros Ho.
        pose proof (Hrange id o Ho). lia.
    + intros id1 id2 o1 o2. rewrite Hord.
      destruct (decide (o_id onew = id1)) as [<-|Hne1];
        destruct (decide (o_id onew = id2)) as [<-|Hne2];
        rewrite ?lookup_insert_eq, ?lookup_insert_ne by done; try done.
      * intros [= <-] Ho2 Heq. pose proof (Hrange id2 o2 Ho2). lia.
      * intros Ho1 [= <-] Heq. pose proof (Hrange id1 o1 Ho1). lia.
      * apply Hinj.
  - destruct Hcore as (_ & Hnum & _).
    assert (Hcv : counter_value (fst (handle req db)) = counter_value db).
    { unfold counter_value. by rewrite Hcnt. }
    split; [lia|]. split.
    + intros id o. rewrite Hord, Hcv.
      destruct (decide (id0 = id)) as [<-|Hne].
      * rewrite lookup_insert_eq. intros [= <-]. rewrite Hnum. by apply (Hrange id0).
      * rewrite lookup_insert_ne by done. apply Hrange.
    + intros id1 id2 o1 o2. rewrite Hord.
      destruct (decide (id0 = id1)) as [<-|Hne1];
        destruct (decide (id0 = id2)) as [<-|Hne2];
        rewrite ?lookup_insert_eq, ?lookup_insert_ne by done; try done.
      * intros [= <-] Ho2 Heq. rewrite Hnum in Heq. by apply (Hinj id0 id2 o0 o2).
      * intros Ho1 [= <-] Heq. rewrite Hnum in Heq. by apply (Hinj id1 id0 o1 o0).
      * apply Hinj.
Qed.

Lemma handle_order_totals_ok req db :
  wf db -> order_totals_ok db -> order_totals_ok (fst (handle req db)).
Proof.
  intros Hwf Hinv id o'.
  destruct (handle_order_effect req db)
    as [Hord Hrows Hhist Hcnt
       | onew rows h Hid _ _ Htotal Hprices _ _ Hord Hrows _ _
       | id0 o0 o0' h Ho0 Hcore _ _ _ Hord Hrows _ _].
  - rewrite Hord, Hrows. apply Hinv.
  - rewrite Hord, Hrows. destruct (decide (o_id onew = id)) as [<-|Hne].
    + rewrite lookup_insert_eq. intros [= <-].
      rewrite (items_of_order_created _ _ _ (nextId db));
        [| apply (wf_orderItems db Hwf) | lia
         | eapply Forall_impl; [exact Hprices|]; by intros r [? _] ].
      split; [exact Htotal|].
      eapply Forall_impl; [exact Hprices|]. by intros r [_ ?].
    + rewrite lookup_insert_ne by done. intros Ho.
      rewrite (items_of_order_other _ _ _ (o_id onew)); [by apply Hinv| |done].
      eapply Forall_impl; [exact Hprices|]. by intros r [? _].
  - rewrite Hord, Hrows. destruct (decide (id0 = id)) as [->|Hne].
    + rewrite lookup_insert_eq. intros [= <-].
      destruct Hcore as (_ & _ & _ & -> & _). by apply Hinv.
    + rewrite lookup_insert_ne by done. apply Hinv.
Qed.

Lemma run_preserves_with_wf (P : DB -> Prop) :
  (forall req db, wf db -> P db -> P (fst (handle req db))) ->
  forall reqs db, wf db -> P db -> P (fst (run reqs db)).
Proof.
  intros Hstep reqs db Hwf HP.
  apply (run_preserves (fun d => wf d /\ P d)); [|by split].
  intros req d [Hd HPd]. split; [by apply handle_wf | by apply Hstep].
Qed.

Lemma no_orders_history_tracks_status db :
  orders db = ∅ -> history_tracks_status db.
Proof. intros Hempty id o. by rewrite Hempty, lookup_empty. Qed.

Lemma no_orders_numbers_ok db :
  orders db = ∅ -> 0 <= counter_value db -> order_numbers_ok db.
Proof.
  intros Hempty Hpos. split; [exact Hpos|].
  split; intros *; by rewrite Hempty, lookup_empty.
Qed.

Lemma no_orders_totals_ok db : orders db = ∅ -> order_totals_ok db.
Proof. intros Hempty id o. by rewrite Hempty, lookup_empty. Qed.

(** X3: the history of an order follows its status.  In every store reached
    by requests from one where this holds (one without orders, say), the last
    history entry written for an order carries the order's current status,
    and an order has at least one and at most four entries. *)
Theorem history_follows_status reqs db :
  wf db -> history_tracks_status db ->
  history_tracks_status (fst (run reqs db)) /\
  (forall id o,
     orders (fst (run reqs db)) !! id = Some o ->
     (1 <= List.length (history_of_order id (statusHistory (fst (run reqs db)))) <= 4)%nat).
Proof.
  intros Hwf Hinv.
  assert (Hrun : history_tracks_status (fst (run reqs db)))
    by (apply (run_preserves_with_wf _ handle_history_tracks_status); assumption).
  split; [exact Hrun|]. intros id o Ho.
  destruct (Hrun id o Ho) as (pre & h & -> & _ & Hlen).
  rewrite List.length_app. simpl.
  destruct (o_status o); simpl in Hlen; lia.
Qed.

Lemma history_follows_status_witness :
  history_tracks_status (fst (run demo_lifecycle demo_db)) /\
  (forall id o,
     orders (fst (run demo_lifecycle demo_db)) !! id = Some o ->
     (1 <= List.length
             (history_of_order id (statusHistory (fst (run demo_lifecycle demo_db))))
        <= 4)%nat).
Proof.
  apply (history_follows_status demo_lifecycle demo_db).
  - compute_done.
  - apply no_orders_history_tracks_status. reflexivity.
Defined.

(** X4: order numbers stay unique.  In every store reached by requests from
    one where the counter is not negative and bounds the order numbers in use
    (one without orders, say), every order has a number between 1 and the
    counter and no two orders share a number. *)
Theorem order_numbers_stay_unique reqs db :
  wf db -> order_numbers_ok db ->
  let db' := fst (run reqs db) in
  (forall id o, orders db' !! id = Some o ->
                1 <= o_orderNumber o <= counter_value db') /\
  (forall id1 id2 o1 o2,
     orders db' !! id1 = Some o1 -> orders db' !! id2 = Some o2 ->
     o_orderNumber o1 = o_orderNumber o2 -> id1 = id2).
Proof.
  intros Hwf Hinv db'.
  apply (run_preserves_with_wf _ handle_order_numbers_ok reqs db Hwf Hinv).
Qed.

Lemma order_numbers_stay_unique_witness :
  (forall id o,
     orders (fst (run demo_two_orders demo_db)) !! id = Some o ->
     1 <= o_orderNumber o <= counter_value (fst (run demo_two_orders demo_db))) /\
  (forall id1 id2 o1 o2,
     orders (fst (run demo_two_orders demo_db)) !! id1 = Some o1 ->
     orders (fst (run demo_two_orders demo_db)) !! id2 = Some o2 ->
     o_orderNumber o1 = o_orderNumber o2 -> id1 = id2).
Proof.
  apply (order_numbers_stay_unique demo_two_orders demo_db).
  - compute_done.
  - apply no_orders_numbers_ok; [reflexivity | vm_compute; discriminate].
Defined.

(** X5: the total of an order is its rows added up the way the code adds.
    In every store reached by requests from one where this holds,
    [totalAmount] of every order is the number obtained by adding the
    [totalPrice] of the order's rows from 0, in the order of the rows, each
    addition rounded to a binary64 value, and [totalPrice] of every row is
    the rounded product of its [unitPrice] and its quantity.  (For decimal
    prices this need not be the exact sum: rows of 0.1, 0.2 and 0.3 give
    0.6000000000000001.) *)
Theorem order_totals_match_rows reqs db :
  wf db -> order_totals_ok db ->
  forall id o,
    orders (fst (run reqs db)) !! id = Some o ->
    o_totalAmount o
      = sum_numbers (List.map oi_totalPrice
                       (items_of_order id (orderItems (fst (run reqs db))))) /\
    Forall (fun r => oi_totalPrice r
                     = (oi_unitPrice r * js_number (oi_quantity r))%float)
           (items_of_order id (orderItems (fst (run reqs db)))).
Proof.
  intros Hwf Hinv.
  apply (run_preserves_with_wf _ handle_order_totals_ok reqs db Hwf Hinv).
Qed.

Lemma order_totals_match_rows_witness :
  o_totalAmount demo_decimal_order
    = sum_numbers
        (List.map oi_totalPrice
           (items_of_order 14%N
              (orderItems (fst (run demo_decimal_to_order demo_decimal_db))))) /\
  Forall (fun r => oi_totalPrice r
                   = (oi_unitPrice r * js_number (oi_quantity r))%float)
         (items_of_order 14%N
            (orderItems (fst (run demo_decimal_to_order demo_decimal_db)))).
Proof.
  apply (order_totals_match_rows demo_decimal_to_order demo_decimal_db).
  - compute_done.
  - apply no_orders_totals_ok. reflexivity.
  - vm_compute. reflexivity.
Defined.

Lemma orders_keep_columns_and_rows_witness :
  exists o',
    orders (fst (run demo_after_order demo_order_db)) !! 13%N = Some o' /\
    same_order_core demo_order o' /\
    items_of_order 13%N (orderItems (fst (run demo_after_order demo_order_db)))
      = items_of_order 13%N (orderItems demo_order_db).
Proof.
  apply (orders_keep_columns_and_rows demo_after_order demo_order_db 13%N demo_order
           ltac:(compute_done) ltac:(vm_compute; reflexivity)).
Defined.

Lemma order_status_only_advances_witness :
  exists o',
    orders (fst (run demo_back_to_pending demo_order_db)) !! 13%N = Some o' /\
    (o' = demo_order \/
     (status_rank (o_status demo_order) < status_rank (o_status o'))%nat) /\
    (o_status demo_order = ENTREGUE \/ o_status demo_order = CANCELADO ->
     o' = demo_order).
Proof.
  apply (order_status_only_advances demo_back_to_pending demo_order_db 13%N
           demo_order ltac:(compute_done) ltac:(vm_compute; reflexivity)).
Defined.

(** ** Lists of cart rows *)

Lemma NoDup_map_filter {A B} (g : A -> B) (f : A -> bool) (l : list A) :
  NoDup (List.map g l) -> NoDup (List.map g (List.filter f l)).
Proof.
  induction l as [|x l IH]; simpl; [done|].
  intros Hnd. apply NoDup_cons in Hnd as [Hx Hl].
  destruct (f x); simpl; [|by apply IH].
  apply NoDup_cons. split; [|by apply IH].
  intros Hin. apply Hx. apply list_elem_of_In in Hin. apply list_elem_of_In.
  apply List.in_map_iff in Hin as (y & Hy & Hiny).
  apply List.in_map_iff. exists y. split; [exact Hy|].
  apply List.filter_In in Hiny. tauto.
Qed.

Lemma NoDup_map_inj {A B} (g : A -> B) (l : list A) (x y : A) :
  NoDup (List.map g l) -> In x l -> In y l -> g x = g y -> x = y.
Proof.
  induction l as [|z l IH]; simpl; [contradiction|].
  intros Hnd Hx Hy Hg. apply NoDup_cons in Hnd as [Hz Hl].
  destruct Hx as [<-|Hx], Hy as [<-|Hy]; [reflexivity| | |by apply IH].
  - exfalso. apply Hz. rewrite Hg. apply list_elem_of_In. by apply List.in_map.
  - exfalso. apply Hz. rewrite <- Hg. apply list_elem_of_In. by apply List.in_map.
Qed.

Lemma filter_comm {A} (f g : A -> bool) (l : list A) :
  List.filter f (List.filter g l) = List.filter g (List.filter f l).
Proof.
  induction l as [|x l IH]; simpl; [reflexivity|].
  destruct (f x) eqn:Hf, (g x) eqn:Hg; simpl; rewrite ?Hf, ?Hg, IH; reflexivity.
Qed.

Lemma items_of_cart_map (cartId : Id) (g : CartItem -> CartItem) (l : list CartItem) :
  (forall x, ci_cartId (g x) = ci_cartId x) ->
  items_of_cart cartId (List.map g l) = List.map g (items_of_cart cartId l).
Proof.
  intros Hg. unfold items_of_cart. induction l as [|x l IH]; simpl; [reflexivity|].
  rewrite Hg. destruct (N.eqb (ci_cartId x) cartId); simpl; by rewrite IH.
Qed.

Lemma items_of_cart_app (cartId : Id) (l1 l2 : list CartItem) :
  items_of_cart cartId (l1 ++ l2) = items_of_cart cartId l1 ++ items_of_cart cartId l2.
Proof. apply List.filter_app. Qed.

(** Deleting a row by identifier takes its value out of a sum over the rows. *)
Lemma sum_delete_row (f : CartItem -> Z) (l : list CartItem) (it : CartItem) :
  NoDup (List.map ci_id l) -> In it l ->
  sum_Z (List.map f (List.filter (fun x => negb (N.eqb (ci_id x) (ci_id it))) l))
  = sum_Z (List.map f l) - f it.
Proof.
  induction l as [|x l IH]; simpl; [contradiction|].
  intros Hnd Hin. apply NoDup_cons in Hnd as [Hx Hl].
  destruct Hin as [->|Hin].
  - rewrite N.eqb_refl. simpl.
    rewrite filter_all; [lia|]. apply List.Forall_forall. intros y Hy.
    apply negb_true_iff, N.eqb_neq. intros Heq. apply Hx. rewrite <- Heq.
    apply list_elem_of_In. by apply List.in_map.
  - destruct (N.eqb_spec (ci_id x) (ci_id it)) as [Heq|Hne]; simpl.
    + exfalso. apply Hx. rewrite Heq. apply list_elem_of_In. by apply List.in_map.
    + rewrite IH by assumption. lia.
Qed.

(** Updating a row by identifier replaces its value in a sum over the rows. *)
Lemma sum_update_row (f : CartItem -> Z) (g : CartItem -> CartItem)
    (l : list CartItem) (it : CartItem) :
  NoDup (List.map ci_id l) -> In it l ->
  sum_Z (List.map f
           (List.map (fun x => if N.eqb (ci_id x) (ci_id it) then g x else x) l))
  = sum_Z (List.map f l) - f it + f (g it).
Proof.
  induction l as [|x l IH]; simpl; [contradiction|].
  intros Hnd Hin. apply NoDup_cons in Hnd as [Hx Hl].
  destruct Hin as [->|Hin].
  - rewrite N.eqb_refl.
    assert (Hsame : List.map (fun x => if N.eqb (ci_id x) (ci_id it) then g x else x) l = l).
    { rewrite <- (List.map_id l) at 2. apply List.map_ext_in. intros y Hy.
      destruct (N.eqb_spec (ci_id y) (ci_id it)) as [Heq|_]; [|reflexivity].
      exfalso. apply Hx. rewrite <- Heq. apply list_elem_of_In. by apply List.in_map. }
    rewrite Hsame. lia.
  - destruct (N.eqb_spec (ci_id x) (ci_id it)) as [Heq|Hne].
    + exfalso. apply Hx. rewrite Heq. apply list_elem_of_In. by apply List.in_map.
    + rewrite IH by assumption. lia.
Qed.

Lemma delete_row_other_cart (cartId' i : Id) (l : list CartItem) :
  (forall x, In x l -> ci_id x = i -> ci_cartId x <> cartId') ->
  items_of_cart cartId' (List.filter (fun x => negb (N.eqb (ci_id x) i)) l)
  = items_of_cart cartId' l.
Proof.
  unfold items_of_cart. induction l as [|x l IH]; simpl; [reflexivity|].
  intros Hrow.
  destruct (N.eqb_spec (ci_id x) i) as [Heq|Hne]; simpl.
  - assert (Hc : ci_cartId x <> cartId') by (apply Hrow; auto).
    apply N.eqb_neq in Hc. rewrite Hc. apply IH. intros y Hy. apply Hrow. auto.
  - rewrite IH; [reflexivity|]. intros y Hy. apply Hrow. auto.
Qed.

Lemma update_row_other_cart (cartId' i : Id) (g : CartItem -> CartItem)
    (l : list CartItem) :
  (forall x, In x l -> ci_id x = i -> ci_cartId x <> cartId') ->
  (forall x, ci_cartId (g x) = ci_cartId x) ->
  items_of_cart cartId'
    (List.map (fun x => if N.eqb (ci_id x) i then g x else x) l)
  = items_of_cart cartId' l.
Proof.
  unfold items_of_cart. induction l as [|x l IH]; simpl; [reflexivity|].
  intros Hrow Hg.
  destruct (N.eqb_spec (ci_id x) i) as [Heq|Hne]; simpl.
  - assert (Hc : ci_cartId x <> cartId') by (apply Hrow; auto).
    rewrite Hg. apply N.eqb_neq in Hc. rewrite Hc. apply IH; [|exact Hg].
    intros y Hy. apply Hrow. auto.
  - rewrite IH; [reflexivity| |exact Hg]. intros y Hy. apply Hrow. auto.
Qed.

Lemma purge_other_cart (cartId cartId' : Id) (l : list CartItem) :
  cartId <> cartId' ->
  items_of_cart cartId' (List.filter (fun x => negb (N.eqb (ci_cartId x) cartId)) l)
  = items_of_cart cartId' l.
Proof.
  intros Hne. unfold items_of_cart. induction l as [|x l IH]; simpl; [reflexivity|].
  destruct (N.eqb_spec (ci_cartId x) cartId) as [Heq|Hne']; simpl.
  - rewrite Heq. apply N.eqb_neq in Hne. by rewrite Hne.
  - by rewrite IH.
Qed.

Lemma add_row_other_cart (cartId' : Id) (l : list CartItem) (it : CartItem) :
  ci_cartId it <> cartId' ->
  items_of_cart cartId' (l ++ [it]) = items_of_cart cartId' l.
Proof.
  intros Hne. rewrite items_of_cart_app. unfold items_of_cart at 2. simpl.
  apply N.eqb_neq in Hne. by rewrite Hne, app_nil_r.
Qed.

(** The row [findFirst({ where: { id, cartId } })] returns. *)
Lemma find_row_of_cart (l : list CartItem) (it : CartItem) :
  NoDup (List.map ci_id l) -> In it l ->
  List.find (fun x => N.eqb (ci_id x) (ci_id it) && N.eqb (ci_cartId x) (ci_cartId it)) l
  = Some it.
Proof.
  intros Hnd Hin.
  destruct (List.find _ l) as [x|] eqn:Hfind.
  - apply List.find_some in Hfind as [Hx Hm].
    apply andb_true_iff in Hm as [Hid _]. apply N.eqb_eq in Hid.
    f_equal. by apply (NoDup_map_inj ci_id l).
  - pose proof (List.find_none _ _ Hfind it Hin) as Hfalse. simpl in Hfalse.
    by rewrite !N.eqb_refl in Hfalse.
Qed.

Lemma find_row_foreign (l : list CartItem) (it : CartItem) (cartId : Id) :
  NoDup (List.map ci_id l) -> In it l -> ci_cartId it <> cartId ->
  List.find (fun x => N.eqb (ci_id x) (ci_id it) && N.eqb (ci_cartId x) cartId) l
  = None.
Proof.
  intros Hnd Hin Hne.
  destruct (List.find _ l) as [x|] eqn:Hfind; [|reflexivity].
  apply List.find_some in Hfind as [Hx Hm].
  apply andb_true_iff in Hm as [Hid Hc]. apply N.eqb_eq in Hid, Hc.
  assert (x = it) as -> by (by apply (NoDup_map_inj ci_id l)). contradiction.
Qed.

(** ** The cart methods one by one *)

(** X6: [addItem] of a product that does not exist fails with the 404 error
    'Produto nao encontrado', and of a product that is not available with
    the 400 error 'Produto nao disponivel'; in both cases nothing is
    written, not even the cart of a customer who has none yet. *)
Theorem addItem_rejects_without_writing db u p quantity notes now :
  (products db !! p = None ->
   CartService.addItem u p quantity notes now db
     = (db, Err (HttpError 404 "Produto nao encontrado"))) /\
  (forall prod,
     products db !! p = Some prod -> prod_isAvailable prod = false ->
     CartService.addItem u p quantity notes now db
       = (db, Err (HttpError 400 "Produto nao disponivel"))).
Proof.
  split.
  - intros Hp. unfold_services. simpl. by rewrite Hp.
  - intros prod Hp Hav. unfold_services. simpl. by rewrite Hp, Hav.
Qed.

Lemma addItem_rejects_without_writing_witness :
  CartService.addItem 7%N 99%N None None 100 demo_db
    = (demo_db, Err (HttpError 404 "Produto nao encontrado")) /\
  CartService.addItem 7%N 3%N None None 100 demo_db
    = (demo_db, Err (HttpError 400 "Produto nao disponivel")).
Proof.
  split.
  - apply (proj1 (addItem_rejects_without_writing demo_db 7%N 99%N None None 100)).
    reflexivity.
  - apply (proj2 (addItem_rejects_without_writing demo_db 7%N 3%N None None 100)
             (mkProduct 3%N "Pudim" 6 false)); reflexivity.
Defined.

(** X7: [updateItem] with a quantity of 0 or less is [removeItem]: same
    answer, same store, whatever the notes. *)
Theorem updateItem_nonpositive_is_removeItem db u itemId q notes :
  q <= 0 ->
  CartService.updateItem u itemId (Some q) notes db
  = CartService.removeItem u itemId db.
Proof.
  intros Hq. unfold CartService.updateItem, CartService.removeItem,
    CartService.nonpositive.
  apply Z.leb_le in Hq. rewrite Hq. reflexivity.
Qed.

Lemma updateItem_nonpositive_is_removeItem_witness :
  CartService.updateItem 7%N 11%N (Some 0) (Some (Some "sem sal")) demo_cart_db
  = CartService.removeItem 7%N 11%N demo_cart_db.
Proof.
  apply (updateItem_nonpositive_is_removeItem demo_cart_db 7%N 11%N 0). lia.
Defined.

(** X8: a cart row can be changed only through the cart it is in.
    [removeItem] and [updateItem] with the identifier of a row of another
    cart, or of no row at all, fail with the 404 error 'Item nao encontrado no
    carrinho' and write nothing. *)
Theorem foreign_cart_row_is_not_found db u cart itemId :
  carts db !! u = Some cart ->
  ((forall x, In x (cartItems db) -> ci_id x <> itemId) \/
   (NoDup (List.map ci_id (cartItems db)) /\
    exists it, In it (cartItems db) /\ ci_id it = itemId /\
               ci_cartId it <> cart_id cart)) ->
  CartService.removeItem u itemId db
    = (db, Err (HttpError 404 "Item nao encontrado no carrinho")) /\
  (forall quantity notes,
     CartService.updateItem u itemId quantity notes db
       = (db, Err (HttpError 404 "Item nao encontrado no carrinho"))).
Proof.
  intros Hcart Hrow.
  assert (Hfind : List.find (fun x => N.eqb (ci_id x) itemId
                                      && N.eqb (ci_cartId x) (cart_id cart))
                            (cartItems db) = None).
  { destruct Hrow as [Hnone | (Hnd & it & Hin & <- & Hne)].
    - destruct (List.find _ (cartItems db)) as [x|] eqn:Hfind; [|reflexivity].
      apply List.find_some in Hfind as [Hx Hm].
      apply andb_true_iff in Hm as [Hid _]. apply N.eqb_eq in Hid.
      by destruct (Hnone x Hx).
    - by apply find_row_foreign. }
  split; [|intros quantity notes]; unfold_services; simpl;
    by rewrite Hcart, Hfind.
Qed.

Lemma foreign_cart_row_is_not_found_witness :
  CartService.removeItem 8%N 11%N demo_two_carts_db
    = (demo_two_carts_db, Err (HttpError 404 "Item nao encontrado no carrinho")) /\
  (forall quantity notes,
     CartService.updateItem 8%N 11%N quantity notes demo_two_carts_db
       = (demo_two_carts_db, Err (HttpError 404 "Item nao encontrado no carrinho"))).
Proof.
  apply (foreign_cart_row_is_not_found demo_two_carts_db 8%N (mkCart 13%N 8%N) 11%N).
  - vm_compute. reflexivity.
  - right. split; [compute_done|].
    exists (mkCartItem 11%N 10%N 1%N 2 None 100).
    repeat split; [vm_compute; left; reflexivity | vm_compute; discriminate].
Defined.

(** X9: [clearCart] of a customer who has a cart removes every row of that
    cart and no row of any other cart, and answers with the empty cart: no
    items, total 0, item count 0. *)
Theorem clearCart_empties_own_cart db u cart :
  carts db !! u = Some cart ->
  let db' := with_cartItems
               (List.filter (fun it => negb (N.eqb (ci_cartId it) (cart_id cart)))) db in
  CartService.clearCart u db = (db', Ok (CartService.mkCartView cart [] 0 0)) /\
  items_of_cart (cart_id cart) (cartItems db') = [] /\
  (forall cartId', cartId' <> cart_id cart ->
     items_of_cart cartId' (cartItems db') = items_of_cart cartId' (cartItems db)).
Proof.
  intros Hcart db'.
  assert (Hempty : items_of_cart (cart_id cart) (cartItems db') = [])
    by apply filter_negb_same.
  split; [|split; [exact Hempty|]].
  - unfold CartService.clearCart, bind at 1, cart_findUnique, gets.
    rewrite Hcart. unfold bind, cartItem_deleteMany, modify.
    fold db'. unfold CartService.getCart, bind, cart_findUnique, gets,
      cart_items_with_product, ret.
    replace (carts db' !! u) with (carts db !! u) by reflexivity.
    rewrite Hcart, Hempty. reflexivity.
  - intros cartId' Hne. apply purge_other_cart. congruence.
Qed.

Lemma clearCart_empties_own_cart_witness :
  let db' := with_cartItems
               (List.filter (fun it => negb (N.eqb (ci_cartId it) 10%N)))
               demo_two_carts_db in
  CartService.clearCart 7%N demo_two_carts_db
    = (db', Ok (CartService.mkCartView (mkCart 10%N 7%N) [] 0 0)) /\
  items_of_cart 10%N (cartItems db') = [] /\
  (forall cartId', cartId' <> 10%N ->
     items_of_cart cartId' (cartItems db')
     = items_of_cart cartId' (cartItems demo_two_carts_db)).
Proof.
  apply (clearCart_empties_own_cart demo_two_carts_db 7%N (mkCart 10%N 7%N)).
  vm_compute. reflexivity.
Defined.

Lemma in_items_of_cart (cartId : Id) (rows : list CartItem) (it : CartItem) :
  In it rows -> ci_cartId it = cartId -> In it (items_of_cart cartId rows).
Proof.
  intros Hin Hc. apply List.filter_In. split; [exact Hin|]. by apply N.eqb_eq.
Qed.

(** X10: [removeItem] of a row of the customer's cart deletes that row and no
    other; the cart it answers with has the old item count less the quantity
    of the row, and its total is the one [getCart] adds up over the rows that
    are left. *)
Theorem removeItem_takes_one_row db u cart it :
  wf db -> cart_tables_ok db ->
  carts db !! u = Some cart ->
  In it (cartItems db) -> ci_cartId it = cart_id cart ->
  let db' := with_cartItems
               (List.filter (fun x => negb (N.eqb (ci_id x) (ci_id it)))) db in
  exists v,
    CartService.removeItem u (ci_id it) db = (db', Ok v) /\
    CartService.cv_cart v = cart /\
    CartService.cv_total v = cart_total db' (cart_id cart) /\
    CartService.cv_itemCount v = cart_count db (cart_id cart) - ci_quantity it /\
    ~ In it (cartItems db') /\
    (forall x, In x (cartItems db) -> x <> it -> In x (cartItems db')).
Proof.
  intros Hwf [Hids _ _] Hcart Hin Hcid db'.
  assert (Hfk : Forall (fun x => is_Some (products db' !! ci_productId x))
                       (cartItems db'))
    by apply Forall_filter_bool, (wf_products db Hwf).
  destruct (getCart_existing u cart db' Hfk Hcart) as (items & Hget & _).
  exists (CartService.mkCartView cart items (cart_total db' (cart_id cart))
            (cart_count db' (cart_id cart))).
  split; [|split; [reflexivity|]].
  - unfold CartService.removeItem, bind at 1, cart_findUnique, gets.
    rewrite Hcart. unfold bind at 1, cartItem_findFirst, gets.
    pose proof (find_row_of_cart _ it Hids Hin) as Hfind.
    rewrite Hcid in Hfind. rewrite Hfind.
    unfold bind, cartItem_delete, modify. fold db'. exact Hget.
  - assert (Hrows : items_of_cart (cart_id cart) (cartItems db')
              = List.filter (fun x => negb (N.eqb (ci_id x) (ci_id it)))
                  (items_of_cart (cart_id cart) (cartItems db)))
      by apply filter_comm.
    assert (Hnd : NoDup (List.map ci_id (items_of_cart (cart_id cart) (cartItems db))))
      by by apply NoDup_map_filter.
    assert (Hin' : In it (items_of_cart (cart_id cart) (cartItems db)))
      by by apply in_items_of_cart.
    simpl. repeat split.
    + unfold cart_count. rewrite Hrows. by apply sum_delete_row.
    + intros Hit. apply List.filter_In in Hit as [_ Hit].
      by rewrite N.eqb_refl in Hit.
    + intros x Hx Hne. apply List.filter_In. split; [exact Hx|].
      apply negb_true_iff, N.eqb_neq. intros Heq. apply Hne.
      by apply (NoDup_map_inj ci_id (cartItems db)).
Qed.

Lemma removeItem_takes_one_row_witness :
  let db' := with_cartItems
               (List.filter (fun x => negb (N.eqb (ci_id x) 11%N))) demo_cart_db in
  exists v,
    CartService.removeItem 7%N 11%N demo_cart_db = (db', Ok v) /\
    CartService.cv_cart v = mkCart 10%N 7%N /\
    CartService.cv_total v = cart_total db' 10%N /\
    CartService.cv_itemCount v = cart_count demo_cart_db 10%N - 2 /\
    ~ In (mkCartItem 11%N 10%N 1%N 2 None 100) (cartItems db') /\
    (forall x, In x (cartItems demo_cart_db) ->
               x <> mkCartItem 11%N 10%N 1%N 2 None 100 -> In x (cartItems db')).
Proof.
  apply (removeItem_takes_one_row demo_cart_db 7%N (mkCart 10%N 7%N)
           (mkCartItem 11%N 10%N 1%N 2 None 100)).
  - compute_done.
  - compute_done.
  - vm_compute. reflexivity.
  - vm_compute. left. reflexivity.
  - reflexivity.
Defined.



Lemma filter_none_of_find {A} (f : A -> bool) (l : list A) :
  List.find f l = None -> List.filter f l = [].
Proof.
  intros Hfind. apply filter_none. apply List.Forall_forall.
  intros x Hx. exact (List.find_none _ _ Hfind x Hx).
Qed.

(** An accepted [addItem]: the cart is there or is created, then either a
    row is appended or the row found for the product is updated; the answer
    is [getCart] of the store that results. *)
Lemma addItem_run db u p quantity notes now prod :
  wf db ->
  products db !! p = Some prod -> prod_isAvailable prod = true ->
  let cart := match carts db !! u with
              | Some c => c
              | None => mkCart (nextId db) u
              end in
  exists db2,
    CartService.addItem u p quantity notes now db = CartService.getCart u db2 /\
    carts db2 !! u = Some cart /\
    products db2 = products db /\
    ((rows_of_product (cart_id cart) p (cartItems db) = [] /\
      exists iid,
        cartItems db2
        = cartItems db ++
          [mkCartItem iid (cart_id cart) p (default 1 quantity) notes now]) \/
     (exists ex,
        In ex (cartItems db) /\ ci_cartId ex = cart_id cart /\ ci_productId ex = p /\
        cartItems db2
        = List.map (fun row =>
            if N.eqb (ci_id row) (ci_id ex)
            then mkCartItem (ci_id row) (ci_cartId row) (ci_productId row)
                   (ci_quantity ex + default 1 quantity)
                   (if CartService.truthy notes then notes else ci_notes ex)
                   (ci_createdAt row)
            else row) (cartItems db))).
Proof.
  intros Hwf Hp Hav cart.
  destruct (List.find (fun it => N.eqb (ci_cartId it) (cart_id cart)
                                 && N.eqb (ci_productId it) p) (cartItems db))
    as [ex|] eqn:Hfind.
  - pose proof Hfind as Hex.
    apply List.find_some in Hex as [Hin Hkey].
    apply andb_true_iff in Hkey as [Hc Hpid]. apply N.eqb_eq in Hc, Hpid.
    destruct (carts db !! u) as [c|] eqn:Hcart.
    + subst cart. eexists. split.
      { unfold CartService.addItem. remember (CartService.getCart u) as g.
        unfold product_findUnique, cart_findUnique, cartItem_findUnique,
          cartItem_update, bind, gets, ret, modify.
        rewrite Hp. cbn beta iota. rewrite Hav. cbn [negb]. cbn beta iota.
        rewrite Hcart. cbn beta iota. cbn [fst snd]. rewrite Hfind. reflexivity. }
      split; [exact Hcart|]. split; [reflexivity|].
      right. exists ex. by repeat split.
    + exfalso. subst cart. simpl in Hc.
      pose proof (wf_cartItems db Hwf) as Hids.
      rewrite List.Forall_forall in Hids. specialize (Hids ex Hin).
      simpl in Hids. lia.
  - destruct (carts db !! u) as [c|] eqn:Hcart; subst cart.
    + eexists. split.
      { unfold CartService.addItem. remember (CartService.getCart u) as g.
        unfold product_findUnique, cart_findUnique, cartItem_findUnique,
          cartItem_create, fresh_id, bind, gets, ret, modify.
        rewrite Hp. cbn beta iota. rewrite Hav. cbn [negb]. cbn beta iota.
        rewrite Hcart. cbn beta iota. cbn [fst snd]. rewrite Hfind. reflexivity. }
      split; [exact Hcart|]. split; [reflexivity|].
      left. split; [by apply filter_none_of_find | by eexists].
    + eexists. split.
      { unfold CartService.addItem. remember (CartService.getCart u) as g.
        unfold product_findUnique, cart_findUnique, cart_create,
          cartItem_findUnique, cartItem_create, fresh_id, bind, gets, ret, modify.
        rewrite Hp. cbn beta iota. rewrite Hav. cbn [negb]. cbn beta iota.
        rewrite Hcart. cbn beta iota.
        cbn [fst snd cart_id cartItems with_carts with_nextId].
        simpl in Hfind. rewrite Hfind. reflexivity. }
      split; [simpl; by rewrite lookup_insert_eq|]. split; [reflexivity|].
      left. split; [by apply filter_none_of_find | by eexists].
Qed.

Lemma sum_Z_snoc (l : list Z) (x : Z) : sum_Z (l ++ [x]) = sum_Z l + x.
Proof. unfold sum_Z. induction l as [|y l IH]; simpl; lia. Qed.

Lemma items_of_new_cart db :
  wf db -> items_of_cart (nextId db) (cartItems db) = [].
Proof.
  intros Hwf. apply filter_none.
  eapply Forall_impl; [exact (wf_cartItems db Hwf)|].
  intros it Hit. simpl in Hit. apply N.eqb_neq. lia.
Qed.

(** X12: [addItem] of an available product succeeds for every customer, with
    or without a cart, whether the product is in the cart already or not,
    and the cart it answers with has the item count the customer had before
    plus the quantity added (1 when none is given); its total is the one
    [getCart] adds up over the rows of the cart after the write. *)
Theorem addItem_raises_item_count db u p quantity notes now prod :
  wf db -> cart_tables_ok db ->
  products db !! p = Some prod -> prod_isAvailable prod = true ->
  exists db' v,
    CartService.addItem u p quantity notes now db = (db', Ok v) /\
    carts db' !! u = Some (CartService.cv_cart v) /\
    CartService.cv_total v = cart_total db' (cart_id (CartService.cv_cart v)) /\
    CartService.cv_itemCount v = user_cart_count db u + default 1 quantity.
Proof.
  intros Hwf [Hids _ _] Hp Hav.
  destruct (addItem_run db u p quantity notes now prod Hwf Hp Hav)
    as (db2 & Hrun & Hc2 & Hp2 & Hrows).
  set (cart := match carts db !! u with
               | Some c => c
               | None => mkCart (nextId db) u
               end) in *.
  assert (Hold : user_cart_count db u = cart_count db (cart_id cart)).
  { unfold user_cart_count, cart_count. subst cart.
    destruct (carts db !! u); [done|]. simpl. by rewrite items_of_new_cart. }
  rewrite Hold.
  assert (Hfk : Forall (fun it => is_Some (products db2 !! ci_productId it))
                       (cartItems db2)).
  { rewrite Hp2.
    destruct Hrows as [(_ & iid & ->) | (ex & _ & _ & _ & ->)].
    - apply Forall_app. split; [exact (wf_products db Hwf)|].
      repeat constructor. simpl. by rewrite Hp.
    - apply List.Forall_map. eapply Forall_impl; [exact (wf_products db Hwf)|].
      intros x Hx. simpl in *. by destruct (N.eqb (ci_id x) (ci_id ex)). }
  destruct (getCart_existing u cart db2 Hfk Hc2) as (items & Hget & _).
  exists db2, (CartService.mkCartView cart items (cart_total db2 (cart_id cart))
                 (cart_count db2 (cart_id cart))).
  split; [by rewrite Hrun|]. split; [exact Hc2|]. simpl.
  split; [reflexivity|]. unfold cart_count.
  destruct Hrows as [(_ & iid & ->) | (ex & Hin & Hcid & Hpid & ->)].
  - set (it := mkCartItem iid (cart_id cart) p (default 1 quantity) notes now).
    assert (Hone : items_of_cart (cart_id cart) [it] = [it])
      by (unfold items_of_cart; simpl; by rewrite N.eqb_refl).
    rewrite items_of_cart_app, Hone, !List.map_app. cbn [List.map].
    by rewrite !sum_Z_snoc.
  - set (upd := fun row : CartItem =>
                  mkCartItem (ci_id row) (ci_cartId row) (ci_productId row)
                    (ci_quantity ex + default 1 quantity)
                    (if CartService.truthy notes then notes else ci_notes ex)
                    (ci_createdAt row)).
    rewrite (items_of_cart_map (cart_id cart)
               (fun row => if N.eqb (ci_id row) (ci_id ex) then upd row else row))
      by (intros x; by destruct (N.eqb (ci_id x) (ci_id ex))).
    assert (Hnd : NoDup (List.map ci_id (items_of_cart (cart_id cart) (cartItems db))))
      by by apply NoDup_map_filter.
    assert (Hin' : In ex (items_of_cart (cart_id cart) (cartItems db)))
      by by apply in_items_of_cart.
    rewrite !(sum_update_row _ upd _ ex Hnd Hin'). simpl. lia.
Qed.

Lemma addItem_raises_item_count_witness :
  exists db' v,
    CartService.addItem 7%N 1%N (Some 3) None 150 demo_cart_db = (db', Ok v) /\
    carts db' !! 7%N = Some (CartService.cv_cart v) /\
    CartService.cv_total v = cart_total db' (cart_id (CartService.cv_cart v)) /\
    CartService.cv_itemCount v = user_cart_count demo_cart_db 7%N + 3.
Proof.
  apply (addItem_raises_item_count demo_cart_db 7%N 1%N (Some 3) None 150
           (mkProduct 1%N "Coxinha" 5.5 true)).
  - compute_done.
  - compute_done.
  - vm_compute. reflexivity.
  - reflexivity.
Defined.

(** ** What a request does to the cart tables *)

Lemma cart_effect_same u db db' :
  carts db' = carts db -> cartItems db' = cartItems db ->
  products db' = products db -> (nextId db <= nextId db')%N ->
  CartEffect u db db'.
Proof. intros Hc Hr Hp Hn. exists db. split; [by left|]. by repeat split; auto. Qed.

Lemma cart_effect_new u db db' :
  carts db !! u = None ->
  carts db' = carts (with_new_cart u db) -> cartItems db' = cartItems db ->
  products db' = products db -> (N.succ (nextId db) <= nextId db')%N ->
  CartEffect u db db'.
Proof.
  intros Hu Hc Hr Hp Hn. exists (with_new_cart u db).
  split; [by right|]. by repeat split; auto.
Qed.

Lemma cart_effect_rows u db db' c base :
  base = db \/ (carts db !! u = None /\ base = with_new_cart u db) ->
  carts base !! u = Some c ->
  carts db' = carts base -> products db' = products db ->
  (nextId base <= nextId db')%N ->
  RowsEffect c (nextId base) (nextId db') (cartItems base) (cartItems db') ->
  CartEffect u db db'.
Proof.
  intros Hbase Hu Hc Hp Hn Hrows. exists base.
  split; [exact Hbase|]. split; [exact Hc|]. split; [exact Hp|].
  split; [exact Hn|]. right. by exists c.
Qed.

Lemma rows_effect_update c n n' (rows : list CartItem) (i : Id)
    (g : CartItem -> CartItem) (ex : CartItem) :
  NoDup (List.map ci_id rows) ->
  In ex rows -> ci_id ex = i -> ci_cartId ex = cart_id c ->
  (forall x, ci_id (g x) = ci_id x /\ ci_cartId (g x) = ci_cartId x) ->
  RowsEffect c n n' rows
    (List.map (fun it => if N.eqb (ci_id it) i then g it else it) rows).
Proof.
  intros Hnd Hin Hi Hc Hg.
  apply (rows_rewritten c n n' rows _
           (fun it => if N.eqb (ci_id it) i then g it else it)).
  - reflexivity.
  - intros x. destruct (N.eqb (ci_id x) i); [apply Hg | done].
  - intros x Hx Hne. destruct (N.eqb_spec (ci_id x) i) as [Heq|_]; [|reflexivity].
    exfalso. apply Hne. rewrite <- Hc. f_equal.
    apply (NoDup_map_inj ci_id rows); [assumption..|congruence].
Qed.

Lemma rows_effect_delete c n n' (rows : list CartItem) (i : Id) (ex : CartItem) :
  NoDup (List.map ci_id rows) ->
  In ex rows -> ci_id ex = i -> ci_cartId ex = cart_id c ->
  RowsEffect c n n' rows
    (List.filter (fun it => negb (N.eqb (ci_id it) i)) rows).
Proof.
  intros Hnd Hin Hi Hc.
  apply (rows_dropped c n n' rows _ (fun it => negb (N.eqb (ci_id it) i)));
    [reflexivity|].
  intros x Hx Hf. apply negb_false_iff, N.eqb_eq in Hf.
  rewrite <- Hc. f_equal.
  apply (NoDup_map_inj ci_id rows); [assumption..|congruence].
Qed.

Lemma rows_effect_purge c n n' (rows : list CartItem) :
  RowsEffect c n n' rows
    (List.filter (fun it => negb (N.eqb (ci_cartId it) (cart_id c))) rows).
Proof.
  apply (rows_dropped c n n' rows _
           (fun it => negb (N.eqb (ci_cartId it) (cart_id c)))); [reflexivity|].
  intros x _ Hf. by apply negb_false_iff, N.eqb_eq in Hf.
Qed.

Lemma handle_cart_effect req db u :
  wf db -> cart_tables_ok db ->
  cart_actor req = None \/ cart_actor req = Some u ->
  CartEffect u db (fst (handle req db)).
Proof.
  intros Hwf [Hids _ _] Hactor.
  destruct req; simpl in Hactor; destruct Hactor as [Ha|Ha]; try discriminate;
    simplify_eq; simpl.
  6:{ pose proof (createFromCart_outcome fault u notes now db) as Hout.
      destruct (OrderService.createFromCart fault u notes now db)
        as [db' [res|e]]; simpl.
      - destruct Hout as (cart & l & Hcart & _ & _ & _ & _ & ->).
        apply (cart_effect_rows u db _ cart db);
          [by left | exact Hcart | reflexivity | reflexivity | simpl; lia |].
        apply rows_effect_purge.
      - rewrite Hout. apply cart_effect_same; [reflexivity..|lia]. }
  all: run_services; rewrite ?getCart_store; simpl;
    repeat (destruct_inner; simpl).
  all: simplify_eq.
  all: try (apply cart_effect_same; simpl; [reflexivity..|lia]).
  all: try (exfalso;
            match goal with
            | H : <[_:=_]> _ !! _ = None |- _ => by rewrite lookup_insert_eq in H
            end).
  all: try (apply cart_effect_new; simpl; [assumption|reflexivity..|lia]).
  all: repeat match goal with
         | H : List.find _ _ = Some _ |- _ =>
             let Hin := fresh "Hin" in
             apply List.find_some in H as [Hin H];
             apply andb_true_iff in H as [?%N.eqb_eq ?%N.eqb_eq]
         end.
  all: first
         [ eapply (cart_effect_rows u db _ _ db);
             [by left | eassumption | reflexivity | reflexivity | simpl; lia | simpl]
         | eapply (cart_effect_rows u db _ _ (with_new_cart u db));
             [ right; split; [assumption | reflexivity]
             | simpl; apply lookup_insert_eq
             | reflexivity | reflexivity | simpl; lia | simpl ] ].
  all: try apply rows_effect_purge.
  all: try (eapply rows_added; [reflexivity | simpl; lia | reflexivity]).
  all: try (eapply rows_effect_delete; eauto; fail).
  all: match goal with
       | |- RowsEffect _ _ _ _
              (List.map (fun it => if N.eqb (ci_id it) ?i then @?g it else it) _) =>
           eapply (rows_effect_update _ _ _ _ i g);
             [eassumption | eassumption | try reflexivity; eassumption
             | try eassumption | intros x; split; reflexivity]
       end.
Qed.

Lemma cart_ids_distinct (m : gmap Id Cart) (u v : Id) (cu cv : Cart) :
  NoDup (List.map (fun kc => cart_id (snd kc)) (map_to_list m)) ->
  m !! u = Some cu -> m !! v = Some cv -> cart_id cu = cart_id cv -> u = v.
Proof.
  intros Hnd Hu Hv Heq.
  apply elem_of_map_to_list, list_elem_of_In in Hu, Hv.
  assert (Hpair : (u, cu) = (v, cv))
    by (by apply (NoDup_map_inj (fun kc : Id * Cart => cart_id (snd kc))
                    (map_to_list m))).
  congruence.
Qed.

Lemma with_new_cart_tables_ok u db :
  wf db -> cart_tables_ok db -> carts db !! u = None ->
  cart_tables_ok (with_new_cart u db).
Proof.
  intros Hwf [Hids Hbelow Hcarts] Hu. constructor; simpl.
  - exact Hids.
  - eapply Forall_impl; [exact Hbelow|]. intros x Hx. simpl in Hx. lia.
  - pose proof (map_to_list_insert (carts db) u (mkCart (nextId db) u) Hu) as Hperm.
    apply (Permutation_map (fun kc : Id * Cart => cart_id (snd kc))) in Hperm.
    rewrite Hperm. simpl. apply NoDup_cons. split; [|exact Hcarts].
    intros Hin. apply list_elem_of_In, List.in_map_iff in Hin as ([k c] & Hid & Hin).
    apply list_elem_of_In, elem_of_map_to_list in Hin.
    pose proof (wf_carts db Hwf k c Hin) as Hlt. simpl in *. lia.
Qed.

Lemma rows_effect_ids c n n' (rows rows' : list CartItem) :
  (n <= n')%N ->
  NoDup (List.map ci_id rows) -> Forall (fun it => (ci_id it < n)%N) rows ->
  RowsEffect c n n' rows rows' ->
  NoDup (List.map ci_id rows') /\ Forall (fun it => (ci_id it < n')%N) rows'.
Proof.
  intros Hn Hnd Hbelow [-> | f -> _ | g -> Hg _ | it -> Hit _].
  - split; [exact Hnd|]. eapply Forall_impl; [exact Hbelow|].
    intros x Hx. simpl in Hx. lia.
  - split; [by apply NoDup_map_filter|]. apply Forall_filter_bool.
    eapply Forall_impl; [exact Hbelow|]. intros x Hx. simpl in Hx. lia.
  - split.
    + rewrite List.map_map.
      by rewrite (List.map_ext (fun x => ci_id (g x)) ci_id (fun x => proj1 (Hg x))).
    + apply List.Forall_map. eapply Forall_impl; [exact Hbelow|].
      intros x Hx. simpl in *. rewrite (proj1 (Hg x)). lia.
  - split.
    + rewrite List.map_app. simpl. apply NoDup_app. split; [exact Hnd|].
      split; [|apply NoDup_singleton].
      intros i Hi Hi'. apply list_elem_of_In in Hi, Hi'.
      apply List.in_map_iff in Hi as (x & <- & Hx).
      rewrite List.Forall_forall in Hbelow. specialize (Hbelow x Hx).
      simpl in Hi'. destruct Hi' as [Heq|[]]. simpl in Hbelow. lia.
    + apply Forall_app. split.
      * eapply Forall_impl; [exact Hbelow|]. intros x Hx. simpl in Hx. lia.
      * repeat constructor. lia.
Qed.

Lemma cart_effect_tables_ok u db db' :
  wf db -> cart_tables_ok db -> CartEffect u db db' -> cart_tables_ok db'.
Proof.
  intros Hwf Hok (db1 & Hbase & Hc & _ & Hn & Hrows).
  assert (Hok1 : cart_tables_ok db1).
  { destruct Hbase as [-> | [Hu ->]]; [exact Hok | by apply with_new_cart_tables_ok]. }
  destruct Hok1 as [Hids Hbelow Hcarts].
  destruct Hrows as [Hrows | (c & _ & Hrows)].
  - constructor; rewrite ?Hrows, ?Hc; try assumption.
    eapply Forall_impl; [exact Hbelow|]. intros x Hx. simpl in Hx. lia.
  - destruct (rows_effect_ids _ _ _ _ _ Hn Hids Hbelow Hrows) as [Hids' Hbelow'].
    constructor; rewrite ?Hc; assumption.
Qed.

Lemma handle_cart_tables_ok req db :
  wf db -> cart_tables_ok db -> cart_tables_ok (fst (handle req db)).
Proof.
  intros Hwf Hok.
  destruct (cart_actor req) as [u|] eqn:Ha.
  - apply (cart_effect_tables_ok u db); [assumption..|].
    apply handle_cart_effect; auto.
  - apply (cart_effect_tables_ok 0%N db); [assumption..|].
    apply handle_cart_effect; auto.
Qed.

Lemma filter_filter_keep {A} (f g : A -> bool) (l : list A) :
  (forall x, In x l -> g x = true -> f x = true) ->
  List.filter g (List.filter f l) = List.filter g l.
Proof.
  induction l as [|x l IH]; simpl; [reflexivity|]. intros Hfg.
  destruct (f x) eqn:Hf; simpl.
  - rewrite IH; [reflexivity|]. intros y Hy. apply Hfg. auto.
  - destruct (g x) eqn:Hg.
    + rewrite (Hfg x) in Hf by auto. discriminate.
    + apply IH. intros y Hy. apply Hfg. auto.
Qed.

Lemma rows_effect_other_cart c n n' (rows rows' : list CartItem) (cartId' : Id) :
  cartId' <> cart_id c ->
  Forall (fun it => (ci_id it < n)%N) rows ->
  RowsEffect c n n' rows rows' ->
  items_of_cart cartId' rows' = items_of_cart cartId' rows.
Proof.
  intros Hne Hbelow [-> | f -> Hf | g -> Hg Hkeep | it -> _ Hit].
  - reflexivity.
  - apply filter_filter_keep. intros x Hx Hc. apply N.eqb_eq in Hc.
    destruct (f x) eqn:Hfx; [reflexivity|]. specialize (Hf x Hx Hfx). congruence.
  - rewrite items_of_cart_map by (intros x; apply Hg).
    rewrite <- (List.map_id (items_of_cart cartId' rows)) at 2.
    apply List.map_ext_in. intros x Hx. apply List.filter_In in Hx as [Hx Hc].
    apply N.eqb_eq in Hc. apply Hkeep; [exact Hx | congruence].
  - apply add_row_other_cart. congruence.
Qed.

(** A request made for [u] leaves the cart of any other customer [v] as it
    is: the cart row and the rows of the cart. *)
Lemma cart_effect_other u v db db' :
  wf db -> cart_tables_ok db -> u <> v -> CartEffect u db db' ->
  carts db' !! v = carts db !! v /\
  forall c, carts db !! v = Some c ->
    items_of_cart (cart_id c) (cartItems db')
    = items_of_cart (cart_id c) (cartItems db).
Proof.
  intros Hwf Hok Huv (db1 & Hbase & Hc & _ & Hn & Hrows).
  assert (Hok1 : cart_tables_ok db1).
  { destruct Hbase as [-> | [Hu ->]]; [exact Hok | by apply with_new_cart_tables_ok]. }
  assert (Hv1 : carts db1 !! v = carts db !! v).
  { destruct Hbase as [-> | [Hu ->]]; [reflexivity|]. simpl.
    by apply lookup_insert_ne. }
  assert (Hrows1 : cartItems db1 = cartItems db).
  { by destruct Hbase as [-> | [Hu ->]]. }
  split; [by rewrite Hc|].
  intros cv Hcv. rewrite <- Hrows1.
  destruct Hrows as [-> | (cu & Hcu & Hrows)]; [reflexivity|].
  apply (rows_effect_other_cart cu (nextId db1) (nextId db'));
    [|exact (cto_row_ids_below db1 Hok1)|exact Hrows].
  intros Heq. apply Huv. rewrite <- Hv1 in Hcv.
  by apply (cart_ids_distinct (carts db1) u v cu cv (cto_cart_ids db1 Hok1)).
Qed.

Lemma handle_products req db : products (fst (handle req db)) = products db.
Proof.
  destruct (decide (cart_actor req = None)) as [Ha|Ha].
  - destruct req; try discriminate; simpl; run_services; simpl;
      repeat (destruct_inner; simpl); reflexivity.
  - destruct req; try done; simpl.
    6:{ pose proof (createFromCart_outcome fault userId notes now db) as Hout.
        destruct (OrderService.createFromCart fault userId notes now db)
          as [db' [res|e]]; simpl.
        - by destruct Hout as (cart & l & _ & _ & _ & _ & _ & ->).
        - by rewrite Hout. }
    all: run_services; rewrite ?getCart_store; simpl;
      repeat (destruct_inner; simpl); reflexivity.
Qed.

Lemma handle_other_cart req db v :
  wf db -> cart_tables_ok db -> cart_actor req <> Some v ->
  carts (fst (handle req db)) !! v = carts db !! v /\
  forall c, carts db !! v = Some c ->
    items_of_cart (cart_id c) (cartItems (fst (handle req db)))
    = items_of_cart (cart_id c) (cartItems db).
Proof.
  intros Hwf Hok Hv.
  destruct (cart_actor req) as [u|] eqn:Ha.
  - apply (cart_effect_other u v); [assumption | assumption | congruence |].
    apply handle_cart_effect; auto.
  - apply (cart_effect_other (N.succ v) v); [assumption | assumption | lia |].
    apply handle_cart_effect; auto.
Qed.

(** What [getCart] answers for a customer with a cart depends on the cart
    row, the rows of the cart and the products only. *)
Lemma getCart_reads u c db1 db2 :
  carts db1 !! u = Some c -> carts db2 !! u = Some c ->
  products db2 = products db1 ->
  items_of_cart (cart_id c) (cartItems db2) = items_of_cart (cart_id c) (cartItems db1) ->
  snd (CartService.getCart u db2) = snd (CartService.getCart u db1).
Proof.
  intros H1 H2 Hp Hrows.
  unfold CartService.getCart, bind, cart_findUnique, gets,
    cart_items_with_product, ret.
  rewrite H1, H2, Hp, Hrows.
  by destruct (include_product _ _).
Qed.

(** ** The cart of a customer and the requests of the others *)

(** X13: no request made for another customer, and no order request of an
    administrator, changes the cart of a customer: whatever is served in
    between, the cart row, the rows of the cart and the answer of [getCart]
    with its total and item count are the same afterwards. *)
Theorem cart_unchanged_by_other_customers reqs db v c :
  wf db -> cart_tables_ok db ->
  carts db !! v = Some c ->
  Forall (fun req => cart_actor req <> Some v) reqs ->
  let db' := fst (run reqs db) in
  carts db' !! v = Some c /\
  items_of_cart (cart_id c) (cartItems db')
    = items_of_cart (cart_id c) (cartItems db) /\
  snd (CartService.getCart v db') = snd (CartService.getCart v db).
Proof.
  intros Hwf Hok Hc Hreqs. simpl.
  assert (Hinv : carts (fst (run reqs db)) !! v = Some c /\
                 items_of_cart (cart_id c) (cartItems (fst (run reqs db)))
                   = items_of_cart (cart_id c) (cartItems db) /\
                 products (fst (run reqs db)) = products db).
  { revert db Hwf Hok Hc.
    induction Hreqs as [|req reqs Hreq _ IH]; intros db Hwf Hok Hc; simpl;
      [by repeat split|].
    destruct (handle_other_cart req db v Hwf Hok Hreq) as [Hcart Hrows].
    rewrite Hc in Hcart.
    destruct (IH (fst (handle req db)) (handle_wf req db Hwf)
                (handle_cart_tables_ok req db Hwf Hok) Hcart) as (H1 & H2 & H3).
    split; [exact H1|]. split.
    - rewrite H2. by apply Hrows.
    - rewrite H3. apply handle_products. }
  destruct Hinv as (H1 & H2 & H3).
  split; [exact H1|]. split; [exact H2|].
  by apply (getCart_reads v c).
Qed.

Lemma cart_unchanged_by_other_customers_witness :
  let db' := fst (run demo_other_customer demo_two_carts_db) in
  carts db' !! 8%N = Some (mkCart 13%N 8%N) /\
  items_of_cart 13%N (cartItems db')
    = items_of_cart 13%N (cartItems demo_two_carts_db) /\
  snd (CartService.getCart 8%N db') = snd (CartService.getCart 8%N demo_two_carts_db).
Proof.
  apply (cart_unchanged_by_other_customers demo_other_customer demo_two_carts_db
           8%N (mkCart 13%N 8%N)).
  - compute_done.
  - compute_done.
  - vm_compute. reflexivity.
  - compute_done.
Defined.

(** ** The two order lists *)

Lemma Sorted_skipn {A} (R : relation A) (l : list A) (n : nat) :
  Sorted R l -> Sorted R (skipn n l).
Proof.
  revert l. induction n as [|n IH]; intros l Hl; [exact Hl|].
  destruct l as [|x l]; [constructor|]. simpl. apply IH. by inversion Hl.
Qed.

Lemma Sorted_firstn {A} (R : relation A) (l : list A) (n : nat) :
  Sorted R l -> Sorted R (firstn n l).
Proof.
  intros Hl. revert n. induction Hl as [|x l Hl IH Hhd]; intros n.
  - rewrite firstn_nil. constructor.
  - destruct n as [|n]; [constructor|]. simpl. constructor; [apply IH|].
    destruct Hhd as [|y l Hxy]; [rewrite firstn_nil; constructor|].
    destruct n; constructor. exact Hxy.
Qed.

Lemma In_page {A} (l : list A) (skip take : nat) (x : A) :
  In x (firstn take (skipn skip l)) -> In x l.
Proof.
  intros Hx. rewrite <- (firstn_skipn skip l). apply List.in_or_app. right.
  rewrite <- (firstn_skipn take (skipn skip l)). apply List.in_or_app. by left.
Qed.

Lemma page_length {A} (l : list A) (skip take : nat) :
  List.length (firstn take (skipn skip l)) = Nat.min take (List.length l - skip).
Proof. by rewrite List.length_firstn, List.length_skipn. Qed.

Lemma firstn_plus {A} (l : list A) (a b : nat) :
  firstn (a + b) l = firstn a l ++ firstn b (skipn a l).
Proof.
  revert l. induction a as [|a IH]; intros l; [reflexivity|].
  destruct l as [|x l]; simpl; [by rewrite firstn_nil|]. by rewrite IH.
Qed.

(** Cutting a list into pages of [limit] and putting [n] of them together
    gives the first [n * limit] elements. *)
Lemma pages_concat {A} (l : list A) (limit n : nat) :
  concat (List.map (fun p => firstn limit (skipn ((p - 1) * limit) l)) (seq 1 n))
  = firstn (n * limit) l.
Proof.
  induction n as [|n IH]; [reflexivity|].
  rewrite seq_S, List.map_app, concat_app, IH. simpl.
  rewrite app_nil_r, Nat.sub_0_r.
  rewrite (Nat.add_comm limit (n * limit)). symmetry. apply firstn_plus.
Qed.

Lemma ceil_div_least (total limit : nat) :
  (0 < limit)%nat ->
  (total <= OrderService.ceil_div total limit * limit)%nat /\
  (forall k, (total <= k * limit)%nat -> (OrderService.ceil_div total limit <= k)%nat).
Proof.
  intros Hlimit. unfold OrderService.ceil_div.
  pose proof (Nat.div_mod_eq total limit) as Hdm.
  pose proof (Nat.mod_upper_bound total limit ltac:(lia)) as Hmod.
  destruct (Nat.eqb_spec (total mod limit) 0) as [H0|Hn0].
  - split; [nia|]. intros k Hk.
    destruct (Nat.le_gt_cases (total / limit) k) as [|Hlt]; [assumption|]. nia.
  - split; [nia|]. intros k Hk.
    destruct (Nat.le_gt_cases (S (total / limit)) k) as [|Hlt]; [assumption|]. nia.
Qed.

(** The matching orders of the store, in the order of the answer. *)
Lemma orders_where_spec (where_ : Order -> bool) (db : DB) :
  Sorted OrderService.order_newer (OrderService.orders_where where_ db) /\
  OrderService.orders_where where_ db
    ≡ₚ List.filter where_ (List.map snd (map_to_list (orders db))) /\
  List.length (OrderService.orders_where where_ db)
    = List.length (List.filter where_ (List.map snd (map_to_list (orders db)))).
Proof.
  unfold OrderService.orders_where.
  split; [apply Sorted_merge_sort; apply _|].
  split; [apply merge_sort_Permutation|].
  apply Permutation_length, merge_sort_Permutation.
Qed.

Lemma in_orders_where (where_ : Order -> bool) (db : DB) (o : Order) :
  In o (OrderService.orders_where where_ db) ->
  where_ o = true /\ exists k, orders db !! k = Some o.
Proof.
  intros Hin.
  destruct (orders_where_spec where_ db) as (_ & Hperm & _).
  apply (Permutation_in _ Hperm), List.filter_In in Hin as [Hin Hw].
  split; [exact Hw|].
  apply List.in_map_iff in Hin as ([k o'] & <- & Hin).
  exists k. by apply elem_of_map_to_list, list_elem_of_In.
Qed.

Lemma getUserOrders_run u filters db :
  let page := Pos.to_nat (default 1%positive (OrderService.f_page filters)) in
  let limit := Pos.to_nat (default 20%positive (OrderService.f_limit filters)) in
  let where_ := user_where u (OrderService.f_status filters) in
  let found := firstn limit (skipn ((page - 1) * limit)
                                (OrderService.orders_where where_ db)) in
  OrderService.getUserOrders u filters db
  = (db, Ok (OrderService.mkOrderPage
               (List.map (fun o => OrderService.mkListedOrder o
                                     (items_of_order (o_id o) (orderItems db)) None)
                         found)
               (OrderService.mkPagination page limit
                  (List.length (matching_orders where_ db))
                  (OrderService.ceil_div (List.length (matching_orders where_ db))
                     limit)))).
Proof. reflexivity. Qed.

Lemma getAll_run startOfDay endOfDay filters db :
  let page := Pos.to_nat (default 1%positive (OrderService.f_page filters)) in
  let limit := Pos.to_nat (default 20%positive (OrderService.f_limit filters)) in
  let where_ := admin_where startOfDay endOfDay (OrderService.f_status filters)
                  (OrderService.f_date filters) in
  let found := firstn limit (skipn ((page - 1) * limit)
                                (OrderService.orders_where where_ db)) in
  OrderService.getAll startOfDay endOfDay filters db
  = (db, Ok (OrderService.mkOrderPage
               (List.map (fun o => OrderService.mkListedOrder o
                                     (items_of_order (o_id o) (orderItems db))
                                     (users db !! o_userId o))
                         found)
               (OrderService.mkPagination page limit
                  (List.length (matching_orders where_ db))
                  (OrderService.ceil_div (List.length (matching_orders where_ db))
                     limit)))).
Proof. reflexivity. Qed.

Lemma status_matches_spec (status : option OrderStatus) (o : Order) :
  OrderService.status_matches status o = true <->
  forall s, status = Some s -> o_status o = s.
Proof.
  destruct status as [s|]; simpl.
  - rewrite bool_decide_eq_true. split; [by intros -> ? [= ->] | auto].
  - split; [discriminate | reflexivity].
Qed.

Lemma date_matches_spec (startOfDay endOfDay : Z -> Z) (date : option Z) (o : Order) :
  OrderService.date_matches startOfDay endOfDay date o = true <->
  forall d, date = Some d -> startOfDay d <= o_createdAt o <= endOfDay d.
Proof.
  destruct date as [d|]; simpl.
  - rewrite andb_true_iff, !Z.leb_le. split; [by intros ? ? [= <-] | auto].
  - split; [discriminate | reflexivity].
Qed.

(** Facts about the orders of one page. *)
Lemma page_orders (where_ : Order -> bool) (db : DB) (skip take : nat)
    (mk : Order -> OrderService.ListedOrder) :
  (forall o, OrderService.lo_order (mk o) = o) ->
  let listed := List.map mk (firstn take (skipn skip
                                (OrderService.orders_where where_ db))) in
  Forall (fun lo => where_ (OrderService.lo_order lo) = true /\
                    (exists k, orders db !! k = Some (OrderService.lo_order lo)) /\
                    lo = mk (OrderService.lo_order lo)) listed /\
  Sorted OrderService.order_newer (List.map OrderService.lo_order listed) /\
  (List.length listed <= take)%nat.
Proof.
  intros Hmk listed. subst listed. split; [|split].
  - apply List.Forall_forall. intros lo Hlo.
    apply List.in_map_iff in Hlo as (o & <- & Ho). rewrite Hmk.
    apply In_page, in_orders_where in Ho as [Hw Hk]. by repeat split.
  - rewrite List.map_map, (List.map_ext _ id Hmk), List.map_id.
    apply Sorted_firstn, Sorted_skipn, orders_where_spec.
  - rewrite List.length_map, List.length_firstn. lia.
Qed.

(** X14: [getUserOrders] always answers, writes nothing, and lists only
    orders of the store that belong to the customer and, when a status is
    asked for, have that status; each comes with its own rows, the most
    recent first, and there are no more of them than the limit (20 when none
    is given). *)
Theorem getUserOrders_lists_own_orders db u filters :
  exists pg,
    OrderService.getUserOrders u filters db = (db, Ok pg) /\
    Forall (fun lo =>
        (exists k, orders db !! k = Some (OrderService.lo_order lo)) /\
        o_userId (OrderService.lo_order lo) = u /\
        (forall s, OrderService.f_status filters = Some s ->
                   o_status (OrderService.lo_order lo) = s) /\
        OrderService.lo_items lo
          = items_of_order (o_id (OrderService.lo_order lo)) (orderItems db))
      (OrderService.op_orders pg) /\
    Sorted OrderService.order_newer
      (List.map OrderService.lo_order (OrderService.op_orders pg)) /\
    (List.length (OrderService.op_orders pg)
     <= Pos.to_nat (default 20%positive (OrderService.f_limit filters)))%nat.
Proof.
  eexists. split; [apply getUserOrders_run|]. cbv zeta. simpl OrderService.op_orders.
  match goal with
  | |- context [List.map ?mk (firstn ?take (skipn ?skip
                   (OrderService.orders_where ?w db)))] =>
      destruct (page_orders w db skip take mk (fun o => eq_refl)) as (Hall & Hs & Hlen)
  end.
  cbv zeta in Hall, Hs, Hlen.
  split; [|split; [exact Hs | exact Hlen]].
  eapply Forall_impl; [exact Hall|].
  intros lo (Hw & Hk & Hlo). simpl in Hw.
  apply andb_true_iff in Hw as [Hu Hst]. apply N.eqb_eq in Hu.
  split; [exact Hk|]. split; [exact Hu|].
  split; [by apply status_matches_spec|]. by rewrite Hlo.
Qed.

(** The orders between the two bounds of a day asked for are the orders
    created on the local calendar day of the instant given. *)
Lemma local_day_bounds (tz d c : Z) :
  OrderService.local_startOfDay tz d <= c <= OrderService.local_endOfDay tz d <->
  (c + tz) / OrderService.msPerDay = (d + tz) / OrderService.msPerDay.
Proof.
  unfold OrderService.local_startOfDay, OrderService.local_endOfDay,
    OrderService.setHours, OrderService.msPerDay.
  set (q := (d + tz) / 86400000). split.
  - intros Hc. symmetry.
    apply (Z.div_unique (c + tz) 86400000 q (c + tz - 86400000 * q)); lia.
  - intros Hq.
    pose proof (Z.div_mod (c + tz) 86400000 ltac:(lia)) as Hdm.
    pose proof (Z.mod_pos_bound (c + tz) 86400000 ltac:(lia)) as Hmod.
    rewrite Hq in Hdm. lia.
Qed.

Lemma local_day_of_utc_midnight (tz k : Z) :
  (- OrderService.msPerDay <= tz < 0 ->
   (OrderService.msPerDay * k + tz) / OrderService.msPerDay = k - 1) /\
  (0 <= tz < OrderService.msPerDay ->
   (OrderService.msPerDay * k + tz) / OrderService.msPerDay = k).
Proof.
  unfold OrderService.msPerDay. split; intros Htz; symmetry.
  - apply (Z.div_unique _ 86400000 (k - 1) (tz + 86400000)); lia.
  - apply (Z.div_unique _ 86400000 k tz); lia.
Qed.

(** Asked for 2024-01-15 (midnight UTC, 1705276800000) on a server three
    hours behind UTC, [getAll] lists the order of 14 January and not the one
    of 15 January. *)
Example getAll_west_of_UTC :
  listed_orders
    (OrderService.getAll (OrderService.local_startOfDay (-10800000))
       (OrderService.local_endOfDay (-10800000))
       (OrderService.mkOrderFilters None (Some 1705276800000) None None)
       demo_days_db)
  = [demo_order_14].
Proof. vm_compute. reflexivity. Qed.

(** X15: [getAll] always answers, writes nothing, and lists only orders of
    the store that have the status asked for, when one is.  When a date is
    asked for, the day bounds are taken in the time zone of the server, [tz]
    milliseconds ahead of UTC: the orders listed are those created on the
    local calendar day that contains the instant given.  For a date given as
    a calendar day, which is read as midnight UTC of day [k], that is day [k]
    on a server at or east of UTC, and the day before, [k - 1], on a server
    west of UTC.  Each order comes with its own rows and the customer it
    belongs to, the most recent first, and there are no more of them than
    the limit (20 when none is given). *)
Theorem getAll_lists_matching_orders tz db filters :
  exists pg,
    OrderService.getAll (OrderService.local_startOfDay tz)
      (OrderService.local_endOfDay tz) filters db = (db, Ok pg) /\
    Forall (fun lo =>
        (exists k, orders db !! k = Some (OrderService.lo_order lo)) /\
        (forall s, OrderService.f_status filters = Some s ->
                   o_status (OrderService.lo_order lo) = s) /\
        (forall d, OrderService.f_date filters = Some d ->
                   (o_createdAt (OrderService.lo_order lo) + tz) / OrderService.msPerDay
                   = (d + tz) / OrderService.msPerDay) /\
        (forall k, OrderService.f_date filters = Some (OrderService.msPerDay * k) ->
                   (0 <= tz < OrderService.msPerDay ->
                    (o_createdAt (OrderService.lo_order lo) + tz) / OrderService.msPerDay
                    = k) /\
                   (- OrderService.msPerDay <= tz < 0 ->
                    (o_createdAt (OrderService.lo_order lo) + tz) / OrderService.msPerDay
                    = k - 1)) /\
        OrderService.lo_items lo
          = items_of_order (o_id (OrderService.lo_order lo)) (orderItems db) /\
        OrderService.lo_user lo = users db !! o_userId (OrderService.lo_order lo))
      (OrderService.op_orders pg) /\
    Sorted OrderService.order_newer
      (List.map OrderService.lo_order (OrderService.op_orders pg)) /\
    (List.length (OrderService.op_orders pg)
     <= Pos.to_nat (default 20%positive (OrderService.f_limit filters)))%nat.
Proof.
  eexists. split; [apply getAll_run|]. cbv zeta. simpl OrderService.op_orders.
  match goal with
  | |- context [List.map ?mk (firstn ?take (skipn ?skip
                   (OrderService.orders_where ?w db)))] =>
      destruct (page_orders w db skip take mk (fun o => eq_refl)) as (Hall & Hs & Hlen)
  end.
  cbv zeta in Hall, Hs, Hlen.
  split; [|split; [exact Hs | exact Hlen]].
  eapply Forall_impl; [exact Hall|].
  intros lo (Hw & Hk & Hlo). simpl in Hw.
  apply andb_true_iff in Hw as [Hst Hd].
  assert (Hday : forall d, OrderService.f_date filters = Some d ->
             (o_createdAt (OrderService.lo_order lo) + tz) / OrderService.msPerDay
             = (d + tz) / OrderService.msPerDay).
  { intros d Hdate. apply local_day_bounds.
    by apply (date_matches_spec _ _ (OrderService.f_date filters)). }
  split; [exact Hk|]. split; [by apply status_matches_spec|].
  split; [exact Hday|].
  split; [|by rewrite Hlo].
  intros k Hdate. rewrite (Hday _ Hdate).
  destruct (local_day_of_utc_midnight tz k) as [Hwest Heast]. by split.
Qed.

Lemma pagination_facts (where_ : Order -> bool) (db : DB)
    (filters : OrderService.OrderFilters) (mk : Order -> OrderService.ListedOrder) :
  let limit := Pos.to_nat (default 20%positive (OrderService.f_limit filters)) in
  let page := Pos.to_nat (default 1%positive (OrderService.f_page filters)) in
  let total := List.length (matching_orders where_ db) in
  pagination_ok total filters
    (OrderService.mkOrderPage
       (List.map mk (firstn limit (skipn ((page - 1) * limit)
                                     (OrderService.orders_where where_ db))))
       (OrderService.mkPagination page limit total
          (OrderService.ceil_div total limit))).
Proof.
  intros limit page total. unfold pagination_ok. cbv zeta. simpl.
  fold limit page.
  assert (Hlimit : (0 < limit)%nat) by (subst limit; lia).
  assert (Hpage : (0 < page)%nat) by (subst page; lia).
  destruct (ceil_div_least total limit Hlimit) as [Hup Hleast].
  assert (Hlen : List.length
                   (List.map mk (firstn limit (skipn ((page - 1) * limit)
                                    (OrderService.orders_where where_ db))))
                 = Nat.min limit (total - (page - 1) * limit)).
  { rewrite List.length_map, page_length.
    by rewrite (proj2 (proj2 (orders_where_spec where_ db))). }
  repeat split; try assumption.
  - intros Hne.
    destruct (Nat.le_gt_cases page (OrderService.ceil_div total limit))
      as [|Hlt]; [assumption|].
    exfalso. apply Hne. apply List.length_zero_iff_nil. rewrite Hlen. nia.
  - intros Hle Hnil. apply (f_equal (@List.length _)) in Hnil.
    rewrite Hlen in Hnil. simpl in Hnil.
    assert (Hk : (total <= (page - 1) * limit)%nat) by lia.
    specialize (Hleast _ Hk). lia.
Qed.

(** X16: the [pagination] of both list methods: [page] and [limit] are the
    ones asked for (1 and 20 when missing), [total] counts the orders that
    pass the filter, [totalPages] is the least number of pages of [limit]
    orders that holds them, the page has the orders left after the pages
    before it, up to [limit], and it is empty exactly when [page] is past
    [totalPages]. *)
Theorem list_pagination startOfDay endOfDay db u filters :
  (exists pg,
     OrderService.getUserOrders u filters db = (db, Ok pg) /\
     pagination_ok
       (List.length (matching_orders (user_where u (OrderService.f_status filters)) db))
       filters pg) /\
  (exists pg,
     OrderService.getAll startOfDay endOfDay filters db = (db, Ok pg) /\
     pagination_ok
       (List.length
          (matching_orders
             (admin_where startOfDay endOfDay (OrderService.f_status filters)
                (OrderService.f_date filters)) db))
       filters pg).
Proof.
  split; eexists.
  - split; [apply getUserOrders_run|]. apply pagination_facts.
  - split; [apply getAll_run|]. apply pagination_facts.
Qed.

Lemma all_pages (where_ : Order -> bool) (db : DB) (limit : nat) :
  (0 < limit)%nat ->
  concat (List.map
            (fun p => firstn limit (skipn ((p - 1) * limit)
                                      (OrderService.orders_where where_ db)))
            (seq 1 (OrderService.ceil_div
                      (List.length (matching_orders where_ db)) limit)))
  = OrderService.orders_where where_ db.
Proof.
  intros Hlimit. rewrite pages_concat. apply firstn_all2.
  rewrite (proj2 (proj2 (orders_where_spec where_ db))).
  apply (ceil_div_least _ _ Hlimit).
Qed.

(** X17: asking either list method for the pages 1 to [totalPages], with the
    same filters and limit on the same store, gives every order that passes
    the filter exactly once, the most recent first across the pages. *)
Theorem list_pages_cover startOfDay endOfDay db u filters :
  let user_page p := OrderService.getUserOrders u (with_page filters p) db in
  let admin_page p :=
    OrderService.getAll startOfDay endOfDay (with_page filters p) db in
  let user_all :=
    concat (List.map (fun p => listed_orders (user_page p))
                     (seq 1 (total_pages (user_page 1%nat)))) in
  let admin_all :=
    concat (List.map (fun p => listed_orders (admin_page p))
                     (seq 1 (total_pages (admin_page 1%nat)))) in
  (user_all ≡ₚ matching_orders (user_where u (OrderService.f_status filters)) db /\
   Sorted OrderService.order_newer user_all) /\
  (admin_all
     ≡ₚ matching_orders
          (admin_where startOfDay endOfDay (OrderService.f_status filters)
             (OrderService.f_date filters)) db /\
   Sorted OrderService.order_newer admin_all).
Proof.
  intros user_page admin_page user_all admin_all.
  set (limit := Pos.to_nat (default 20%positive (OrderService.f_limit filters))).
  assert (Hlimit : (0 < limit)%nat) by (subst limit; lia).
  assert (Hpage : forall p, In p (seq 1 (total_pages (user_page 1%nat))) ->
                            Pos.to_nat (Pos.of_nat p) = p)
    by (intros p Hp; apply List.in_seq in Hp; apply Nat2Pos.id; lia).
  assert (Hpage' : forall p, In p (seq 1 (total_pages (admin_page 1%nat))) ->
                             Pos.to_nat (Pos.of_nat p) = p)
    by (intros p Hp; apply List.in_seq in Hp; apply Nat2Pos.id; lia).
  assert (Huser : user_all
            = OrderService.orders_where (user_where u (OrderService.f_status filters)) db).
  { subst user_all. rewrite <- (all_pages _ db limit Hlimit). f_equal.
    apply List.map_ext_in. intros p Hp. subst user_page. unfold listed_orders.
    rewrite getUserOrders_run. cbv zeta. simpl.
    rewrite (Hpage p Hp), List.map_map. apply List.map_id. }
  assert (Hadmin : admin_all
            = OrderService.orders_where
                (admin_where startOfDay endOfDay (OrderService.f_status filters)
                   (OrderService.f_date filters)) db).
  { subst admin_all. rewrite <- (all_pages _ db limit Hlimit). f_equal.
    apply List.map_ext_in. intros p Hp. subst admin_page. unfold listed_orders.
    rewrite getAll_run. cbv zeta. simpl.
    rewrite (Hpage' p Hp), List.map_map. apply List.map_id. }
  rewrite Huser, Hadmin. split; split; apply orders_where_spec.
Qed.

(** ** Reading twice, ordering twice *)

(** X18: [getCart] asked twice in a row gives the same answer twice, and the
    second call writes nothing: the cart is created once. *)
Theorem getCart_twice db u :
  wf db ->
  CartService.getCart u (fst (CartService.getCart u db))
  = (fst (CartService.getCart u db), snd (CartService.getCart u db)).
Proof.
  intros Hwf.
  destruct (carts db !! u) as [c|] eqn:Hc.
  - destruct (getCart_existing u c db (wf_products db Hwf) Hc) as (items & Hget & _).
    rewrite Hget. simpl. exact Hget.
  - rewrite (getCart_new u db (wf_cartItems db Hwf) Hc). simpl.
    unfold CartService.getCart, bind, cart_findUnique, gets,
      cart_items_with_product, ret. simpl.
    rewrite lookup_insert_eq. simpl.
    by rewrite (items_of_new_cart db Hwf).
Qed.

Lemma getCart_twice_witness :
  CartService.getCart 9%N (fst (CartService.getCart 9%N demo_cart_db))
  = (fst (CartService.getCart 9%N demo_cart_db),
     snd (CartService.getCart 9%N demo_cart_db)).
Proof. apply (getCart_twice demo_cart_db 9%N). compute_done. Defined.

Lemma createFromCart_ok_store fault u notes now db db' res :
  OrderService.createFromCart fault u notes now db = (db', Ok res) ->
  exists cart,
    carts db !! u = Some cart /\
    o_id (OrderService.ow_order res) = nextId db /\
    o_userId (OrderService.ow_order res) = u /\
    Forall (fun r => oi_orderId r = nextId db) (OrderService.ow_items res) /\
    db' = created_store db (cart_id cart) (OrderService.ow_order res)
            (OrderService.ow_items res) now.
Proof.
  intros Hrun.
  pose proof (createFromCart_outcome fault u notes now db) as Hout.
  rewrite Hrun in Hout.
  destruct Hout as (cart & l & Hcart & _ & _ & Ho & Hrows & Hdb).
  exists cart. rewrite Ho in *. simpl. repeat split; try assumption.
  rewrite Hrows. apply order_rows_orderId.
Qed.

(** X19: once [createFromCart] has answered with an order, the cart of the
    customer is empty: [getCart] shows no items, total 0 and item count 0,
    and ordering again fails with the 400 error 'Carrinho vazio' and writes
    nothing, until something is added to the cart. *)
Theorem ordering_empties_the_cart db fault u notes now db' res :
  OrderService.createFromCart fault u notes now db = (db', Ok res) ->
  (exists cart,
     carts db' !! u = Some cart /\
     CartService.getCart u db' = (db', Ok (CartService.mkCartView cart [] 0 0))) /\
  (forall fault' notes' now',
     OrderService.createFromCart fault' u notes' now' db'
       = (db', Err (HttpError 400 "Carrinho vazio"))).
Proof.
  intros Hrun.
  destruct (createFromCart_ok_store _ _ _ _ _ _ _ Hrun)
    as (cart & Hcart & _ & _ & _ & Hdb).
  assert (Hcart' : carts db' !! u = Some cart) by (by rewrite Hdb).
  assert (Hempty : items_of_cart (cart_id cart) (cartItems db') = []).
  { rewrite Hdb. simpl. apply filter_negb_same. }
  split.
  - exists cart. split; [exact Hcart'|].
    unfold CartService.getCart, bind, cart_findUnique, gets,
      cart_items_with_product, ret.
    by rewrite Hcart', Hempty.
  - intros fault' notes' now'.
    unfold OrderService.createFromCart, bind, cart_findUnique, gets,
      cart_items_with_product, throw.
    by rewrite Hcart', Hempty.
Qed.

Lemma ordering_empties_the_cart_witness :
  (exists cart,
     carts demo_order_db !! 7%N = Some cart /\
     CartService.getCart 7%N demo_order_db
       = (demo_order_db, Ok (CartService.mkCartView cart [] 0 0))) /\
  (forall fault' notes' now',
     OrderService.createFromCart fault' 7%N notes' now' demo_order_db
       = (demo_order_db, Err (HttpError 400 "Carrinho vazio"))).
Proof.
  apply (ordering_empties_the_cart demo_cart_db no_fault 7%N (Some "Bloco B") 200
           demo_order_db (OrderService.mkOrderWithItems demo_order demo_order_rows)).
  vm_compute. reflexivity.
Defined.

(** X20: the order [createFromCart] answers with can be read back: [getById]
    for the customer, or for an administrator, returns that order, its rows
    as they were returned, and a history of one entry, PENDENTE with the
    note 'Pedido criado'. *)
Theorem created_order_reads_back db fault u notes now db' res :
  wf db ->
  OrderService.createFromCart fault u notes now db = (db', Ok res) ->
  forall reader isAdmin,
    reader = u \/ isAdmin = true ->
    exists d hid,
      OrderService.getById (o_id (OrderService.ow_order res)) reader isAdmin db'
        = (db', Ok d) /\
      OrderService.od_order d = OrderService.ow_order res /\
      List.map fst (OrderService.od_items d) = OrderService.ow_items res /\
      OrderService.od_statusHistory d
        = [mkHistory hid (o_id (OrderService.ow_order res)) PENDENTE None
             (Some "Pedido criado") now].
Proof.
  intros Hwf Hrun reader isAdmin Hreader.
  destruct (createFromCart_ok_store _ _ _ _ _ _ _ Hrun)
    as (cart & _ & Hid & Hu & Hrows & Hdb).
  set (o := OrderService.ow_order res) in *.
  set (rows := OrderService.ow_items res) in *.
  assert (Hfind : orders db' !! o_id o = Some o)
    by (rewrite Hdb; simpl; apply lookup_insert_eq).
  assert (Hitems : items_of_order (o_id o) (orderItems db') = rows).
  { rewrite Hdb, Hid. simpl.
    apply (items_of_order_created _ _ _ (nextId db));
      [exact (wf_orderItems db Hwf) | lia | exact Hrows]. }
  set (h := mkHistory (N.succ (nextId db) + N.of_nat (List.length rows))%N (o_id o)
              PENDENTE None (Some "Pedido criado") now).
  assert (Hhist : history_of_order (o_id o) (statusHistory db') = [h]).
  { rewrite Hdb. simpl. fold h.
    apply (history_of_order_created _ h (nextId db));
      [exact (wf_history db Hwf) | simpl; lia]. }
  eexists. exists (h_id h).
  split.
  - unfold OrderService.getById, bind, OrderService.order_findFirst, gets,
      OrderService.order_detail.
    rewrite Hfind.
    assert (Hpass : (match (if isAdmin then None else Some reader) with
                     | Some userId => if N.eqb (o_userId o) userId then Some o else None
                     | None => Some o
                     end) = Some o).
    { destruct isAdmin; [reflexivity|].
      destruct Hreader as [-> | ?]; [|discriminate]. by rewrite Hu, N.eqb_refl. }
    rewrite Hpass. reflexivity.
  - simpl. rewrite Hitems, Hhist. repeat split.
    rewrite List.map_map. apply List.map_id.
Qed.

Lemma created_order_reads_back_witness :
  exists d hid,
    OrderService.getById 13%N 1%N true demo_order_db = (demo_order_db, Ok d) /\
    OrderService.od_order d = demo_order /\
    List.map fst (OrderService.od_items d) = demo_order_rows /\
    OrderService.od_statusHistory d
      = [mkHistory hid 13%N PENDENTE None (Some "Pedido criado") 200].
Proof.
  apply (created_order_reads_back demo_cart_db no_fault 7%N (Some "Bloco B") 200
           demo_order_db (OrderService.mkOrderWithItems demo_order demo_order_rows)).
  - compute_done.
  - vm_compute. reflexivity.
  - right. reflexivity.
Defined.

(** ** A new order in the lists *)

Lemma filter_Permutation_list {A} (f : A -> bool) (l1 l2 : list A) :
  l1 ≡ₚ l2 -> List.filter f l1 ≡ₚ List.filter f l2.
Proof.
  induction 1 as [|x l1 l2 _ IH|x y l|l1 l2 l3 _ IH1 _ IH2]; simpl.
  - reflexivity.
  - destruct (f x); [by constructor | exact IH].
  - destruct (f x), (f y); try reflexivity. apply perm_swap.
  - by etransitivity.
Qed.

Lemma matching_orders_insert (where_ : Order -> bool) (db db' : DB) (k : Id) (o : Order) :
  orders db !! k = None -> orders db' = <[k := o]> (orders db) ->
  matching_orders where_ db'
    ≡ₚ (if where_ o then [o] else []) ++ matching_orders where_ db.
Proof.
  intros Hk Hdb. unfold matching_orders. rewrite Hdb.
  pose proof (map_to_list_insert (orders db) k o Hk) as Hperm.
  apply (Permutation_map snd), (filter_Permutation_list where_) in Hperm.
  rewrite Hperm. simpl. by destruct (where_ o).
Qed.

Lemma sorted_head_newest (l : list Order) (o : Order) (rest : list Order) :
  Sorted OrderService.order_newer l ->
  l ≡ₚ o :: rest ->
  Forall (fun o' => o_createdAt o' < o_createdAt o) rest ->
  exists l', l = o :: l'.
Proof.
  intros Hs Hperm Hrest.
  destruct l as [|x l'].
  { apply Permutation_nil in Hperm. discriminate. }
  exists l'. f_equal.
  assert (Hx : In x (o :: rest))
    by (apply (Permutation_in _ Hperm); by left).
  destruct Hx as [<-|Hx]; [reflexivity|].
  exfalso.
  rewrite List.Forall_forall in Hrest. specialize (Hrest x Hx).
  assert (Ho : In o (x :: l'))
    by (apply (Permutation_in _ (Permutation_sym Hperm)); by left).
  destruct Ho as [->|Ho]; [lia|].
  apply Sorted_StronglySorted in Hs;
    [|intros a b c Hab Hbc; unfold OrderService.order_newer in *; lia].
  inversion Hs as [|? ? _ Hall]; subst.
  rewrite List.Forall_forall in Hall. specialize (Hall o Ho).
  unfold OrderService.order_newer in Hall. lia.
Qed.

(** X21: the order [createFromCart] answers with shows up in the customer's
    list: with no status filter, or with the filter PENDENTE, [total] is one
    more than before, the lists of the other customers count what they
    counted, and when the order is more recent than every order of the store
    it is the first of page 1. *)
Theorem created_order_is_listed db fault u notes now db' res filters :
  wf db ->
  OrderService.createFromCart fault u notes now db = (db', Ok res) ->
  OrderService.f_status filters = None \/
  OrderService.f_status filters = Some PENDENTE ->
  total_orders (OrderService.getUserOrders u filters db')
    = S (total_orders (OrderService.getUserOrders u filters db)) /\
  (forall v filters', v <> u ->
     total_orders (OrderService.getUserOrders v filters' db')
     = total_orders (OrderService.getUserOrders v filters' db)) /\
  (map_Forall (fun _ o => o_createdAt o < now) (orders db) ->
   hd_error (listed_orders (OrderService.getUserOrders u (with_page filters 1) db'))
   = Some (OrderService.ow_order res)).
Proof.
  intros Hwf Hrun Hstatus.
  pose proof (createFromCart_outcome fault u notes now db) as Hout.
  rewrite Hrun in Hout.
  destruct Hout as (cart & l & _ & _ & _ & Ho & _ & Hdb).
  set (o := OrderService.ow_order res) in *.
  assert (Hfresh : orders db !! nextId db = None).
  { destruct (orders db !! nextId db) as [o'|] eqn:Hk; [|reflexivity].
    destruct (wf_orders db Hwf _ _ Hk) as [Hlt _]. lia. }
  assert (Horders : orders db' = <[nextId db := o]> (orders db)).
  { rewrite Hdb. simpl. by rewrite Ho. }
  assert (Hmine : user_where u (OrderService.f_status filters) o = true).
  { unfold user_where. rewrite Ho. simpl. rewrite N.eqb_refl. simpl.
    destruct Hstatus as [-> | ->]; reflexivity. }
  pose proof (matching_orders_insert (user_where u (OrderService.f_status filters))
                db db' _ o Hfresh Horders) as Hperm.
  rewrite Hmine in Hperm. simpl in Hperm.
  split; [|split].
  - rewrite !getUserOrders_run. unfold total_orders. cbv zeta. simpl.
    by rewrite (Permutation_length Hperm).
  - intros v filters' Hv.
    pose proof (matching_orders_insert (user_where v (OrderService.f_status filters'))
                  db db' _ o Hfresh Horders) as Hperm'.
    assert (Hother : user_where v (OrderService.f_status filters') o = false).
    { unfold user_where. rewrite Ho. simpl.
      apply N.eqb_neq in Hv. rewrite N.eqb_sym in Hv. by rewrite Hv. }
    rewrite Hother in Hperm'. simpl in Hperm'.
    rewrite !getUserOrders_run. unfold total_orders. cbv zeta. simpl.
    by rewrite (Permutation_length Hperm').
  - intros Hold.
    destruct (orders_where_spec (user_where u (OrderService.f_status filters)) db')
      as (Hs & Hp & _).
    fold (matching_orders (user_where u (OrderService.f_status filters)) db') in Hp.
    rewrite Hperm in Hp.
    destruct (sorted_head_newest _ o _ Hs Hp) as [l' Hl'].
    { apply List.Forall_forall. intros o' Ho'.
      apply List.filter_In in Ho' as [Ho' _].
      apply List.in_map_iff in Ho' as ([k o''] & <- & Hin).
      apply list_elem_of_In, elem_of_map_to_list in Hin.
      specialize (Hold k o'' Hin). simpl in *. by rewrite Ho. }
    rewrite getUserOrders_run. unfold listed_orders. cbv zeta. simpl.
    rewrite Hl'. simpl.
    destruct (Pos.to_nat (default 20%positive (OrderService.f_limit filters)))
      eqn:Hlim; [lia|]. reflexivity.
Qed.

Lemma created_order_is_listed_witness :
  total_orders (OrderService.getUserOrders 7%N
                  (OrderService.mkOrderFilters (Some PENDENTE) None None None)
                  demo_order_db)
    = S (total_orders (OrderService.getUserOrders 7%N
                         (OrderService.mkOrderFilters (Some PENDENTE) None None None)
                         demo_cart_db)) /\
  (forall v filters', v <> 7%N ->
     total_orders (OrderService.getUserOrders v filters' demo_order_db)
     = total_orders (OrderService.getUserOrders v filters' demo_cart_db)) /\
  (map_Forall (fun _ o => o_createdAt o < 200) (orders demo_cart_db) ->
   hd_error (listed_orders
               (OrderService.getUserOrders 7%N
                  (with_page (OrderService.mkOrderFilters (Some PENDENTE) None None None) 1)
                  demo_order_db))
   = Some demo_order).
Proof.
  apply (created_order_is_listed demo_cart_db no_fault 7%N (Some "Bloco B") 200
           demo_order_db (OrderService.mkOrderWithItems demo_order demo_order_rows)
           (OrderService.mkOrderFilters (Some PENDENTE) None None None)).
  - compute_done.
  - vm_compute. reflexivity.
  - right. reflexivity.
Defined.

(** ** What the services never write *)

Lemma handle_users req db : users (fst (handle req db)) = users db.
Proof.
  destruct req; simpl.
  6:{ pose proof (createFromCart_outcome fault userId notes now db) as Hout.
      destruct (OrderService.createFromCart fault userId notes now db)
        as [db' [res|e]]; simpl.
      - by destruct Hout as (cart & l & _ & _ & _ & _ & _ & ->).
      - by rewrite Hout. }
  all: run_services; rewrite ?getCart_store; simpl;
    repeat (destruct_inner; simpl); reflexivity.
Qed.

(** X22: no cart or order request writes the product table or the user
    table: after any sequence of requests both are what they were. *)
Theorem products_and_users_never_written reqs db :
  products (fst (run reqs db)) = products db /\
  users (fst (run reqs db)) = users db.
Proof.
  revert db. induction reqs as [|req reqs IH]; intros db; simpl; [by split|].
  destruct (IH (fst (handle req db))) as [Hp Hu].
  by rewrite Hp, Hu, handle_products, handle_users.
Qed.

(** ** Errors on their way out *)

Lemma getCart_ok u db : wf db -> exists v, snd (CartService.getCart u db) = Ok v.
Proof.
  intros Hwf. destruct (carts db !! u) as [c|] eqn:Hc.
  - destruct (getCart_existing u c db (wf_products db Hwf) Hc) as (items & Hget & _).
    rewrite Hget. by eexists.
  - rewrite (getCart_new u db (wf_cartItems db Hwf) Hc). by eexists.
Qed.

Lemma http_error_is_service_error st c msg :
  st = 400 \/ st = 404 -> service_error (HttpError st (String c msg)).
Proof. intros Hst. right. by exists st, c, msg. Qed.

Lemma addItem_accepted db u p quantity notes now prod :
  wf db -> products db !! p = Some prod -> prod_isAvailable prod = true ->
  exists db2 v, CartService.addItem u p quantity notes now db = (db2, Ok v).
Proof.
  intros Hwf Hp Hav.
  destruct (addItem_run db u p quantity notes now prod Hwf Hp Hav)
    as (db2 & Hrun & Hc2 & Hp2 & Hrows).
  assert (Hfk : Forall (fun it => is_Some (products db2 !! ci_productId it))
                       (cartItems db2)).
  { rewrite Hp2.
    destruct Hrows as [(_ & iid & ->) | (ex & _ & _ & _ & ->)].
    - apply Forall_app. split; [exact (wf_products db Hwf)|].
      repeat constructor. simpl. by rewrite Hp.
    - apply List.Forall_map. eapply Forall_impl; [exact (wf_products db Hwf)|].
      intros x Hx. simpl in *. by destruct (N.eqb (ci_id x) (ci_id ex)). }
  destruct (getCart_existing u _ db2 Hfk Hc2) as (items & Hget & _).
  rewrite Hrun, Hget. by eexists _, _.
Qed.

Lemma handle_errors req db e :
  wf db -> response_error (snd (handle req db)) = Some e -> service_error e.
Proof.
  intros Hwf.
  destruct req; simpl.
  - destruct (getCart_ok userId db Hwf) as [v ->]. discriminate.
  - destruct (products db !! productId) as [prod|] eqn:Hp;
      [destruct (prod_isAvailable prod) eqn:Hav|].
    + destruct (addItem_accepted db userId productId quantity notes now prod
                  Hwf Hp Hav) as (db2 & v & ->). discriminate.
    + assert (Hr : CartService.addItem userId productId quantity notes now db
                   = (db, Err (HttpError 400 "Produto nao disponivel")))
        by (unfold_services; simpl; by rewrite Hp, Hav).
      rewrite Hr. intros [= <-]. apply http_error_is_service_error. by left.
    + assert (Hr : CartService.addItem userId productId quantity notes now db
                   = (db, Err (HttpError 404 "Produto nao encontrado")))
        by (unfold_services; simpl; by rewrite Hp).
      rewrite Hr. intros [= <-]. apply http_error_is_service_error. by right.
  - destruct (carts db !! userId) as [c|] eqn:Hc.
    2:{ assert (Hr : CartService.updateItem userId itemId quantity notes db
                     = (db, Err (HttpError 404 "Carrinho nao encontrado")))
          by (unfold_services; simpl; by rewrite Hc).
        rewrite Hr. intros [= <-]. apply http_error_is_service_error. by right. }
    destruct (List.find (fun it => N.eqb (ci_id it) itemId
                                   && N.eqb (ci_cartId it) (cart_id c))
                        (cartItems db)) as [it|] eqn:Hfind.
    2:{ assert (Hr : CartService.updateItem userId itemId quantity notes db
                     = (db, Err (HttpError 404 "Item nao encontrado no carrinho")))
          by (unfold_services; simpl; by rewrite Hc, Hfind).
        rewrite Hr. intros [= <-]. apply http_error_is_service_error. by right. }
    unfold CartService.updateItem. remember (CartService.getCart userId) as g.
    unfold cart_findUnique, cartItem_findFirst, cartItem_delete, cartItem_update,
      bind, gets, modify.
    rewrite Hc. cbn beta iota. rewrite Hfind. cbn beta iota. subst g.
    destruct (CartService.nonpositive quantity).
    + destruct (getCart_existing userId c
                  (with_cartItems
                     (List.filter (fun it => negb (N.eqb (ci_id it) itemId))) db))
        as (items & -> & _); [|exact Hc|discriminate].
      apply Forall_filter_bool, (wf_products db Hwf).
    + match goal with
      | |- context [CartService.getCart userId ?d] =>
          destruct (getCart_existing userId c d) as (items & -> & _);
            [|exact Hc|discriminate]
      end.
      apply wf_products, wf_update_cartItems; [exact Hwf|].
      intros x. by destruct (N.eqb (ci_id x) itemId).
  - destruct (carts db !! userId) as [c|] eqn:Hc.
    2:{ assert (Hr : CartService.removeItem userId itemId db
                     = (db, Err (HttpError 404 "Carrinho nao encontrado")))
          by (unfold_services; simpl; by rewrite Hc).
        rewrite Hr. intros [= <-]. apply http_error_is_service_error. by right. }
    destruct (List.find (fun it => N.eqb (ci_id it) itemId
                                   && N.eqb (ci_cartId it) (cart_id c))
                        (cartItems db)) as [it|] eqn:Hfind.
    2:{ assert (Hr : CartService.removeItem userId itemId db
                     = (db, Err (HttpError 404 "Item nao encontrado no carrinho")))
          by (unfold_services; simpl; by rewrite Hc, Hfind).
        rewrite Hr. intros [= <-]. apply http_error_is_service_error. by right. }
    unfold CartService.removeItem. remember (CartService.getCart userId) as g.
    unfold cart_findUnique, cartItem_findFirst, cartItem_delete, bind, gets, modify.
    rewrite Hc. cbn beta iota. rewrite Hfind. cbn beta iota. subst g.
    destruct (getCart_existing userId c
                (with_cartItems
                   (List.filter (fun it => negb (N.eqb (ci_id it) itemId))) db))
      as (items & -> & _); [|exact Hc|discriminate].
    apply Forall_filter_bool, (wf_products db Hwf).
  - destruct (carts db !! userId) as [c|] eqn:Hc.
    2:{ assert (Hr : CartService.clearCart userId db
                     = (db, Err (HttpError 404 "Carrinho nao encontrado")))
          by (unfold_services; simpl; by rewrite Hc).
        rewrite Hr. intros [= <-]. apply http_error_is_service_error. by right. }
    unfold CartService.clearCart. remember (CartService.getCart userId) as g.
    unfold cart_findUnique, cartItem_deleteMany, bind, gets, modify.
    rewrite Hc. cbn beta iota. subst g.
    destruct (getCart_existing userId c
                (with_cartItems
                   (List.filter (fun it => negb (N.eqb (ci_cartId it) (cart_id c)))) db))
      as (items & -> & _); [|exact Hc|discriminate].
    apply Forall_filter_bool, (wf_products db Hwf).
  - pose proof (createFromCart_run fault userId notes now db) as Hrun.
    cbv zeta in Hrun.
    destruct (carts db !! userId) as [cart|] eqn:Hcart.
    2:{ rewrite Hrun. intros [= <-]. apply http_error_is_service_error. by left. }
    destruct (include_product_total (products db)
                (items_of_cart (cart_id cart) (cartItems db))) as [l Hl].
    { apply Forall_filter_bool, (wf_products db Hwf). }
    rewrite Hl in Hrun.
    destruct l as [|ip0 l0].
    { rewrite Hrun. intros [= <-]. apply http_error_is_service_error. by left. }
    destruct (List.find _ (ip0 :: l0)) as [ip|].
    { rewrite Hrun. simpl. intros [= <-]. apply http_error_is_service_error. by left. }
    destruct Hrun as [[-> _] | (s & -> & _)]; [discriminate|].
    intros [= <-]. left. by exists s.
  - run_services; simpl; repeat (destruct_inner; simpl); try discriminate.
    all: intros [= <-]; apply http_error_is_service_error; auto.
  - run_services; simpl; repeat (destruct_inner; simpl); try discriminate.
    all: simplify_eq.
    all: intros [= <-]; apply http_error_is_service_error; auto.
  - run_services; simpl; repeat (destruct_inner; simpl); try discriminate.
    all: simplify_eq.
    all: intros [= <-]; apply http_error_is_service_error; auto.
Qed.

(** X23: what a failed cart or order request looks like to the client.  On a
    store that keeps its foreign keys, a service either lost a statement of
    the store or threw an error with the status 400 or 404; [errorMiddleware]
    answers such an error with that status, with the message of the service
    and the stack trace outside production, and in production with the
    message 'Erro interno do servidor' and no stack trace, for a 400 and a
    404 as well. *)
Theorem service_errors_over_http req db e production stack :
  wf db ->
  response_error (snd (handle req db)) = Some e ->
  (exists s, e = StoreFault s) \/
  exists st msg,
    e = HttpError st msg /\ (st = 400 \/ st = 404) /\
    errorMiddleware production (thrown st msg stack)
    = mkErrorResponse st
        (if production then "Erro interno do servidor" else msg)
        (if production then None else stack).
Proof.
  intros Hwf He.
  destruct (handle_errors req db e Hwf He) as [Hs | (st & c & msg & -> & Hst)];
    [by left|].
  right. exists st, (String c msg). split; [reflexivity|]. split; [exact Hst|].
  unfold errorMiddleware, thrown, code_is. simpl.
  destruct Hst as [-> | ->]; by destruct production.
Qed.

Lemma service_errors_over_http_witness :
  (exists s, HttpError 404 "Produto nao encontrado" = StoreFault s) \/
  exists st msg,
    HttpError 404 "Produto nao encontrado" = HttpError st msg /\
    (st = 400 \/ st = 404) /\
    errorMiddleware true (thrown st msg (Some "at CartService.addItem"))
    = mkErrorResponse st "Erro interno do servidor" None.
Proof.
  apply (service_errors_over_http (AddItem 7%N 99%N None None 100) demo_db
           (HttpError 404 "Produto nao encontrado") true
           (Some "at CartService.addItem")).
  - compute_done.
  - reflexivity.
Defined.

(** X24: the environment decides only how much [errorMiddleware] tells: for
    every error the status in production is the status outside it, the
    answer in production has no stack trace, and its message is either the
    one given outside production or 'Erro interno do servidor'. *)
Theorem errorMiddleware_production_hides err :
  res_status (errorMiddleware true err) = res_status (errorMiddleware false err) /\
  res_stack (errorMiddleware true err) = None /\
  (res_message (errorMiddleware true err) = res_message (errorMiddleware false err) \/
   res_message (errorMiddleware true err) = "Erro interno do servidor").
Proof.
  unfold errorMiddleware.
  destruct (code_is err "P2025"); [by auto|].
  destruct (code_is err "P2002"); [by auto|].
  destruct (code_is err "P2003"); [by auto|].
  destruct (String.eqb (err_name err) "ValidationError"); [by auto|].
  destruct (String.eqb (err_name err) "JsonWebTokenError"); [by auto|].
  destruct (String.eqb (err_name err) "TokenExpiredError"); [by auto|].
  simpl. auto.
Qed.
